(** * OpenVPN exporter: the status-document parsers

    A shallow embedding of [exporters/openvpn_exporter.go]: the format
    detector [collectStatusFromReader], the three dialect parsers
    ([collectServerStatusFromReader] for versions 2 and 3,
    [collectServerStatusFromReaderV4], [collectClientStatusFromReader]) and
    the label de-duplication helpers [contains] and [subslice], and the
    collector methods [Describe] and [Collect] with [collectStatusFromFile].

    Go maps are finite maps ([gmap]); the channel the parsers send metrics
    on is the list of metrics sent, in order; a parser returns that list
    together with its [error] result ([None] is Go's [nil]). *)

From Stdlib Require Import ZArith Ascii String List Lia.
From stdpp Require Import gmap strings list fin_maps.

Open Scope string_scope.
Open Scope list_scope.

(** ** The pieces of Go's [strings], [bytes] and [bufio] the parsers call *)

Module strings.

(** [strings.HasPrefix(s, prefix)], also [bytes.HasPrefix]. *)
Fixpoint HasPrefix (s prefix : string) {struct prefix} : bool :=
  match prefix, s with
  | EmptyString, _ => true
  | String _ _, EmptyString => false
  | String p prefix', String c s' => Ascii.eqb c p && HasPrefix s' prefix'
  end.

(** [strings.Contains(s, substr)]. *)
Fixpoint Contains (s substr : string) : bool :=
  HasPrefix s substr ||
  match s with
  | EmptyString => false
  | String _ s' => Contains s' substr
  end.

(** [strings.Split(s, sep)] for a one-byte separator, which is what both
    callers pass ([","] and the tab): the fields between the occurrences
    of [sep], always at least one field. *)
Fixpoint Split (s : string) (sep : ascii) : list string :=
  match s with
  | EmptyString => [EmptyString]
  | String c s' =>
      if Ascii.eqb c sep then EmptyString :: Split s' sep
      else match Split s' sep with
           | [] => [String c EmptyString]
           | f :: fs => String c f :: fs
           end
  end.

(** The first [n] bytes of [s] (all of [s] when it is shorter). *)
Fixpoint first_bytes (n : nat) (s : string) : string :=
  match n, s with
  | S n', String c s' => String c (first_bytes n' s')
  | _, _ => EmptyString
  end.

End strings.

Definition tab : ascii := ascii_of_nat 9.
Definition newline : ascii := ascii_of_nat 10.
Definition carriage_return : ascii := ascii_of_nat 13.

(** The literal [TITLE] followed by a tab. *)
Definition tabTitle : string :=
  String "T" (String "I" (String "T" (String "L" (String "E" (String tab EmptyString))))).

(** The errors the parsers return.  Each carries what the Go error value
    is built from. *)
Inductive error : Type :=
  | UnexpectedFileContents (buf : string)
      (* fmt.Errorf("unexpected file contents: %q", buf) *)
  | ShouldBePrecededByHeaders (key : string)
      (* fmt.Errorf("%s should be preceded by HEADERS", fields[0]) *)
  | DifferentNumberOfColumns (key : string)
      (* fmt.Errorf("HEADER for %s describes a different number of columns", fields[0]) *)
  | UnsupportedKey (key : string)
      (* fmt.Errorf("unsupported key: %q", fields[0]) *)
  | NumError (num : string)
      (* the *strconv.NumError of strconv.ParseFloat *)
  | TimeParseError (layout value : string)
      (* the *time.ParseError of time.Parse and time.ParseInLocation *)
  | ReadError (msg : string)
      (* whatever the underlying reader failed with *)
  | ErrTooLong.
      (* bufio.ErrTooLong, "bufio.Scanner: token too long" *)

Module bufio.

(** An [io.Reader]: the bytes it delivers and the error that ends them
    ([None] for [io.EOF]).  The error comes from a [Read] of its own, after
    the last bytes, and from every [Read] after that one, as it does from
    the [*os.File] that [collectStatusFromFile] passes and from the
    [bufio.Reader] that [collectStatusFromReader] wraps around it. *)
Record Reader : Type := {
  data : string;
  readErr : option error
}.

(** [reader.Peek(n)]: the first [n] bytes, or what there is when the
    stream is shorter (the error [Peek] then reports is dropped by the
    caller). *)
Definition Peek (r : Reader) (n : nat) : string :=
  strings.first_bytes n (data r).

(** [dropCR]: a trailing carriage return is removed from a line. *)
Definition dropCR (line : string) : string :=
  match String.length line with
  | O => line
  | S n =>
      match String.get n line with
      | Some c => if Ascii.eqb c carriage_return
                  then strings.first_bytes n line else line
      | None => line
      end
  end.

(** The lines [bufio.ScanLines] cuts a stream into, before [dropCR].  A
    line ends at a newline ([true]); what follows the last newline is a
    line of its own unless it is empty, and that line has no newline
    after it ([false]). *)
Fixpoint scanLines (stream : string) : list (string * bool) :=
  match stream with
  | EmptyString => []
  | String c stream' =>
      if Ascii.eqb c newline then (EmptyString, true) :: scanLines stream'
      else match scanLines stream' with
           | [] => [(String c EmptyString, false)]
           | (line, terminated) :: lines => (String c line, terminated) :: lines
           end
  end.

(** [MaxScanTokenSize = 64 * 1024], the size the buffer of a scanner grows
    to. *)
Definition MaxScanTokenSize : N := (64 * 1024)%N.

(** A line fits the buffer when the scanner finds its newline, or the end
    of the stream, before the buffer is full: when it has fewer than
    [MaxScanTokenSize] bytes, the newline not counted. *)
Definition fits (line : string * bool) : bool :=
  (N.of_nat (String.length line.1) <? MaxScanTokenSize)%N.

(** The lines before the first one that does not fit. *)
Fixpoint fitting (lines : list (string * bool)) : list (string * bool) :=
  match lines with
  | [] => []
  | line :: lines' => if fits line then line :: fitting lines' else []
  end.

(** A [bufio.Scanner] splitting on [ScanLines], seen from its user:
    - [tokens]: the texts the successive [Scan()] calls yield, until one
      returns false: at the end of the stream, or at a line that does not
      fit the buffer;
    - [Err]: what [Err()] returns once a [Scan()] call has returned false:
      [ErrTooLong] at a line that does not fit, and otherwise the error
      the reader ended with;
    - [lastAtEOF]: whether the last of the tokens is a line without a
      newline after it, which the scanner yields only after it has read
      to the end of the stream. *)
Record Scanner : Type := {
  tokens : list string;
  lastAtEOF : bool;
  Err : option error
}.

Definition NewScanner (file : Reader) : Scanner :=
  let lines := scanLines (data file) in
  {| tokens := map (λ line, dropCR line.1) (fitting lines);
     lastAtEOF := forallb fits lines &&
                  match last lines with
                  | Some (_, false) => true
                  | _ => false
                  end;
     Err := if forallb fits lines then readErr file else Some ErrTooLong |}.

(** [Err()] after [n] calls of [Scan()] that returned true, when [Scan()]
    is not called again.  A line that ends in a newline is yielded from
    the buffer, before the scanner reads on: it has then met no error,
    whatever the reader holds after that line.  Only the line without a
    newline at the end of the stream is yielded after the reader has
    ended, with the error it ended with. *)
Definition ErrAfter (s : Scanner) (n : nat) : option error :=
  if (n =? length (tokens s))%nat && lastAtEOF s then Err s else None.

End bufio.

(** ** What the Go runtime and standard library provide

    Floating point numbers and the parsers of [strconv] and [time] are not
    part of the exporter: the development is parametric in them. *)
Class GoRuntime : Type := {
  float64 : Type;
  (** the conversion [float64(n)] of an integer *)
  float64_of_int : Z → float64;
  (** [strconv.ParseFloat(s, 64)]; [None] when the error is not [nil] *)
  ParseFloat : string → option float64;
  (** [strings.TrimSpace] *)
  TrimSpace : string → string;
  (** [time.Parse(layout, value)] followed by [Unix()]; [None] on an error *)
  time_Parse : string → string → option Z;
  (** [time.ParseInLocation(layout, value, location)] for the location
      ["Local"], followed by [Unix()]; [None] on an error *)
  time_ParseInLocation_Local : string → string → option Z
}.

(** Go's [int] is 64 bits wide: [n++] wraps around. *)
Definition int_wrap (n : Z) : Z := (n + 2 ^ 63) mod 2 ^ 64 - 2 ^ 63.
Definition int_incr (n : Z) : Z := int_wrap (n + 1).

(** ** [unicode/utf8] *)

Module utf8.

(** The bytes of [s] from a position where [need] continuation bytes of a
    character are still expected, the next of them between [lo] and [hi]:
    the ranges of the table of well-formed byte sequences. *)
Fixpoint validFrom (s : string) (need : nat) (lo hi : N) : bool :=
  match s with
  | EmptyString => (need =? 0)%nat
  | String c s' =>
      let b := N_of_ascii c in
      match need with
      | O =>
          if (b <? 128)%N then validFrom s' 0 128 191
          else if (194 <=? b)%N && (b <=? 223)%N then validFrom s' 1 128 191
          else if (b =? 224)%N then validFrom s' 2 160 191
          else if (225 <=? b)%N && (b <=? 236)%N then validFrom s' 2 128 191
          else if (b =? 237)%N then validFrom s' 2 128 159
          else if (238 <=? b)%N && (b <=? 239)%N then validFrom s' 2 128 191
          else if (b =? 240)%N then validFrom s' 3 144 191
          else if (241 <=? b)%N && (b <=? 243)%N then validFrom s' 3 128 191
          else if (b =? 244)%N then validFrom s' 3 128 143
          else false
      | S need' =>
          (lo <=? b)%N && (b <=? hi)%N && validFrom s' need' 128 191
      end
  end.

(** [utf8.ValidString(s)] *)
Definition ValidString (s : string) : bool := validFrom s 0 128 191.

End utf8.

(** ** The part of the Prometheus client the exporter uses *)

Module prometheus.

Inductive ValueType : Type := CounterValue | GaugeValue | UntypedValue.

(** A metric descriptor.  The exporter builds every descriptor once and
    with a name of its own, so comparing descriptors by their contents
    agrees with comparing the pointers the Go code holds. *)
Record Desc : Type := {
  fqName : string;
  help : string;
  variableLabels : list string
}.

Definition BuildFQName (namespace subsystem name : string) : string :=
  if name =? "" then ""
  else if negb (namespace =? "") && negb (subsystem =? "")
       then namespace +:+ "_" +:+ subsystem +:+ "_" +:+ name
  else if negb (namespace =? "") then namespace +:+ "_" +:+ name
  else if negb (subsystem =? "") then subsystem +:+ "_" +:+ name
  else name.

Definition NewDesc (fqName help : string) (variableLabels : list string) : Desc :=
  {| fqName := fqName; help := help; variableLabels := variableLabels |}.

(** [validateLabelValues(vals, expectedNumberOfValues)]: [true] when it
    returns [nil], that is when there are as many values as expected and
    each of them is valid UTF-8. *)
Definition validateLabelValues (vals : list string) (expectedNumberOfValues : nat)
    : bool :=
  (length vals =? expectedNumberOfValues)%nat && forallb utf8.ValidString vals.

(** A call [MustNewConstMetric(desc, valueType, value, labelValues...)]:
    the metric the parsers send on the channel, when the call returns. *)
Record Metric `{GoRuntime} : Type := {
  desc : Desc;
  valueType : ValueType;
  value : float64;
  labelValues : list string
}.

Definition MustNewConstMetric `{GoRuntime} (d : Desc) (t : ValueType)
    (v : float64) (labelValues : list string) : Metric :=
  {| desc := d; valueType := t; value := v; labelValues := labelValues |}.

(** [MustNewConstMetric] returns only when [validateLabelValues] accepts
    the label values for the labels of the descriptor; otherwise it
    panics with the error of [NewConstMetric].  (The descriptors of the
    exporter are built from constant names that [NewDesc] accepts, so the
    other error of [NewConstMetric], the one stored in the descriptor,
    does not arise.)

    The exporter sends each metric as soon as the call has built it and
    recovers from no panic.  The lists of metrics defined below are
    therefore lists of calls, in the order the program makes them: a run
    of the program makes these calls up to the first one that [panics],
    sends the metrics of the calls before it, and ends in that panic. *)
Definition panics `{GoRuntime} (m : Metric) : bool :=
  negb (validateLabelValues (labelValues m) (length (variableLabels (desc m)))).

#[global] Instance ValueType_eq_dec : EqDecision ValueType.
Proof. solve_decision. Defined.

#[global] Instance ValueType_countable : Countable ValueType.
Proof.
  refine (inj_countable'
    (λ t, match t with CounterValue => 0 | GaugeValue => 1 | UntypedValue => 2 end)
    (λ n, match n with 0 => CounterValue | 1 => GaugeValue | _ => UntypedValue end) _).
  by intros [].
Defined.

#[global] Instance Desc_eq_dec : EqDecision Desc.
Proof. solve_decision. Defined.

#[global] Instance Desc_countable : Countable Desc.
Proof.
  refine (inj_countable'
    (λ d, (fqName d, help d, variableLabels d))
    (λ t, NewDesc t.1.1 t.1.2 t.2) _).
  by intros [].
Defined.

End prometheus.

(** ** The exporter *)

Record OpenvpnServerHeaderField : Type := {
  Column : string;
  Desc : prometheus.Desc;
  ValueType : prometheus.ValueType
}.

Record OpenvpnServerHeader : Type := {
  LabelColumns : list string;
  Metrics : list OpenvpnServerHeaderField
}.

Record OpenVPNExporter : Type := {
  statusPaths : list string;
  openvpnUpDesc : prometheus.Desc;
  openvpnStatusUpdateTimeDesc : prometheus.Desc;
  openvpnConnectedClientsDesc : prometheus.Desc;
  openvpnClientDescs : gmap string prometheus.Desc;
  openvpnServerHeaders : gmap string OpenvpnServerHeader
}.

#[global] Instance OpenvpnServerHeaderField_eq_dec : EqDecision OpenvpnServerHeaderField.
Proof. solve_decision. Defined.

#[global] Instance OpenvpnServerHeaderField_countable : Countable OpenvpnServerHeaderField.
Proof.
  refine (inj_countable'
    (λ f, (Column f, Desc f, ValueType f))
    (λ t, {| Column := t.1.1; Desc := t.1.2; ValueType := t.2 |}) _).
  by intros [].
Defined.

Definition NewOpenVPNExporter (statusPaths : list string) (ignoreIndividuals : bool)
    : OpenVPNExporter :=
  (* Metrics exported both for client and server statistics. *)
  let openvpnUpDesc := prometheus.NewDesc
    (prometheus.BuildFQName "openvpn" "" "up")
    "Whether scraping OpenVPN's metrics was successful."
    ["status_path"] in
  let openvpnStatusUpdateTimeDesc := prometheus.NewDesc
    (prometheus.BuildFQName "openvpn" "" "status_update_time_seconds")
    "UNIX timestamp at which the OpenVPN statistics were updated."
    ["status_path"] in
  (* Metrics specific to OpenVPN servers. *)
  let openvpnConnectedClientsDesc := prometheus.NewDesc
    (prometheus.BuildFQName "openvpn" "" "server_connected_clients")
    "Number Of Connected Clients"
    ["status_path"] in
  (* Metrics specific to OpenVPN clients. *)
  let openvpnClientDescs : gmap string prometheus.Desc := list_to_map [
    ("TUN/TAP read bytes", prometheus.NewDesc
      (prometheus.BuildFQName "openvpn" "client" "tun_tap_read_bytes_total")
      "Total amount of TUN/TAP traffic read, in bytes."
      ["status_path"]);
    ("TUN/TAP write bytes", prometheus.NewDesc
      (prometheus.BuildFQName "openvpn" "client" "tun_tap_write_bytes_total")
      "Total amount of TUN/TAP traffic written, in bytes."
      ["status_path"]);
    ("TCP/UDP read bytes", prometheus.NewDesc
      (prometheus.BuildFQName "openvpn" "client" "tcp_udp_read_bytes_total")
      "Total amount of TCP/UDP traffic read, in bytes."
      ["status_path"]);
    ("TCP/UDP write bytes", prometheus.NewDesc
      (prometheus.BuildFQName "openvpn" "client" "tcp_udp_write_bytes_total")
      "Total amount of TCP/UDP traffic written, in bytes."
      ["status_path"]);
    ("Auth read bytes", prometheus.NewDesc
      (prometheus.BuildFQName "openvpn" "client" "auth_read_bytes_total")
      "Total amount of authentication traffic read, in bytes."
      ["status_path"]);
    ("pre-compress bytes", prometheus.NewDesc
      (prometheus.BuildFQName "openvpn" "client" "pre_compress_bytes_total")
      "Total amount of data before compression, in bytes."
      ["status_path"]);
    ("post-compress bytes", prometheus.NewDesc
      (prometheus.BuildFQName "openvpn" "client" "post_compress_bytes_total")
      "Total amount of data after compression, in bytes."
      ["status_path"]);
    ("pre-decompress bytes", prometheus.NewDesc
      (prometheus.BuildFQName "openvpn" "client" "pre_decompress_bytes_total")
      "Total amount of data before decompression, in bytes."
      ["status_path"]);
    ("post-decompress bytes", prometheus.NewDesc
      (prometheus.BuildFQName "openvpn" "client" "post_decompress_bytes_total")
      "Total amount of data after decompression, in bytes."
      ["status_path"])
  ] in
  let serverHeaderClientLabels :=
    if ignoreIndividuals then ["status_path"; "common_name"]
    else ["status_path"; "common_name"; "connection_time"; "real_address";
          "virtual_address"; "username"] in
  let serverHeaderClientLabelColumns :=
    if ignoreIndividuals then ["Common Name"]
    else ["Common Name"; "Connected Since"; "Real Address"; "Virtual Address";
          "Common Name"] in
  let serverHeaderRoutingLabels :=
    if ignoreIndividuals then ["status_path"; "common_name"]
    else ["status_path"; "common_name"; "real_address"; "virtual_address"] in
  let serverHeaderRoutingLabelColumns :=
    if ignoreIndividuals then ["Common Name"]
    else ["Common Name"; "Real Address"; "Virtual Address"] in
  let openvpnServerHeaders : gmap string OpenvpnServerHeader :=
    <["CLIENT_LIST" := {|
        LabelColumns := serverHeaderClientLabelColumns;
        Metrics := [
          {| Column := "Bytes Received";
             Desc := prometheus.NewDesc
               (prometheus.BuildFQName "openvpn" "server" "client_received_bytes_total")
               "Amount of data received over a connection on the VPN server, in bytes."
               serverHeaderClientLabels;
             ValueType := prometheus.CounterValue |};
          {| Column := "Bytes Sent";
             Desc := prometheus.NewDesc
               (prometheus.BuildFQName "openvpn" "server" "client_sent_bytes_total")
               "Amount of data sent over a connection on the VPN server, in bytes."
               serverHeaderClientLabels;
             ValueType := prometheus.CounterValue |}
        ] |}]>
    (<["ROUTING_TABLE" := {|
        LabelColumns := serverHeaderRoutingLabelColumns;
        Metrics := [
          {| Column := "Last Ref (time_t)";
             Desc := prometheus.NewDesc
               (prometheus.BuildFQName "openvpn" "server" "route_last_reference_time_seconds")
               "Time at which a route was last referenced, in seconds."
               serverHeaderRoutingLabels;
             ValueType := prometheus.GaugeValue |}
        ] |}]> ∅) in
  {| statusPaths := statusPaths;
     openvpnUpDesc := openvpnUpDesc;
     openvpnStatusUpdateTimeDesc := openvpnStatusUpdateTimeDesc;
     openvpnConnectedClientsDesc := openvpnConnectedClientsDesc;
     openvpnClientDescs := openvpnClientDescs;
     openvpnServerHeaders := openvpnServerHeaders |}.

(** ** Label de-duplication *)

(** Does slice contain string *)
Fixpoint contains (s : list string) (e : string) : bool :=
  match s with
  | [] => false
  | a :: s' => if a =? e then true else contains s' e
  end.

(** The [for _, s := range sub] loop of [subslice]. *)
Fixpoint subslice_range (sub main : list string) : bool :=
  match sub with
  | [] => true
  | s :: sub' => if negb (contains main s) then false else subslice_range sub' main
  end.

(** Is a sub-slice of slice *)
Definition subslice (sub main : list string) : bool :=
  if (List.length main <? List.length sub)%nat then false
  else subslice_range sub main.

(** ** Loops over the scanner's lines *)

(** How the body of a [for scanner.Scan()] loop ends: it reaches the next
    iteration (also through [continue]), leaves the loop with [break], or
    returns an error from the enclosing function. *)
Inductive ctl (St : Type) : Type :=
  | Next (st : St)
  | Break (st : St)
  | Return (err : error).
Arguments Next {St} st.
Arguments Break {St} st.
Arguments Return {St} err.

Section loops.
Context `{GoRuntime} {St : Type}.

(** The metrics sent, and the state after the loop or the error returned
    from inside it. *)
Fixpoint forScan (body : St → string → list prometheus.Metric * ctl St)
    (st : St) (lines : list string) : list prometheus.Metric * (error + St) :=
  match lines with
  | [] => ([], inr st)
  | line :: rest =>
      match body st line with
      | (sent, Next st') =>
          let (sent', r) := forScan body st' rest in (sent ++ sent', r)
      | (sent, Break st') => (sent, inr st')
      | (sent, Return err) => (sent, inl err)
      end
  end.

(** When the loop is left by [break]: the number of [Scan()] calls made,
    all of which returned true. *)
Fixpoint brokeAfter (body : St → string → list prometheus.Metric * ctl St)
    (st : St) (lines : list string) : option nat :=
  match lines with
  | [] => None
  | line :: rest =>
      match body st line with
      | (_, Next st') => S <$> brokeAfter body st' rest
      | (_, Break _) => Some 1%nat
      | (_, Return _) => None
      end
  end.

End loops.

(** [fields[i]].  Every index the parsers read is in range, so the default
    is never the value read: [fields[0]] because [Split] returns at least
    one field ([Split_length]), the [fields[1]] of an [Updated,] line by
    [updated_second_field], the others under a test of [len(fields)]. *)
Definition index (fields : list string) (i : nat) : string := nth i fields "".

(** [m[k]] for a map of strings: the empty string when [k] is absent. *)
Definition valueOf (m : gmap string string) (k : string) : string :=
  default "" (m !! k).

Section parsers.
Context `{GoRuntime}.
Variable e : OpenVPNExporter.
Variable statusPath : string.

(** The loop [for _, metric := range header.Metrics] that the v2/v3 parser
    and both sections of the v4 parser run on a data row: a field whose
    column the row has, and whose labels [subslice] does not find in what
    was recorded for it, is parsed, sent and recorded.  (The log line of
    the other case has no effect on the result.) *)
Fixpoint exportMetrics (columnValues : gmap string string) (labels : list string)
    (recordedMetrics : gmap OpenvpnServerHeaderField (list string))
    (metrics : list OpenvpnServerHeaderField)
    : list prometheus.Metric * (error + gmap OpenvpnServerHeaderField (list string)) :=
  match metrics with
  | [] => ([], inr recordedMetrics)
  | metric :: rest =>
      match columnValues !! Column metric with
      | Some columnValue =>
          let l := default [] (recordedMetrics !! metric) in
          if negb (subslice labels l) then
            match ParseFloat columnValue with
            | None => ([], inl (NumError columnValue))
            | Some value =>
                let (sent, r) :=
                  exportMetrics columnValues labels
                    (<[metric := l ++ labels]> recordedMetrics) rest in
                (prometheus.MustNewConstMetric (Desc metric) (ValueType metric)
                   value labels :: sent, r)
            end
          else exportMetrics columnValues labels recordedMetrics rest
      | None => exportMetrics columnValues labels recordedMetrics rest
      end
  end.

(** [labels := []string{statusPath}] followed by the loop appending
    [columnValues[column]] for each label column. *)
Definition extractLabels (columnValues : gmap string string)
    (labelColumns : list string) : list string :=
  statusPath :: map (valueOf columnValues) labelColumns.

(** *** Server status, versions 2 and 3 *)

Record serverState : Type := {
  headersFound : gmap string (list string);
  numberConnectedClient : Z;
  recordedMetrics : gmap OpenvpnServerHeaderField (list string)
}.

Definition serverState_init : serverState :=
  {| headersFound := ∅; numberConnectedClient := 0; recordedMetrics := ∅ |}.

(** [for _, column := range header.LabelColumns { columnValues[column] = "" }] *)
Definition presetLabelColumns (labelColumns : list string)
    (columnValues : gmap string string) : gmap string string :=
  foldl (λ m column, <[column := ""]> m) columnValues labelColumns.

(** [for i, column := range columnNames { columnValues[column] = fields[i+1] }],
    from index [i] on. *)
Fixpoint storeEntryValues (i : nat) (columnNames fields : list string)
    (columnValues : gmap string string) : gmap string string :=
  match columnNames with
  | [] => columnValues
  | column :: columnNames' =>
      storeEntryValues (S i) columnNames' fields
        (<[column := index fields (i + 1)]> columnValues)
  end.

(** The body of the loop of [collectServerStatusFromReader]. *)
Definition serverLine (separator : ascii) (st : serverState) (text : string)
    : list prometheus.Metric * ctl serverState :=
  let fields := strings.Split text separator in
  if (index fields 0 =? "END") && (length fields =? 1)%nat then
    (* Stats footer. *)
    ([], Next st)
  else if index fields 0 =? "GLOBAL_STATS" then
    (* Global server statistics. *)
    ([], Next st)
  else if (index fields 0 =? "HEADER") && (2 <? length fields)%nat then
    (* Column names for CLIENT_LIST and ROUTING_TABLE. *)
    ([], Next {| headersFound := <[index fields 1 := drop 2 fields]> (headersFound st);
                 numberConnectedClient := numberConnectedClient st;
                 recordedMetrics := recordedMetrics st |})
  else if (index fields 0 =? "TIME") && (length fields =? 3)%nat then
    (* Time at which the statistics were updated. *)
    match ParseFloat (index fields 2) with
    | None => ([], Return (NumError (index fields 2)))
    | Some timeStartStats =>
        ([prometheus.MustNewConstMetric (openvpnStatusUpdateTimeDesc e)
            prometheus.GaugeValue timeStartStats [statusPath]],
         Next st)
    end
  else if (index fields 0 =? "TITLE") && (length fields =? 2)%nat then
    (* OpenVPN version number. *)
    ([], Next st)
  else
    match openvpnServerHeaders e !! index fields 0 with
    | Some header =>
        let numberConnectedClient' :=
          if index fields 0 =? "CLIENT_LIST"
          then int_incr (numberConnectedClient st)
          else numberConnectedClient st in
        (* Entry that depends on a preceding HEADERS directive. *)
        match headersFound st !! index fields 0 with
        | None => ([], Return (ShouldBePrecededByHeaders (index fields 0)))
        | Some columnNames =>
            if negb (length fields =? length columnNames + 1)%nat then
              ([], Return (DifferentNumberOfColumns (index fields 0)))
            else
              (* Store entry values in a map indexed by column name. *)
              let columnValues :=
                storeEntryValues 0 columnNames fields
                  (presetLabelColumns (LabelColumns header) ∅) in
              (* Extract columns that should act as entry labels. *)
              let labels := extractLabels columnValues (LabelColumns header) in
              (* Export relevant columns as individual metrics. *)
              match exportMetrics columnValues labels (recordedMetrics st)
                      (Metrics header) with
              | (sent, inl err) => (sent, Return err)
              | (sent, inr recorded) =>
                  (sent, Next {| headersFound := headersFound st;
                                 numberConnectedClient := numberConnectedClient';
                                 recordedMetrics := recorded |})
              end
        end
    | None => ([], Return (UnsupportedKey (index fields 0)))
    end.

(** Converts OpenVPN server status information into Prometheus metrics. *)
Definition collectServerStatusFromReader (file : bufio.Reader) (separator : ascii)
    : list prometheus.Metric * option error :=
  let scanner := bufio.NewScanner file in
  match forScan (serverLine separator) serverState_init (bufio.tokens scanner) with
  | (sent, inl err) => (sent, Some err)
  | (sent, inr st) =>
      (* add the number of connected client *)
      (sent ++ [prometheus.MustNewConstMetric (openvpnConnectedClientsDesc e)
                  prometheus.GaugeValue
                  (float64_of_int (numberConnectedClient st)) [statusPath]],
       bufio.Err scanner)
  end.

(** *** Server status, version 4 *)

Record serverStateV4 : Type := {
  currentSection : string;
  headersFoundV4 : gmap string (list string);
  numberConnectedClientV4 : Z;
  recordedMetricsV4 : gmap OpenvpnServerHeaderField (list string)
}.

Definition serverStateV4_init : serverStateV4 :=
  {| currentSection := ""; headersFoundV4 := ∅; numberConnectedClientV4 := 0;
     recordedMetricsV4 := ∅ |}.

Definition setSection (st : serverStateV4) (section : string) : serverStateV4 :=
  {| currentSection := section; headersFoundV4 := headersFoundV4 st;
     numberConnectedClientV4 := numberConnectedClientV4 st;
     recordedMetricsV4 := recordedMetricsV4 st |}.

Definition setHeaders (st : serverStateV4) (section : string) (fields : list string)
    : serverStateV4 :=
  {| currentSection := currentSection st;
     headersFoundV4 := <[section := fields]> (headersFoundV4 st);
     numberConnectedClientV4 := numberConnectedClientV4 st;
     recordedMetricsV4 := recordedMetricsV4 st |}.

(** Helper function to parse time string into Unix timestamp *)
Definition parseTime (timeStr : string) : Z + error :=
  (* Parse time string in format "2024-10-21 09:23:08" *)
  match time_Parse "2006-01-02 15:04:05" (TrimSpace timeStr) with
  | None => inr (TimeParseError "2006-01-02 15:04:05" (TrimSpace timeStr))
  | Some unix => inl unix
  end.

(** [for i, value := range fields { if i < len(headers) { columnValues[headers[i]] = value } }],
    from index [i] on. *)
Fixpoint mapColumnValues (i : nat) (headers fields : list string)
    (columnValues : gmap string string) : gmap string string :=
  match fields with
  | [] => columnValues
  | value :: fields' =>
      mapColumnValues (S i) headers fields'
        (if (i <? length headers)%nat
         then <[index headers i := value]> columnValues
         else columnValues)
  end.

(** A data row of section [section], whose registered header is [header]:
    column value mapping, labels and metrics.  [count] is the value the
    client counter has once the row is done. *)
Definition dataRowV4 (section : string) (header : OpenvpnServerHeader)
    (count : Z) (st : serverStateV4) (fields : list string)
    : list prometheus.Metric * ctl serverStateV4 :=
  (* Create column value mapping *)
  let headers := default [] (headersFoundV4 st !! section) in
  let columnValues := mapColumnValues 0 headers fields ∅ in
  (* Extract labels *)
  let labels := extractLabels columnValues (LabelColumns header) in
  (* Export metrics *)
  match exportMetrics columnValues labels (recordedMetricsV4 st) (Metrics header) with
  | (sent, inl err) => (sent, Return err)
  | (sent, inr recorded) =>
      (sent, Next {| currentSection := currentSection st;
                     headersFoundV4 := headersFoundV4 st;
                     numberConnectedClientV4 := count;
                     recordedMetricsV4 := recorded |})
  end.

(** The body of the loop of [collectServerStatusFromReaderV4]. *)
Definition serverLineV4 (st : serverStateV4) (line : string)
    : list prometheus.Metric * ctl serverStateV4 :=
  (* Skip empty lines *)
  if (String.length line =? 0)%nat then ([], Next st)
  (* Handle section headers without comma separator *)
  else if negb (strings.Contains line ",") && (line =? "OpenVPN CLIENT LIST") then
    ([], Next (setSection st "CLIENT_LIST"))
  else if negb (strings.Contains line ",") && (line =? "ROUTING TABLE") then
    ([], Next (setSection st "ROUTING_TABLE"))
  else if negb (strings.Contains line ",") && (line =? "GLOBAL STATS") then
    ([], Next (setSection st "GLOBAL_STATS"))
  else if negb (strings.Contains line ",") && (line =? "END") then
    ([], Break st)
  else
    let fields := strings.Split line "," in
    if currentSection st =? "CLIENT_LIST" then
      if strings.HasPrefix line "Updated," then
        (* Handle timestamp *)
        match parseTime (index fields 1) with
        | inr err => ([], Return err)
        | inl timeStartStats =>
            ([prometheus.MustNewConstMetric (openvpnStatusUpdateTimeDesc e)
                prometheus.GaugeValue (float64_of_int timeStartStats) [statusPath]],
             Next st)
        end
      else if strings.HasPrefix line "Common Name," then
        (* Store headers *)
        ([], Next (setHeaders st "CLIENT_LIST" fields))
      else
        (* Handle client data *)
        match openvpnServerHeaders e !! "CLIENT_LIST" with
        | Some header =>
            dataRowV4 "CLIENT_LIST" header
              (int_incr (numberConnectedClientV4 st)) st fields
        | None => ([], Next st)
        end
    else if currentSection st =? "ROUTING_TABLE" then
      if strings.HasPrefix line "Virtual Address," then
        ([], Next (setHeaders st "ROUTING_TABLE" fields))
      else
        match openvpnServerHeaders e !! "ROUTING_TABLE" with
        | Some header =>
            dataRowV4 "ROUTING_TABLE" header (numberConnectedClientV4 st) st fields
        | None => ([], Next st)
        end
    else ([], Next st).

(** Converts OpenVPN server status information into Prometheus metrics. *)
Definition collectServerStatusFromReaderV4 (file : bufio.Reader)
    : list prometheus.Metric * option error :=
  let scanner := bufio.NewScanner file in
  match forScan serverLineV4 serverStateV4_init (bufio.tokens scanner) with
  | (sent, inl err) => (sent, Some err)
  | (sent, inr st) =>
      (* Add the number of connected clients metric *)
      (sent ++ [prometheus.MustNewConstMetric (openvpnConnectedClientsDesc e)
                  prometheus.GaugeValue
                  (float64_of_int (numberConnectedClientV4 st)) [statusPath]],
       (* return scanner.Err(): after the [break] at the [END] line, or
          after the [Scan()] call that returned false *)
       match brokeAfter serverLineV4 serverStateV4_init (bufio.tokens scanner) with
       | Some n => bufio.ErrAfter scanner n
       | None => bufio.Err scanner
       end)
  end.

(** *** Client status *)

(** The body of the loop of [collectClientStatusFromReader]; the loop has
    no state. *)
Definition clientLine (st : unit) (text : string)
    : list prometheus.Metric * ctl unit :=
  let fields := strings.Split text "," in
  if (index fields 0 =? "END") && (length fields =? 1)%nat then
    (* Stats footer. *)
    ([], Next st)
  else if (index fields 0 =? "OpenVPN STATISTICS") && (length fields =? 1)%nat then
    (* Stats header. *)
    ([], Next st)
  else if (index fields 0 =? "Updated") && (length fields =? 2)%nat then
    (* Time at which the statistics were updated. *)
    match time_ParseInLocation_Local "Mon Jan 2 15:04:05 2006" (index fields 1) with
    | None =>
        ([], Return (TimeParseError "Mon Jan 2 15:04:05 2006" (index fields 1)))
    | Some unix =>
        ([prometheus.MustNewConstMetric (openvpnStatusUpdateTimeDesc e)
            prometheus.GaugeValue (float64_of_int unix) [statusPath]],
         Next st)
    end
  else
    match openvpnClientDescs e !! index fields 0 with
    | Some desc =>
        if (length fields =? 2)%nat then
          (* Traffic counters. *)
          match ParseFloat (index fields 1) with
          | None => ([], Return (NumError (index fields 1)))
          | Some value =>
              ([prometheus.MustNewConstMetric desc prometheus.CounterValue
                  value [statusPath]],
               Next st)
          end
        else ([], Return (UnsupportedKey (index fields 0)))
    | None => ([], Return (UnsupportedKey (index fields 0)))
    end.

(** Converts OpenVPN client status information into Prometheus metrics. *)
Definition collectClientStatusFromReader (file : bufio.Reader)
    : list prometheus.Metric * option error :=
  let scanner := bufio.NewScanner file in
  match forScan clientLine tt (bufio.tokens scanner) with
  | (sent, inl err) => (sent, Some err)
  | (sent, inr _) => (sent, bufio.Err scanner)
  end.

(** *** Format detection *)

(** Converts OpenVPN status information into Prometheus metrics. This
    function automatically detects whether the file contains server or
    client metrics. For server metrics, it also distinguishes between the
    version 2 and 3 file formats. *)
Definition collectStatusFromReader (file : bufio.Reader)
    : list prometheus.Metric * option error :=
  let buf := bufio.Peek file 18 in
  if strings.HasPrefix buf "TITLE," then
    (* Server statistics, using format version 2. *)
    collectServerStatusFromReader file ","
  else if strings.HasPrefix buf tabTitle then
    (* Server statistics, using format version 3. *)
    collectServerStatusFromReader file tab
  else if strings.HasPrefix buf "OpenVPN STATISTICS" then
    (* Client statistics. *)
    collectClientStatusFromReader file
  else if strings.HasPrefix buf "OpenVPN CLIENT LIS" then
    collectServerStatusFromReaderV4 file
  else
    ([], Some (UnexpectedFileContents buf)).

End parsers.

(** ** Scraping the configured status files *)

Section collect.
Context `{GoRuntime}.
Variable e : OpenVPNExporter.

(** [os.Open]: the file at a path, as the reader of its contents, or the
    error of the call. *)
Variable Open : string → bufio.Reader + error.

(** [collectStatusFromFile].  (The deferred [conn.Close()] does not change
    what is sent or returned.) *)
Definition collectStatusFromFile (statusPath : string)
    : list prometheus.Metric * option error :=
  match Open statusPath with
  | inr err => ([], Some err)
  | inl conn => collectStatusFromReader e statusPath conn
  end.

(** The [openvpn_up] gauge of a status path; the constants [1.0] and [0.0]
    of the source are [float64(1)] and [float64(0)]. *)
Definition upMetric (statusPath : string) (err : option error) : prometheus.Metric :=
  prometheus.MustNewConstMetric (openvpnUpDesc e) prometheus.GaugeValue
    (match err with
     | None => float64_of_int 1
     | Some _ => float64_of_int 0
     end)
    [statusPath].

(** The loop [for _, statusPath := range e.statusPaths] of [Collect]. *)
Fixpoint Collect_range (statusPaths : list string) : list prometheus.Metric :=
  match statusPaths with
  | [] => []
  | statusPath :: rest =>
      let (sent, err) := collectStatusFromFile statusPath in
      sent ++ upMetric statusPath err :: Collect_range rest
  end.

(** [Collect]: what is sent on the channel. *)
Definition Collect : list prometheus.Metric := Collect_range (statusPaths e).

(** [Describe]: the descriptors sent on the channel. *)
Definition Describe : list prometheus.Desc := [openvpnUpDesc e].

End collect.

(** ** A runtime to evaluate the parsers on concrete documents

    Floats are the integers, [ParseFloat] reads unsigned decimal integers
    (and fails on anything else), the local time zone is UTC and the time
    parsers know the two timestamps of the sample documents. *)
Module Sample.

Fixpoint decimal (acc : Z) (s : string) : option Z :=
  match s with
  | EmptyString => Some acc
  | String c s' =>
      let n := Z.of_nat (nat_of_ascii c) in
      if (48 <=? n)%Z && (n <=? 57)%Z then decimal (10 * acc + (n - 48))%Z s'
      else None
  end.

Definition runtime : GoRuntime := {|
  float64 := Z;
  float64_of_int := λ n, n;
  ParseFloat := λ s, if s =? "" then None else decimal 0 s;
  TrimSpace := λ s, s;
  time_Parse := λ layout value,
    if (layout =? "2006-01-02 15:04:05") && (value =? "2024-10-21 09:23:08")
    then Some 1729502588%Z else None;
  time_ParseInLocation_Local := λ layout value,
    if (layout =? "Mon Jan 2 15:04:05 2006") && (value =? "Sun Oct 20 09:23:08 2024")
    then Some 1729416188%Z else None
|}.

(** The stream made of the given lines, each ended by a newline, read
    without an error. *)
Definition document (lines : list string) : bufio.Reader :=
  {| bufio.data := foldr (λ line rest, line +:+ String newline rest) "" lines;
     bufio.readErr := None |}.

(** The stream made of the given lines, each ended by a newline, and of
    [tail] after them, at the end of which the reader fails. *)
Definition failing (lines : list string) (tail : string) : bufio.Reader :=
  {| bufio.data := foldr (λ line rest, line +:+ String newline rest) tail lines;
     bufio.readErr := Some (ReadError "read: input/output error") |}.

(** A line of [MaxScanTokenSize] bytes. *)
Definition long : string := N.iter 65536 (String "a"%char) EmptyString.

Definition path : string := "/var/run/openvpn.status".

Definition exporter : OpenVPNExporter := NewOpenVPNExporter [path] false.

(** A metric sent under this runtime, as its name, value and label
    values. *)
Definition view (m : @prometheus.Metric runtime) : string * Z * list string :=
  (prometheus.fqName (prometheus.desc m), prometheus.value m,
   prometheus.labelValues m).

(** The scan of the document made of [lines]: the metrics sent and the
    error returned. *)
Definition scan (lines : list string) : list (string * Z * list string) * option error :=
  let r := collectStatusFromReader (H := runtime) exporter path (document lines) in
  (map view r.1, r.2).

(** The files of this runtime: the status file at [path], and no other. *)
Definition Open (name : string) : bufio.Reader + error :=
  if name =? path
  then inl (document ["TITLE,OpenVPN 2.4.7";
                      "HEADER,CLIENT_LIST,Common Name,Real Address,Bytes Received,Bytes Sent";
                      "CLIENT_LIST,alice,192.0.2.1:1194,100,200";
                      "END"])
  else inr (ReadError "open: no such file or directory").

End Sample.

(** ** Notions used to state the properties *)

Section reach.
Context `{GoRuntime} {St : Type}.

(** The loop reads all of [lines] without leaving: the metrics sent while
    doing so and the state in which the line after them is read. *)
Fixpoint runsTo (body : St → string → list prometheus.Metric * ctl St)
    (st : St) (lines : list string) : option (list prometheus.Metric * St) :=
  match lines with
  | [] => Some ([], st)
  | line :: rest =>
      match body st line with
      | (sent, Next st') =>
          match runsTo body st' rest with
          | Some (sent', st'') => Some (sent ++ sent', st'')
          | None => None
          end
      | _ => None
      end
  end.

End reach.

(** The stream made of [lines], each ended by a newline, followed by
    [tail]. *)
Definition streamOf (lines : list string) (tail : string) : string :=
  foldr (λ line rest, line +:+ String newline rest) tail lines.

(** A text without a newline. *)
Fixpoint noNewline (s : string) : bool :=
  match s with
  | EmptyString => true
  | String c s' => negb (Ascii.eqb c newline) && noNewline s'
  end.

(** The first field of a line. *)
Definition firstField (separator : ascii) (text : string) : string :=
  index (strings.Split text separator) 0.

(** A [HEADER] line of a v2/v3 document that gives the columns of
    [section]. *)
Definition isHeaderFor (separator : ascii) (section text : string) : bool :=
  let fields := strings.Split text separator in
  (index fields 0 =? "HEADER") && (2 <? length fields)%nat && (index fields 1 =? section).

(** The number of [CLIENT_LIST] lines of a v2/v3 document. *)
Definition clientListRows (separator : ascii) (lines : list string) : nat :=
  length (filter (λ text, firstField separator text = "CLIENT_LIST") lines).

(** A section title or the [END] line of a v4 document. *)
Definition isTitleV4 (line : string) : bool :=
  (line =? "OpenVPN CLIENT LIST") || (line =? "ROUTING TABLE") ||
  (line =? "GLOBAL STATS") || (line =? "END").

(** A data row of [section] in a v4 document: a line that is not empty, not
    a title, and not one of the lines the section treats specially. *)
Definition isDataRowV4 (section line : string) : bool :=
  negb (line =? "") && negb (isTitleV4 line) &&
  (if section =? "CLIENT_LIST" then
     negb (strings.HasPrefix line "Updated,") &&
     negb (strings.HasPrefix line "Common Name,")
   else if section =? "ROUTING_TABLE" then
     negb (strings.HasPrefix line "Virtual Address,")
   else false).

(** The number of data rows of the [CLIENT_LIST] section of a v4 document,
    up to its [END] line; [section] is the section the first line is in. *)
Fixpoint clientListRowsV4 (section : string) (lines : list string) : nat :=
  match lines with
  | [] => 0
  | line :: rest =>
      if line =? "" then clientListRowsV4 section rest
      else if line =? "OpenVPN CLIENT LIST" then clientListRowsV4 "CLIENT_LIST" rest
      else if line =? "ROUTING TABLE" then clientListRowsV4 "ROUTING_TABLE" rest
      else if line =? "GLOBAL STATS" then clientListRowsV4 "GLOBAL_STATS" rest
      else if line =? "END" then 0
      else if isDataRowV4 section line && (section =? "CLIENT_LIST")
           then S (clientListRowsV4 section rest)
      else clientListRowsV4 section rest
  end.

(** The state of the v4 loop after a row that only counted. *)
Definition counted (st : serverStateV4) (count : Z) : serverStateV4 :=
  {| currentSection := currentSection st;
     headersFoundV4 := headersFoundV4 st;
     numberConnectedClientV4 := count;
     recordedMetricsV4 := recordedMetricsV4 st |}.

(** The metric loop of a row meets a value that [ParseFloat] rejects: a
    field whose column has the value [value], reached after the fields
    before it were dealt with (sending [sent]), and that [subslice] does
    not find among the labels recorded for it. *)
Definition meetsRejected `{GoRuntime} (columnValues : gmap string string)
    (labels : list string) (recorded : gmap OpenvpnServerHeaderField (list string))
    (metrics : list OpenvpnServerHeaderField) (sent : list prometheus.Metric)
    (value : string) : Prop :=
  ∃ before field after recorded',
    metrics = before ++ field :: after ∧
    exportMetrics columnValues labels recorded before = (sent, inr recorded') ∧
    columnValues !! Column field = Some value ∧
    subslice labels (default [] (recorded' !! field)) = false ∧
    ParseFloat value = None.

(** The column values of a v2/v3 row and of a v4 row. *)
Definition rowValues (header : OpenvpnServerHeader) (columnNames fields : list string)
    : gmap string string :=
  storeEntryValues 0 columnNames fields (presetLabelColumns (LabelColumns header) ∅).

Definition rowValuesV4 (headers fields : list string) : gmap string string :=
  mapColumnValues 0 headers fields ∅.

(** What the comment of [subslice] announces: [sub] occurs in [main] as a
    run of consecutive elements. *)
Fixpoint isPrefixOf (sub main : list string) : bool :=
  match sub, main with
  | [], _ => true
  | _ :: _, [] => false
  | s :: sub', m :: main' => (s =? m) && isPrefixOf sub' main'
  end.

Fixpoint isContiguousRun (sub main : list string) : bool :=
  isPrefixOf sub main ||
  match main with
  | [] => false
  | _ :: main' => isContiguousRun sub main'
  end.

(** The metrics a server parser sends while it reads lines: the status
    update time, labelled with the status path alone, or a field of a
    registered section, labelled with the status path followed by one
    value for each label column of the section. *)
Definition lineMetric `{GoRuntime} (e : OpenVPNExporter) (statusPath : string)
    (m : prometheus.Metric) : Prop :=
  (prometheus.desc m = openvpnStatusUpdateTimeDesc e ∧
   prometheus.labelValues m = [statusPath]) ∨
  (∃ key header field values,
     openvpnServerHeaders e !! key = Some header ∧
     field ∈ Metrics header ∧
     prometheus.desc m = Desc field ∧
     prometheus.valueType m = ValueType field ∧
     prometheus.labelValues m = statusPath :: values ∧
     length values = length (LabelColumns header)).

(** The connected-clients gauge with value [float64(n)]. *)
Definition connectedClients `{GoRuntime} (e : OpenVPNExporter) (statusPath : string)
    (n : Z) : prometheus.Metric :=
  prometheus.MustNewConstMetric (openvpnConnectedClientsDesc e)
    prometheus.GaugeValue (float64_of_int n) [statusPath].

(** The four dialects and the detection rule in words: the literal the
    stream starts with, tried in this order; an unrecognized stream is
    reported with its first 18 bytes. *)
Inductive dialect : Type := ServerV2 | ServerV3 | Client | ServerV4.

Definition dialectOf (stream : string) : dialect + error :=
  if strings.HasPrefix stream "TITLE," then inl ServerV2
  else if strings.HasPrefix stream tabTitle then inl ServerV3
  else if strings.HasPrefix stream "OpenVPN STATISTICS" then inl Client
  else if strings.HasPrefix stream "OpenVPN CLIENT LIS" then inl ServerV4
  else inr (UnexpectedFileContents (strings.first_bytes 18 stream)).

(** The parser of a dialect. *)
Definition parserOf `{GoRuntime} (e : OpenVPNExporter) (statusPath : string)
    (d : dialect) (file : bufio.Reader) : list prometheus.Metric * option error :=
  match d with
  | ServerV2 => collectServerStatusFromReader e statusPath file ","
  | ServerV3 => collectServerStatusFromReader e statusPath file tab
  | Client => collectClientStatusFromReader e statusPath file
  | ServerV4 => collectServerStatusFromReaderV4 e statusPath file
  end.

(** The metrics a scan of any dialect sends: those of the lines of a
    server document, the connected-clients gauge, or a counter of the
    client table labelled with the status path. *)
Definition scanMetric `{GoRuntime} (e : OpenVPNExporter) (statusPath : string)
    (m : prometheus.Metric) : Prop :=
  lineMetric e statusPath m ∨
  (∃ n, m = connectedClients e statusPath n) ∨
  (∃ key desc, openvpnClientDescs e !! key = Some desc ∧
               prometheus.desc m = desc ∧
               prometheus.valueType m = prometheus.CounterValue ∧
               prometheus.labelValues m = [statusPath]).

(** The label values of the metrics sent for a field, one tuple after the
    other. *)
Definition labelsSentFor `{GoRuntime} (field : OpenvpnServerHeaderField)
    (sent : list prometheus.Metric) : list string :=
  concat (map prometheus.labelValues
            (filter (λ m, prometheus.desc m = Desc field) sent)).

(** The labels recorded for a field ([recordedMetrics[metric]], the empty
    slice when there is none). *)
Definition recordedFor (recorded : gmap OpenvpnServerHeaderField (list string))
    (field : OpenvpnServerHeaderField) : list string :=
  default [] (recorded !! field).

(** The metric of a field for a row with the given column values and
    labels: there is one when the row has a value for the column of the
    field and [ParseFloat] accepts it. *)
Definition metricOf `{GoRuntime} (columnValues : gmap string string)
    (labels : list string) (field : OpenvpnServerHeaderField)
    : option prometheus.Metric :=
  match columnValues !! Column field with
  | Some columnValue =>
      match ParseFloat columnValue with
      | Some value =>
          Some (prometheus.MustNewConstMetric (Desc field) (ValueType field) value labels)
      | None => None
      end
  | None => None
  end.

(** ** Strings and lines *)

Lemma HasPrefix_first_bytes (prefix : string) :
  ∀ (n : nat) (s : string), (String.length prefix ≤ n)%nat →
    strings.HasPrefix (strings.first_bytes n s) prefix = strings.HasPrefix s prefix.
Proof.
  induction prefix as [|p prefix IH]; intros n s Hn.
  - by destruct n, s.
  - simpl in Hn. destruct n as [|n]; [lia|].
    destruct s as [|c s]; simpl; [done|].
    rewrite IH; [done | lia].
Qed.

Lemma first_bytes_idemp (n : nat) :
  ∀ s : string, strings.first_bytes n (strings.first_bytes n s) = strings.first_bytes n s.
Proof.
  induction n as [|n IH]; intros [|c s]; simpl; try done.
  by rewrite IH.
Qed.

Lemma first_bytes_short (n : nat) :
  ∀ s, (String.length s ≤ n)%nat → strings.first_bytes n s = s.
Proof.
  induction n as [|n IH]; intros [|c s] Hlen; simpl in *; try done; [lia|].
  rewrite IH; [done | lia].
Qed.

Lemma first_bytes_app (head : string) :
  ∀ (n : nat) (rest : string), String.length head = n →
    strings.first_bytes n (head +:+ rest) = head.
Proof.
  induction head as [|c head IH]; intros n rest Hn; simpl in *.
  - subst n. by destruct rest.
  - destruct n as [|n]; [done|]. simpl. f_equal. apply IH. lia.
Qed.

Lemma Split_length (sep : ascii) (s : string) :
  (1 ≤ length (strings.Split s sep))%nat.
Proof.
  induction s as [|c s IH]; simpl; [lia|].
  destruct (Ascii.eqb c sep); simpl; [lia|].
  destruct (strings.Split s sep); simpl in *; lia.
Qed.

(** A line that starts with a prefix ending in the separator has a second
    field: the v4 parser's [fields[1]] is in range. *)
Lemma Split_prefix_length (sep : ascii) (before rest : string) :
  (2 ≤ length (strings.Split (before +:+ String sep rest) sep))%nat.
Proof.
  induction before as [|c before IH]; simpl.
  - rewrite Ascii.eqb_refl. simpl. pose proof (Split_length sep rest). lia.
  - destruct (Ascii.eqb c sep); simpl.
    + pose proof (Split_length sep (before +:+ String sep rest)). lia.
    + destruct (strings.Split (before +:+ String sep rest) sep); simpl in *; lia.
Qed.

Lemma HasPrefix_split (prefix : string) :
  ∀ s, strings.HasPrefix s prefix = true → ∃ rest, s = prefix +:+ rest.
Proof.
  induction prefix as [|p prefix IH]; intros s Hs; simpl in *.
  - by exists s.
  - destruct s as [|c s]; [done|].
    apply andb_true_iff in Hs as [Hc Hs]. apply Ascii.eqb_eq in Hc as ->.
    destruct (IH s Hs) as [rest ->]. by exists rest.
Qed.

(** The [fields[1]] that the v4 parser reads on an [Updated,] line
    exists. *)
Lemma updated_second_field (line : string) :
  strings.HasPrefix line "Updated," = true →
  (2 ≤ length (strings.Split line ","))%nat.
Proof.
  intros [rest ->]%HasPrefix_split.
  apply (Split_prefix_length "," "Updated" rest).
Qed.

Lemma Split_empty (sep : ascii) : strings.Split "" sep = [""].
Proof. reflexivity. Qed.

(** ** The scanner *)

Lemma ErrAfter_None (s : bufio.Scanner) (n : nat) :
  bufio.Err s = None → bufio.ErrAfter s n = None.
Proof. unfold bufio.ErrAfter. intros ->. by destruct (_ && _). Qed.

Lemma ErrAfter_cases (s : bufio.Scanner) (n : nat) :
  bufio.ErrAfter s n = None ∨
  ((n = length (bufio.tokens s) ∧ bufio.lastAtEOF s = true) ∧
   bufio.ErrAfter s n = bufio.Err s).
Proof.
  unfold bufio.ErrAfter.
  destruct (Nat.eqb_spec n (length (bufio.tokens s))) as [->|Hne]; [|by left].
  destruct (bufio.lastAtEOF s); [by right | by left].
Qed.

(** The scanner fails with [ErrTooLong] at a line that does not fit, and
    otherwise with the error of the reader. *)
Lemma NewScanner_Err (file : bufio.Reader) :
  (Forall (λ line, bufio.fits line = true) (bufio.scanLines (bufio.data file)) ∧
   bufio.Err (bufio.NewScanner file) = bufio.readErr file) ∨
  ((∃ line, line ∈ bufio.scanLines (bufio.data file) ∧ bufio.fits line = false) ∧
   bufio.Err (bufio.NewScanner file) = Some ErrTooLong).
Proof.
  unfold bufio.NewScanner. cbn [bufio.Err].
  destruct (forallb bufio.fits _) eqn:Hfits.
  - left. split; [|done]. apply Forall_forall. intros line Hin.
    rewrite forallb_forall in Hfits. apply Hfits. by apply list_elem_of_In.
  - right. split; [|done].
    apply not_true_iff_false in Hfits.
    destruct (decide (Exists (λ line, bufio.fits line = false)
                        (bufio.scanLines (bufio.data file)))) as [Hex|Hnex].
    + apply Exists_exists in Hex as (line & Hin & Hline). by exists line.
    + destruct Hfits. apply forallb_forall. intros line Hin.
      destruct (bufio.fits line) eqn:Hline; [done|].
      destruct Hnex. apply Exists_exists. exists line. split; [|done].
      by apply list_elem_of_In.
Qed.

(** A scanner that has read to the end of the stream has the error of the
    reader. *)
Lemma NewScanner_lastAtEOF (file : bufio.Reader) :
  bufio.lastAtEOF (bufio.NewScanner file) = true →
  bufio.Err (bufio.NewScanner file) = bufio.readErr file.
Proof.
  unfold bufio.NewScanner. cbn [bufio.Err bufio.lastAtEOF].
  by destruct (forallb bufio.fits _).
Qed.

Lemma append_empty_r (s : string) : s +:+ "" = s.
Proof.
  induction s as [|c s IH]; [done|].
  change (String c (s +:+ "") = String c s). by rewrite IH.
Qed.

(** The lines of a stream that is given line by line. *)
Lemma scanLines_line (line rest : string) :
  noNewline line = true →
  bufio.scanLines (line +:+ String newline rest) = (line, true) :: bufio.scanLines rest.
Proof.
  induction line as [|c line IH]; intros Hline; [done|].
  simpl in Hline. apply andb_true_iff in Hline as [Hc Hline].
  apply negb_true_iff in Hc.
  change (bufio.scanLines (String c (line +:+ String newline rest)) =
          (String c line, true) :: bufio.scanLines rest).
  cbn [bufio.scanLines]. by rewrite Hc, IH.
Qed.

Lemma scanLines_last (s : string) :
  noNewline s = true → s ≠ "" → bufio.scanLines s = [(s, false)].
Proof.
  induction s as [|c s IH]; intros Hs Hne; simpl in *; [done|].
  apply andb_true_iff in Hs as [Hc Hs].
  apply negb_true_iff in Hc. rewrite Hc.
  destruct s as [|c' s]; [done|]. by rewrite IH.
Qed.

Lemma scanLines_streamOf (lines : list string) (tail : string) :
  Forall (λ line, noNewline line = true) lines →
  bufio.scanLines (streamOf lines tail) =
    map (λ line, (line, true)) lines ++ bufio.scanLines tail.
Proof.
  induction 1 as [|line lines Hline Hlines IH]; simpl; [done|].
  by rewrite scanLines_line, IH.
Qed.

(** The scanner stops at the first line that does not fit. *)
Lemma fitting_app (before after : list (string * bool)) (line : string * bool) :
  Forall (λ l, bufio.fits l = true) before → bufio.fits line = false →
  bufio.fitting (before ++ line :: after) = before ∧
  forallb bufio.fits (before ++ line :: after) = false.
Proof.
  intros Hbefore Hline.
  induction Hbefore as [|l before Hl Hbefore [IH1 IH2]]; simpl.
  - by rewrite Hline.
  - by rewrite Hl, IH1, IH2.
Qed.

(** What the scanner yields does not depend on the error of the
    reader. *)
Lemma NewScanner_readErr (stream : string) (err err' : option error) :
  bufio.tokens (bufio.NewScanner {| bufio.data := stream; bufio.readErr := err |}) =
  bufio.tokens (bufio.NewScanner {| bufio.data := stream; bufio.readErr := err' |}) ∧
  bufio.lastAtEOF (bufio.NewScanner {| bufio.data := stream; bufio.readErr := err |}) =
  bufio.lastAtEOF (bufio.NewScanner {| bufio.data := stream; bufio.readErr := err' |}).
Proof. done. Qed.

(** ** Loops *)

Section loop_facts.
Context `{GoRuntime} {St : Type}.
Variable body : St → string → list prometheus.Metric * ctl St.

Lemma forScan_runsTo (pre post : list string) :
  ∀ (st st' : St) (sent : list prometheus.Metric),
    runsTo body st pre = Some (sent, st') →
    forScan body st (pre ++ post) =
      ((sent ++ (forScan body st' post).1), (forScan body st' post).2).
Proof.
  induction pre as [|line pre IH]; intros st st' sent Hrun; simpl in *.
  - injection Hrun as <- <-. by destruct (forScan body st post).
  - destruct (body st line) as [sent0 [st0| |]]; try done.
    destruct (runsTo body st0 pre) as [[sent1 st1]|] eqn:Hpre; [|done].
    injection Hrun as <- <-.
    rewrite (IH st0 st1 sent1 Hpre).
    destruct (forScan body st1 post) as [sent2 r]. simpl.
    by rewrite app_assoc.
Qed.

(** The loop stops at a line whose body returns an error: what was sent
    before stays sent, the lines after it are not read. *)
Lemma forScan_return (pre post : list string) (line : string)
    (st0 st : St) (sent sent' : list prometheus.Metric) (err : error) :
  runsTo body st0 pre = Some (sent, st) →
  body st line = (sent', Return err) →
  forScan body st0 (pre ++ line :: post) = (sent ++ sent', inl err).
Proof.
  intros Hrun Hline. rewrite (forScan_runsTo _ _ _ _ _ Hrun).
  simpl. by rewrite Hline.
Qed.

Lemma forScan_next (pre post : list string) (line : string)
    (st0 st st' : St) (sent sent' : list prometheus.Metric) :
  runsTo body st0 pre = Some (sent, st) →
  body st line = (sent', Next st') →
  forScan body st0 (pre ++ line :: post) =
    (sent ++ sent' ++ (forScan body st' post).1, (forScan body st' post).2).
Proof.
  intros Hrun Hline. rewrite (forScan_runsTo _ _ _ _ _ Hrun).
  simpl. rewrite Hline. by destruct (forScan body st' post).
Qed.

(** A property of every metric a body sends holds of every metric the
    loop sends. *)
Lemma forScan_Forall (P : prometheus.Metric → Prop) :
  (∀ st line, Forall P (body st line).1) →
  ∀ lines st, Forall P (forScan body st lines).1.
Proof.
  intros Hbody lines. induction lines as [|line rest IH]; intros st; simpl.
  - constructor.
  - pose proof (Hbody st line) as Hl.
    destruct (body st line) as [sent [st'| |]]; simpl in *; try done.
    pose proof (IH st') as Hr.
    destruct (forScan body st' rest) as [sent' r]. simpl in *.
    by apply Forall_app.
Qed.

(** A loop whose body never breaks ends in a state only after reading
    every line. *)
Lemma forScan_all_read (lines : list string) :
  (∀ st line sent st', body st line ≠ (sent, Break st')) →
  ∀ st sent st', forScan body st lines = (sent, inr st') →
    runsTo body st lines = Some (sent, st').
Proof.
  intros Hnb. induction lines as [|line rest IH]; intros st sent st' Hscan; simpl in *.
  - by injection Hscan as <- <-.
  - destruct (body st line) as [sent0 [st0|st0|]] eqn:Hb.
    + destruct (forScan body st0 rest) as [sent1 r] eqn:Hrest.
      injection Hscan as <- ->. by rewrite (IH _ _ _ Hrest).
    + by apply Hnb in Hb.
    + done.
Qed.

(** A metric the loop sends is sent at one of the lines, reached after
    the lines before it were read. *)
Lemma forScan_sent_at (lines : list string) :
  ∀ (st : St) (m : prometheus.Metric),
    m ∈ (forScan body st lines).1 →
    ∃ pre line post sent st',
      lines = pre ++ line :: post ∧
      runsTo body st pre = Some (sent, st') ∧
      m ∈ (body st' line).1.
Proof.
  induction lines as [|line rest IH]; intros st m Hin; simpl in Hin.
  { by apply elem_of_nil in Hin. }
  assert (Hhere : m ∈ (body st line).1 →
    ∃ pre l post sent st',
      line :: rest = pre ++ l :: post ∧
      runsTo body st pre = Some (sent, st') ∧
      m ∈ (body st' l).1).
  { intros Hm. by exists [], line, rest, [], st. }
  destruct (body st line) as [sent0 [st0|st0|err]] eqn:Hline; [|by apply Hhere..].
  destruct (forScan body st0 rest) as [sent1 r] eqn:Hrest. simpl in Hin.
  apply elem_of_app in Hin as [Hin|Hin]; [by apply Hhere|].
  destruct (IH st0 m) as (pre & l & post & sent & st' & -> & Hrun & Hm).
  { by rewrite Hrest. }
  exists (line :: pre), l, post, (sent0 ++ sent), st'.
  split; [done|]. split; [|done]. simpl. by rewrite Hline, Hrun.
Qed.

(** Where a loop breaks, after lines it has read. *)
Lemma brokeAfter_runsTo (pre post : list string) :
  ∀ (st st' : St) (sent : list prometheus.Metric),
    runsTo body st pre = Some (sent, st') →
    brokeAfter body st (pre ++ post) =
      Nat.add (length pre) <$> brokeAfter body st' post.
Proof.
  induction pre as [|line pre IH]; intros st st' sent Hrun; simpl in *.
  - injection Hrun as <- <-. by destruct (brokeAfter body st post).
  - destruct (body st line) as [sent0 [st0| |]]; try done.
    destruct (runsTo body st0 pre) as [[sent1 st1]|] eqn:Hpre; [|done].
    injection Hrun as <- <-.
    rewrite (IH st0 st1 sent1 Hpre).
    by destruct (brokeAfter body st1 post).
Qed.

(** A loop breaks at one of its lines. *)
Lemma brokeAfter_line (lines : list string) :
  ∀ (st : St) (n : nat), brokeAfter body st lines = Some n →
    ∃ line st' sent st'', line ∈ lines ∧ body st' line = (sent, Break st'').
Proof.
  induction lines as [|line rest IH]; intros st n Hbroke; simpl in Hbroke; [done|].
  destruct (body st line) as [sent0 [st0|st0|err]] eqn:Hline.
  - destruct (brokeAfter body st0 rest) as [k|] eqn:Hrest; [|done].
    destruct (IH _ _ Hrest) as (l & st' & sent & st'' & Hin & Hl).
    exists l, st', sent, st''. split; [by right | done].
  - exists line, st, sent0, st0. split; [by left | done].
  - done.
Qed.

(** A loop whose body never breaks is not left by [break]. *)
Lemma brokeAfter_no_break (lines : list string) :
  (∀ st line sent st', body st line ≠ (sent, Break st')) →
  ∀ st, brokeAfter body st lines = None.
Proof.
  intros Hnb st. destruct (brokeAfter body st lines) as [n|] eqn:Hbroke; [|done].
  destruct (brokeAfter_line _ _ _ Hbroke) as (l & st' & sent & st'' & _ & Hl).
  by apply Hnb in Hl.
Qed.

End loop_facts.

Lemma forScan_fatal_line `{GoRuntime} {St : Type}
    (body : St → string → list prometheus.Metric * ctl St) (bad : string) :
  (∀ st, ∃ sent err, body st bad = (sent, Return err)) →
  (∀ st line sent st', body st line ≠ (sent, Break st')) →
  ∀ lines st, bad ∈ lines → ∃ err, (forScan body st lines).2 = inl err.
Proof.
  intros Hbad Hnb lines. induction lines as [|line rest IH]; intros st Hin.
  - by apply elem_of_nil in Hin.
  - simpl. destruct (decide (line = bad)) as [->|Hne].
    + destruct (Hbad st) as (sent & err & ->). by exists err.
    + apply elem_of_cons in Hin as [Heq|Hin]; [congruence|].
      destruct (body st line) as [sent [st'|st'|err]] eqn:Hb.
      * destruct (IH st' Hin) as [err Herr].
        destruct (forScan body st' rest) as [sent' r]. by exists err.
      * by apply Hnb in Hb.
      * by exists err.
Qed.

(** ** The registry of [NewOpenVPNExporter] *)

Section registry.
Variable paths : list string.
Variable ignoreIndividuals : bool.
Let e := NewOpenVPNExporter paths ignoreIndividuals.

Lemma registered_sections (key : string) (header : OpenvpnServerHeader) :
  openvpnServerHeaders e !! key = Some header →
  key = "CLIENT_LIST" ∨ key = "ROUTING_TABLE".
Proof.
  unfold e, NewOpenVPNExporter. simpl.
  rewrite !lookup_insert. repeat case_decide; naive_solver.
Qed.

Lemma empty_key_not_registered : openvpnServerHeaders e !! "" = None.
Proof.
  destruct (openvpnServerHeaders e !! "") as [header|] eqn:Hl; [|done].
  by destruct (registered_sections _ _ Hl).
Qed.

Lemma client_list_registered : is_Some (openvpnServerHeaders e !! "CLIENT_LIST").
Proof. unfold e, NewOpenVPNExporter. simpl. rewrite lookup_insert_eq. eauto. Qed.

Lemma routing_table_registered : is_Some (openvpnServerHeaders e !! "ROUTING_TABLE").
Proof.
  unfold e, NewOpenVPNExporter. simpl.
  rewrite lookup_insert_ne, lookup_insert_eq; [eauto | done].
Qed.

End registry.

(** ** The v2/v3 loop body *)

Section server_body.
Context `{GoRuntime}.
Variable e : OpenVPNExporter.
Variable statusPath : string.

Lemma serverLine_no_break (sep : ascii) (st st' : serverState) (text : string)
    (sent : list prometheus.Metric) :
  serverLine e statusPath sep st text ≠ (sent, Break st').
Proof.
  unfold serverLine. repeat case_match; congruence.
Qed.

Lemma serverLine_empty (sep : ascii) (st : serverState) :
  openvpnServerHeaders e !! "" = None →
  serverLine e statusPath sep st "" = ([], Return (UnsupportedKey "")).
Proof.
  intros Hreg. unfold serverLine, index. rewrite Split_empty. simpl. by rewrite Hreg.
Qed.

Lemma clientLine_no_break (st st' : unit) (text : string)
    (sent : list prometheus.Metric) :
  clientLine e statusPath st text ≠ (sent, Break st').
Proof.
  unfold clientLine. repeat case_match; congruence.
Qed.

(** An empty line leaves the v4 loop where it was. *)
Lemma forScanV4_skip_empty (pre post : list string) :
  ∀ st, forScan (serverLineV4 e statusPath) st (pre ++ "" :: post) =
        forScan (serverLineV4 e statusPath) st (pre ++ post).
Proof.
  induction pre as [|line pre IH]; intros st; simpl.
  - by destruct (forScan (serverLineV4 e statusPath) st post).
  - destruct (serverLineV4 e statusPath st line) as [sent [st'| |]]; try done.
    by rewrite IH.
Qed.

End server_body.

(** ** What the metric loop sends *)

Section export.
Context `{GoRuntime}.

Lemma exportMetrics_sent (columnValues : gmap string string) (labels : list string)
    (metrics : list OpenvpnServerHeaderField) :
  ∀ recorded,
    Forall (λ m, ∃ field, field ∈ metrics ∧
                   prometheus.desc m = Desc field ∧
                   prometheus.valueType m = ValueType field ∧
                   prometheus.labelValues m = labels)
           (exportMetrics columnValues labels recorded metrics).1.
Proof.
  induction metrics as [|metric rest IH]; intros recorded; simpl; [constructor|].
  assert (Hweaken : ∀ recorded',
    Forall (λ m, ∃ field, field ∈ metric :: rest ∧
                   prometheus.desc m = Desc field ∧
                   prometheus.valueType m = ValueType field ∧
                   prometheus.labelValues m = labels)
           (exportMetrics columnValues labels recorded' rest).1).
  { intros recorded'. eapply Forall_impl; [apply IH|].
    intros m (field & Hin & Hrest). exists field. split; [by right | done]. }
  destruct (columnValues !! Column metric) as [columnValue|]; [|apply Hweaken].
  destruct (negb _); [|apply Hweaken].
  destruct (ParseFloat columnValue) as [value|]; [|constructor].
  specialize (Hweaken (<[metric := default [] (recorded !! metric) ++ labels]> recorded)).
  destruct (exportMetrics columnValues labels _ rest) as [sent r]. simpl in *.
  constructor; [|done].
  exists metric. split; [by left | done].
Qed.

(** A row none of whose metric columns has a value sends nothing and
    records nothing. *)
Lemma exportMetrics_absent (columnValues : gmap string string) (labels : list string)
    (metrics : list OpenvpnServerHeaderField) recorded :
  (∀ field, field ∈ metrics → columnValues !! Column field = None) →
  exportMetrics columnValues labels recorded metrics = ([], inr recorded).
Proof.
  induction metrics as [|metric rest IH]; intros Habs; simpl; [done|].
  rewrite (Habs metric) by by left.
  apply IH. intros field Hin. apply Habs. by right.
Qed.

(** The metric loop fails only on a value that [ParseFloat] rejects. *)
Lemma exportMetrics_error (columnValues : gmap string string) (labels : list string)
    (metrics : list OpenvpnServerHeaderField) :
  ∀ recorded sent err,
    exportMetrics columnValues labels recorded metrics = (sent, inl err) →
    ∃ field value, field ∈ metrics ∧ columnValues !! Column field = Some value ∧
                   ParseFloat value = None ∧ err = NumError value.
Proof.
  induction metrics as [|metric rest IH]; intros recorded sent err Hexp; simpl in *; [done|].
  assert (Hrest : ∀ recorded' sent',
    exportMetrics columnValues labels recorded' rest = (sent', inl err) →
    ∃ field value, field ∈ metric :: rest ∧ columnValues !! Column field = Some value ∧
                   ParseFloat value = None ∧ err = NumError value).
  { intros recorded' sent' Hr. destruct (IH _ _ _ Hr) as (field & value & Hin & Hrest).
    exists field, value. split; [by right | done]. }
  destruct (columnValues !! Column metric) as [columnValue|] eqn:Hcol; [|by eapply Hrest].
  destruct (negb _); [|by eapply Hrest].
  destruct (ParseFloat columnValue) as [value|] eqn:Hparse.
  - destruct (exportMetrics columnValues labels _ rest) as [sent' r] eqn:Hr.
    injection Hexp as <- ->. by eapply Hrest.
  - injection Hexp as <- <-. exists metric, columnValue.
    split; [by left | done].
Qed.

End export.

(** ** What the loop bodies send *)

Section bodies_sent.
Context `{GoRuntime}.
Variable e : OpenVPNExporter.
Variable statusPath : string.

Lemma row_sent (key : string) (header : OpenvpnServerHeader)
    (columnValues : gmap string string) recorded :
  openvpnServerHeaders e !! key = Some header →
  Forall (lineMetric e statusPath)
    (exportMetrics columnValues (extractLabels statusPath columnValues (LabelColumns header))
       recorded (Metrics header)).1.
Proof.
  intros Hreg. eapply Forall_impl; [apply exportMetrics_sent|].
  intros m (field & Hin & Hdesc & Htype & Hlabels). right.
  exists key, header, field, (map (valueOf columnValues) (LabelColumns header)).
  repeat split; try done. by rewrite length_map.
Qed.

Lemma updateTime_sent (v : float64) :
  lineMetric e statusPath
    (prometheus.MustNewConstMetric (openvpnStatusUpdateTimeDesc e)
       prometheus.GaugeValue v [statusPath]).
Proof. by left. Qed.

Lemma serverLine_sent (sep : ascii) (st : serverState) (text : string) :
  Forall (lineMetric e statusPath) (serverLine e statusPath sep st text).1.
Proof.
  unfold serverLine.
  destruct (_ && _); [constructor|].
  destruct (_ =? _); [constructor|].
  destruct (_ && _); [constructor|].
  destruct (_ && _).
  { destruct (ParseFloat _); [|constructor].
    constructor; [apply updateTime_sent | constructor]. }
  destruct (_ && _); [constructor|].
  destruct (openvpnServerHeaders e !! _) as [header|] eqn:Hreg; [|constructor].
  destruct (headersFound st !! _) as [columnNames|]; [|constructor].
  destruct (negb _); [constructor|].
  match goal with
  | |- context [exportMetrics ?cv _ ?rec _] =>
      pose proof (row_sent _ header cv rec Hreg) as Hrow
  end.
  destruct (exportMetrics _ _ _ _) as [sent [err|recorded]]; apply Hrow.
Qed.

Lemma dataRowV4_sent (section : string) (header : OpenvpnServerHeader) (count : Z)
    (st : serverStateV4) (fields : list string) :
  openvpnServerHeaders e !! section = Some header →
  Forall (lineMetric e statusPath)
    (dataRowV4 statusPath section header count st fields).1.
Proof.
  intros Hreg. unfold dataRowV4.
  match goal with
  | |- context [exportMetrics ?cv _ ?rec _] =>
      pose proof (row_sent _ header cv rec Hreg) as Hrow
  end.
  destruct (exportMetrics _ _ _ _) as [sent [err|recorded]]; apply Hrow.
Qed.

Lemma serverLineV4_sent (st : serverStateV4) (line : string) :
  Forall (lineMetric e statusPath) (serverLineV4 e statusPath st line).1.
Proof.
  unfold serverLineV4.
  destruct (_ =? _)%nat; [constructor|].
  repeat (destruct (_ && _); [constructor|]).
  destruct (currentSection st =? "CLIENT_LIST").
  { destruct (strings.HasPrefix line "Updated,").
    { destruct (parseTime _); [|constructor].
      constructor; [apply updateTime_sent | constructor]. }
    destruct (strings.HasPrefix line "Common Name,"); [constructor|].
    destruct (openvpnServerHeaders e !! "CLIENT_LIST") as [header|] eqn:Hreg;
      [|constructor].
    by apply dataRowV4_sent. }
  destruct (currentSection st =? "ROUTING_TABLE"); [|constructor].
  destruct (strings.HasPrefix line "Virtual Address,"); [constructor|].
  destruct (openvpnServerHeaders e !! "ROUTING_TABLE") as [header|] eqn:Hreg;
    [|constructor].
  by apply dataRowV4_sent.
Qed.

End bodies_sent.

(** ** The client counter *)

Lemma int_incr_wrap (n : Z) : int_incr (int_wrap n) = int_wrap (n + 1).
Proof.
  unfold int_incr, int_wrap.
  replace (((n + 2 ^ 63) mod 2 ^ 64 - 2 ^ 63 + 1 + 2 ^ 63))%Z
    with (((n + 2 ^ 63) mod 2 ^ 64 + 1))%Z by lia.
  rewrite Z.add_mod_idemp_l by lia.
  f_equal. f_equal. lia.
Qed.

Lemma int_wrap_small (n : Z) : (- 2 ^ 63 ≤ n < 2 ^ 63)%Z → int_wrap n = n.
Proof.
  intros Hn. unfold int_wrap. rewrite Z.mod_small; lia.
Qed.

(** Counting up from zero gives the count, as an [int]. *)
Lemma iter_int_incr (k : nat) : Nat.iter k int_incr 0%Z = int_wrap (Z.of_nat k).
Proof.
  induction k as [|k IH].
  - by rewrite int_wrap_small by lia.
  - simpl Nat.iter. rewrite IH, int_incr_wrap. f_equal. lia.
Qed.

Section server_state.
Context `{GoRuntime}.
Variable e : OpenVPNExporter.
Variable statusPath : string.

(** A line of the v2/v3 loop counts when, and only when, its first field
    is [CLIENT_LIST]. *)
Lemma serverLine_counter (sep : ascii) (st st' : serverState) (text : string)
    (sent : list prometheus.Metric) :
  serverLine e statusPath sep st text = (sent, Next st') →
  numberConnectedClient st' =
    if decide (firstField sep text = "CLIENT_LIST")
    then int_incr (numberConnectedClient st) else numberConnectedClient st.
Proof.
  unfold serverLine, firstField. intros Hline.
  destruct (decide (index (strings.Split text sep) 0 = "CLIENT_LIST")) as [Heq|Hne].
  - rewrite Heq in Hline. simpl in Hline.
    repeat case_match; simplify_eq; done.
  - apply String.eqb_neq in Hne. rewrite Hne in Hline.
    repeat case_match; simplify_eq; done.
Qed.

Lemma runsTo_counter (sep : ascii) (lines : list string) :
  ∀ (st st' : serverState) (sent : list prometheus.Metric),
    runsTo (serverLine e statusPath sep) st lines = Some (sent, st') →
    numberConnectedClient st' =
      Nat.iter (clientListRows sep lines) int_incr (numberConnectedClient st).
Proof.
  unfold clientListRows.
  induction lines as [|line rest IH]; intros st st' sent Hrun; simpl in Hrun.
  - by injection Hrun as <- <-.
  - destruct (serverLine e statusPath sep st line) as [sent0 [st0| |]] eqn:Hline;
      try done.
    destruct (runsTo _ st0 rest) as [[sent1 st1]|] eqn:Hrest; [|done].
    injection Hrun as <- <-.
    rewrite (IH _ _ _ Hrest), (serverLine_counter _ _ _ _ _ Hline).
    destruct (decide (firstField sep line = "CLIENT_LIST")) as [Heq|Hne].
    + rewrite filter_cons_True by done. simpl length. by rewrite Nat.iter_swap.
    + by rewrite filter_cons_False by done.
Qed.

(** Only a [HEADER] line for a section changes the columns found for it. *)
Lemma serverLine_headers (sep : ascii) (st st' : serverState) (text section : string)
    (sent : list prometheus.Metric) :
  serverLine e statusPath sep st text = (sent, Next st') →
  isHeaderFor sep section text = false →
  headersFound st' !! section = headersFound st !! section.
Proof.
  unfold serverLine, isHeaderFor. intros Hline Hhdr.
  repeat case_match; simplify_eq; try done.
  simpl. apply lookup_insert_ne. intros Heq.
  rewrite Heq, String.eqb_refl, andb_true_r in Hhdr. congruence.
Qed.

Lemma runsTo_headers (sep : ascii) (section : string) (lines : list string) :
  ∀ (st st' : serverState) (sent : list prometheus.Metric),
    runsTo (serverLine e statusPath sep) st lines = Some (sent, st') →
    Forall (λ text, isHeaderFor sep section text = false) lines →
    headersFound st' !! section = headersFound st !! section.
Proof.
  induction lines as [|line rest IH]; intros st st' sent Hrun Hno; simpl in Hrun.
  - by injection Hrun as <- <-.
  - destruct (serverLine e statusPath sep st line) as [sent0 [st0| |]] eqn:Hline;
      try done.
    destruct (runsTo _ st0 rest) as [[sent1 st1]|] eqn:Hrest; [|done].
    injection Hrun as <- <-.
    apply Forall_cons in Hno as [Hline_no Hrest_no].
    rewrite (IH _ _ _ Hrest Hrest_no).
    by eapply serverLine_headers.
Qed.

(** A line of a registered section read while no [HEADER] gave its
    columns. *)
Lemma serverLine_missing_header (sep : ascii) (st : serverState) (text : string)
    (header : OpenvpnServerHeader) :
  firstField sep text = "CLIENT_LIST" ∨ firstField sep text = "ROUTING_TABLE" →
  openvpnServerHeaders e !! firstField sep text = Some header →
  headersFound st !! firstField sep text = None →
  serverLine e statusPath sep st text =
    ([], Return (ShouldBePrecededByHeaders (firstField sep text))).
Proof.
  unfold serverLine, firstField. intros Hkey Hreg Hnone.
  rewrite Hreg, Hnone.
  by destruct Hkey as [-> | ->].
Qed.

End server_state.

(** ** The v4 loop body *)

Lemma length_zero_eqb (line : string) :
  (String.length line =? 0)%nat = (line =? "").
Proof. by destruct line. Qed.

(** The section titles hold no comma: the test for the separator changes
    nothing for them. *)
Lemma title_test (line title : string) :
  strings.Contains title "," = false →
  negb (strings.Contains line ",") && (line =? title) = (line =? title).
Proof.
  intros Hno. destruct (String.eqb_spec line title) as [->|Hne].
  - by rewrite Hno.
  - apply andb_false_r.
Qed.

Section server_v4.
Context `{GoRuntime}.
Variable e : OpenVPNExporter.
Variable statusPath : string.

Lemma serverLineV4_title (st : serverStateV4) (line : string) :
  serverLineV4 e statusPath st line =
    if line =? "" then ([], Next st)
    else if line =? "OpenVPN CLIENT LIST" then ([], Next (setSection st "CLIENT_LIST"))
    else if line =? "ROUTING TABLE" then ([], Next (setSection st "ROUTING_TABLE"))
    else if line =? "GLOBAL STATS" then ([], Next (setSection st "GLOBAL_STATS"))
    else if line =? "END" then ([], Break st)
    else
      let fields := strings.Split line "," in
      if currentSection st =? "CLIENT_LIST" then
        if strings.HasPrefix line "Updated," then
          match parseTime (index fields 1) with
          | inr err => ([], Return err)
          | inl timeStartStats =>
              ([prometheus.MustNewConstMetric (openvpnStatusUpdateTimeDesc e)
                  prometheus.GaugeValue (float64_of_int timeStartStats) [statusPath]],
               Next st)
          end
        else if strings.HasPrefix line "Common Name," then
          ([], Next (setHeaders st "CLIENT_LIST" fields))
        else
          match openvpnServerHeaders e !! "CLIENT_LIST" with
          | Some header =>
              dataRowV4 statusPath "CLIENT_LIST" header
                (int_incr (numberConnectedClientV4 st)) st fields
          | None => ([], Next st)
          end
      else if currentSection st =? "ROUTING_TABLE" then
        if strings.HasPrefix line "Virtual Address," then
          ([], Next (setHeaders st "ROUTING_TABLE" fields))
        else
          match openvpnServerHeaders e !! "ROUTING_TABLE" with
          | Some header =>
              dataRowV4 statusPath "ROUTING_TABLE" header
                (numberConnectedClientV4 st) st fields
          | None => ([], Next st)
          end
      else ([], Next st).
Proof.
  unfold serverLineV4.
  by rewrite length_zero_eqb, !title_test.
Qed.

(** What a data row does to the state when it does not fail: only the
    counter and the recorded labels change. *)
Lemma dataRowV4_next (section : string) (header : OpenvpnServerHeader) (count : Z)
    (st st' : serverStateV4) (fields : list string) (sent : list prometheus.Metric) :
  dataRowV4 statusPath section header count st fields = (sent, Next st') →
  currentSection st' = currentSection st ∧
  headersFoundV4 st' = headersFoundV4 st ∧
  numberConnectedClientV4 st' = count.
Proof.
  unfold dataRowV4. intros Hrow.
  destruct (exportMetrics _ _ _ _) as [sent0 [err|recorded]]; simplify_eq. done.
Qed.

Lemma dataRowV4_no_break (section : string) (header : OpenvpnServerHeader) (count : Z)
    (st st' : serverStateV4) (fields : list string) (sent : list prometheus.Metric) :
  dataRowV4 statusPath section header count st fields ≠ (sent, Break st').
Proof.
  unfold dataRowV4.
  destruct (exportMetrics _ _ _ _) as [sent0 [err|recorded]]; congruence.
Qed.

(** Without stored headers no column has a value. *)
Lemma mapColumnValues_no_headers (fields : list string) :
  ∀ i columnValues, mapColumnValues i [] fields columnValues = columnValues.
Proof.
  induction fields as [|value fields IH]; intros i columnValues; simpl; [done|].
  apply IH.
Qed.

(** A data row read while its section has no header sends nothing, records
    nothing and is not an error. *)
Lemma dataRowV4_no_header (section : string) (header : OpenvpnServerHeader) (count : Z)
    (st : serverStateV4) (fields : list string) :
  headersFoundV4 st !! section = None →
  dataRowV4 statusPath section header count st fields =
    ([], Next {| currentSection := currentSection st;
                 headersFoundV4 := headersFoundV4 st;
                 numberConnectedClientV4 := count;
                 recordedMetricsV4 := recordedMetricsV4 st |}).
Proof.
  intros Hnone. unfold dataRowV4. rewrite Hnone. simpl.
  rewrite mapColumnValues_no_headers.
  by rewrite exportMetrics_absent by (intros; apply lookup_empty).
Qed.

(** A line that is a data row is none of the lines treated before it. *)
Lemma isDataRowV4_tests (section line : string) :
  isDataRowV4 section line = true →
  (line =? "") = false ∧ (line =? "OpenVPN CLIENT LIST") = false ∧
  (line =? "ROUTING TABLE") = false ∧ (line =? "GLOBAL STATS") = false ∧
  (line =? "END") = false.
Proof.
  unfold isDataRowV4, isTitleV4. intros Hrow.
  destruct (line =? ""), (line =? "OpenVPN CLIENT LIST"), (line =? "ROUTING TABLE"),
    (line =? "GLOBAL STATS"), (line =? "END"); simpl in Hrow; done.
Qed.

(** A data row of the client list goes to the row code with the counter
    incremented; a row of the routing table leaves the counter alone. *)
Lemma serverLineV4_client_row (st : serverStateV4) (line : string)
    (header : OpenvpnServerHeader) :
  openvpnServerHeaders e !! "CLIENT_LIST" = Some header →
  currentSection st = "CLIENT_LIST" →
  isDataRowV4 "CLIENT_LIST" line = true →
  serverLineV4 e statusPath st line =
    dataRowV4 statusPath "CLIENT_LIST" header
      (int_incr (numberConnectedClientV4 st)) st (strings.Split line ",").
Proof.
  intros Hreg Hsec Hrow. rewrite serverLineV4_title.
  destruct (isDataRowV4_tests _ _ Hrow) as (-> & -> & -> & -> & ->).
  unfold isDataRowV4 in Hrow. simpl in Hrow.
  apply andb_true_iff in Hrow as [_ Hrow].
  apply andb_true_iff in Hrow as [Hupd Hcn].
  apply negb_true_iff in Hupd, Hcn.
  simpl. by rewrite Hsec, Hupd, Hcn, Hreg.
Qed.

Lemma serverLineV4_routing_row (st : serverStateV4) (line : string)
    (header : OpenvpnServerHeader) :
  openvpnServerHeaders e !! "ROUTING_TABLE" = Some header →
  currentSection st = "ROUTING_TABLE" →
  isDataRowV4 "ROUTING_TABLE" line = true →
  serverLineV4 e statusPath st line =
    dataRowV4 statusPath "ROUTING_TABLE" header
      (numberConnectedClientV4 st) st (strings.Split line ",").
Proof.
  intros Hreg Hsec Hrow. rewrite serverLineV4_title.
  destruct (isDataRowV4_tests _ _ Hrow) as (-> & -> & -> & -> & ->).
  unfold isDataRowV4 in Hrow. simpl in Hrow.
  apply andb_true_iff in Hrow as [_ Hva].
  apply negb_true_iff in Hva.
  simpl. by rewrite Hsec, Hva, Hreg.
Qed.

End server_v4.

Section server_v4_counter.
Context `{GoRuntime}.
Variable e : OpenVPNExporter.
Variable statusPath : string.
Hypothesis client_list : is_Some (openvpnServerHeaders e !! "CLIENT_LIST").

(** The v4 counter counts the data rows of the client list. *)
Lemma forScanV4_counter (lines : list string) :
  ∀ (st st' : serverStateV4) (sent : list prometheus.Metric),
    forScan (serverLineV4 e statusPath) st lines = (sent, inr st') →
    numberConnectedClientV4 st' =
      Nat.iter (clientListRowsV4 (currentSection st) lines) int_incr
        (numberConnectedClientV4 st).
Proof.
  destruct client_list as [clientHeader Hreg].
  induction lines as [|line rest IH]; intros st st' sent Hscan; simpl in Hscan.
  { by injection Hscan as <- <-. }
  assert (Hnext : ∀ sent0 st0,
    serverLineV4 e statusPath st line = (sent0, Next st0) →
    numberConnectedClientV4 st' =
      Nat.iter (clientListRowsV4 (currentSection st0) rest) int_incr
        (numberConnectedClientV4 st0)).
  { intros sent0 st0 Hline. rewrite Hline in Hscan.
    destruct (forScan _ st0 rest) as [sent1 r] eqn:Hrest.
    injection Hscan as <- ->. by eapply IH. }
  simpl clientListRowsV4. unfold isDataRowV4, isTitleV4.
  rewrite serverLineV4_title in Hscan, Hnext.
  destruct (line =? ""); [exact (Hnext _ _ eq_refl)|].
  destruct (line =? "OpenVPN CLIENT LIST"); [exact (Hnext _ _ eq_refl)|].
  destruct (line =? "ROUTING TABLE"); [exact (Hnext _ _ eq_refl)|].
  destruct (line =? "GLOBAL STATS"); [exact (Hnext _ _ eq_refl)|].
  destruct (line =? "END"); [by injection Hscan as <- <-|].
  cbv zeta in Hscan, Hnext. cbn [negb andb orb].
  destruct (String.eqb_spec (currentSection st) "CLIENT_LIST") as [Hsec|Hsec].
  - rewrite andb_true_r.
    destruct (strings.HasPrefix line "Updated,").
    { cbn [negb andb]. destruct (parseTime _) as [t|err]; [|done].
      exact (Hnext _ _ eq_refl). }
    destruct (strings.HasPrefix line "Common Name,").
    { cbn [negb andb]. exact (Hnext _ _ eq_refl). }
    cbn [negb andb].
    rewrite Hreg in Hscan, Hnext.
    destruct (dataRowV4 _ _ _ _ _ _) as [sent0 [st0|st0|err]] eqn:Hrow.
    + destruct (dataRowV4_next _ _ _ _ _ _ _ _ Hrow) as (Hs & _ & Hc).
      rewrite (Hnext _ _ eq_refl), Hs, Hc.
      by rewrite Nat.iter_swap.
    + by apply dataRowV4_no_break in Hrow.
    + done.
  - rewrite andb_false_r.
    destruct (currentSection st =? "ROUTING_TABLE"); [|exact (Hnext _ _ eq_refl)].
    destruct (strings.HasPrefix line "Virtual Address,").
    { exact (Hnext _ _ eq_refl). }
    destruct (openvpnServerHeaders e !! "ROUTING_TABLE") as [header|];
      [|exact (Hnext _ _ eq_refl)].
    destruct (dataRowV4 _ _ _ _ _ _) as [sent0 [st0|st0|err]] eqn:Hrow.
    + destruct (dataRowV4_next _ _ _ _ _ _ _ _ Hrow) as (Hs & _ & Hc).
      by rewrite (Hnext _ _ eq_refl), Hs, Hc.
    + by apply dataRowV4_no_break in Hrow.
    + done.
Qed.

End server_v4_counter.

(** ** The descriptors of [NewOpenVPNExporter] *)

Section registry_descs.
Context `{GoRuntime}.
Variable paths : list string.
Variable ignoreIndividuals : bool.
Let e := NewOpenVPNExporter paths ignoreIndividuals.

Lemma registered_fields (key : string) (header : OpenvpnServerHeader)
    (field : OpenvpnServerHeaderField) :
  openvpnServerHeaders e !! key = Some header → field ∈ Metrics header →
  (key = "CLIENT_LIST" ∧
   (prometheus.fqName (Desc field) = "openvpn_server_client_received_bytes_total" ∨
    prometheus.fqName (Desc field) = "openvpn_server_client_sent_bytes_total")) ∨
  (key = "ROUTING_TABLE" ∧
   prometheus.fqName (Desc field) = "openvpn_server_route_last_reference_time_seconds").
Proof.
  unfold e, NewOpenVPNExporter. simpl.
  rewrite !lookup_insert. intros Hreg Hin.
  repeat case_decide; simplify_eq; simpl in Hin.
  - left. split; [done|].
    apply elem_of_cons in Hin as [->|Hin]; [by left|].
    apply elem_of_cons in Hin as [->|Hin]; [by right|].
    by apply elem_of_nil in Hin.
  - right. split; [done|].
    apply elem_of_cons in Hin as [->|Hin]; [done|].
    by apply elem_of_nil in Hin.
Qed.

(** The fields of a section are those of no other section, and no field is
    one of the two gauges of the parsers. *)
Lemma registered_desc_section (key key' : string) (header header' : OpenvpnServerHeader)
    (field field' : OpenvpnServerHeaderField) :
  openvpnServerHeaders e !! key = Some header → field ∈ Metrics header →
  openvpnServerHeaders e !! key' = Some header' → field' ∈ Metrics header' →
  Desc field = Desc field' → header = header'.
Proof.
  intros Hreg Hin Hreg' Hin' Hdesc.
  destruct (registered_fields _ _ _ Hreg Hin) as [[-> Hf]|[-> Hf]];
    destruct (registered_fields _ _ _ Hreg' Hin') as [[-> Hf']|[-> Hf']];
    try congruence; rewrite Hdesc in Hf.
  - destruct Hf as [Hf|Hf]; rewrite Hf in Hf'; discriminate Hf'.
  - destruct Hf' as [Hf'|Hf']; rewrite Hf in Hf'; discriminate Hf'.
Qed.

Lemma registered_desc_not_gauge (key : string) (header : OpenvpnServerHeader)
    (field : OpenvpnServerHeaderField) :
  openvpnServerHeaders e !! key = Some header → field ∈ Metrics header →
  Desc field ≠ openvpnConnectedClientsDesc e ∧
  Desc field ≠ openvpnStatusUpdateTimeDesc e.
Proof.
  intros Hreg Hin.
  destruct (registered_fields _ _ _ Hreg Hin) as [[_ [Hf|Hf]]|[_ Hf]];
    split; intros Heq; rewrite Heq in Hf; discriminate Hf.
Qed.

Lemma lineMetric_not_connected (statusPath : string) (m : prometheus.Metric) :
  lineMetric e statusPath m →
  prometheus.desc m ≠ openvpnConnectedClientsDesc e.
Proof.
  intros [[Hdesc _]|(key & header & field & values & Hreg & Hin & Hdesc & _)];
    rewrite Hdesc.
  - discriminate.
  - by eapply registered_desc_not_gauge.
Qed.

(** Among metrics sent while reading lines, none is the connected-clients
    gauge. *)
Lemma filter_connected_nil (statusPath : string) (sent : list prometheus.Metric) :
  Forall (lineMetric e statusPath) sent →
  filter (λ m, prometheus.desc m = openvpnConnectedClientsDesc e) sent = [].
Proof.
  induction 1 as [|m sent Hm Hsent IH]; [done|].
  rewrite filter_cons_False; [done|].
  by apply lineMetric_not_connected with statusPath.
Qed.

End registry_descs.

(** ** What [subslice] tests *)

Lemma contains_elem_of (s : list string) (x : string) :
  contains s x = true ↔ x ∈ s.
Proof.
  induction s as [|a s IH]; simpl.
  - split; [done | by intros ?%elem_of_nil].
  - destruct (String.eqb_spec a x) as [->|Hne].
    + split; [by left | done].
    + rewrite IH. split; [by right|].
      intros [?|?]%elem_of_cons; [congruence | done].
Qed.

(** [subslice] accepts [sub] when [main] is at least as long and holds
    each element of [sub] somewhere. *)
Lemma subslice_spec (sub main : list string) :
  subslice sub main = true ↔
  (length sub ≤ length main)%nat ∧ ∀ x, x ∈ sub → x ∈ main.
Proof.
  unfold subslice.
  destruct (Nat.ltb_spec (length main) (length sub)) as [Hlt|Hge].
  { split; [done | lia]. }
  assert (Hrange : subslice_range sub main = true ↔ ∀ x, x ∈ sub → x ∈ main).
  { clear Hge. induction sub as [|s sub IH]; simpl.
    - split; [by intros _ x ?%elem_of_nil | done].
    - destruct (contains main s) eqn:Hc; simpl.
      + apply contains_elem_of in Hc. rewrite IH. split.
        * intros Hall x [->|?]%elem_of_cons; [done | by apply Hall].
        * intros Hall x Hx. apply Hall. by right.
      + split; [done|]. intros Hall.
        assert (contains main s = true) as Hc'
          by (apply contains_elem_of, Hall; by left).
        congruence. }
  rewrite Hrange. split; [by intros ? | by intros [_ ?]].
Qed.

(** ** Failing before a line *)

(** A loop whose body never breaks either reads all of a prefix of the
    lines or fails inside it, whatever follows. *)
Lemma runsTo_or_fails `{GoRuntime} {St : Type}
    (body : St → string → list prometheus.Metric * ctl St) (pre : list string) :
  (∀ st line sent st', body st line ≠ (sent, Break st')) →
  ∀ st, (∃ sent st', runsTo body st pre = Some (sent, st')) ∨
        (∃ sent err, ∀ post, forScan body st (pre ++ post) = (sent, inl err)).
Proof.
  intros Hnb. induction pre as [|line pre IH]; intros st; simpl.
  - left. by exists [], st.
  - destruct (body st line) as [sent0 [st0|st0|err]] eqn:Hline.
    + destruct (IH st0) as [(sent1 & st1 & Hrun)|(sent1 & err & Hfail)].
      * left. rewrite Hrun. by exists (sent0 ++ sent1), st1.
      * right. exists (sent0 ++ sent1), err. intros post. by rewrite Hfail.
    + by apply Hnb in Hline.
    + right. by exists sent0, err.
Qed.

(** ** Everything a server parser sends *)

Section server_sent.
Context `{GoRuntime}.
Variable e : OpenVPNExporter.
Variable statusPath : string.

Lemma collectServerStatusFromReader_sent (file : bufio.Reader) (sep : ascii)
    (m : prometheus.Metric) :
  m ∈ (collectServerStatusFromReader e statusPath file sep).1 →
  lineMetric e statusPath m ∨ ∃ n, m = connectedClients e statusPath n.
Proof.
  unfold collectServerStatusFromReader.
  pose proof (forScan_Forall (serverLine e statusPath sep) _
                (serverLine_sent e statusPath sep)
                (bufio.tokens (bufio.NewScanner file)) serverState_init) as Hsent.
  rewrite Forall_forall in Hsent.
  destruct (forScan _ _ _) as [sent [err|st]]; simpl in *.
  - intros Hin. left. by apply Hsent.
  - intros [Hin|Hin]%elem_of_app; [left; by apply Hsent|].
    apply list_elem_of_singleton in Hin. right. by eexists.
Qed.

Lemma collectServerStatusFromReaderV4_sent (file : bufio.Reader)
    (m : prometheus.Metric) :
  m ∈ (collectServerStatusFromReaderV4 e statusPath file).1 →
  lineMetric e statusPath m ∨ ∃ n, m = connectedClients e statusPath n.
Proof.
  unfold collectServerStatusFromReaderV4.
  pose proof (forScan_Forall (serverLineV4 e statusPath) _
                (serverLineV4_sent e statusPath)
                (bufio.tokens (bufio.NewScanner file)) serverStateV4_init) as Hsent.
  rewrite Forall_forall in Hsent.
  destruct (forScan _ _ _) as [sent [err|st]]; simpl in *.
  - intros Hin. left. by apply Hsent.
  - intros [Hin|Hin]%elem_of_app; [left; by apply Hsent|].
    apply list_elem_of_singleton in Hin. right. by eexists.
Qed.

End server_sent.

(** ** Rows of a version 4 client list that has no header *)

Section headerless.
Context `{GoRuntime}.
Variable e : OpenVPNExporter.
Variable statusPath : string.

Lemma serverLineV4_headerless_client_row (st : serverStateV4) (line : string) :
  is_Some (openvpnServerHeaders e !! "CLIENT_LIST") →
  currentSection st = "CLIENT_LIST" →
  headersFoundV4 st !! "CLIENT_LIST" = None →
  isDataRowV4 "CLIENT_LIST" line = true →
  serverLineV4 e statusPath st line =
    ([], Next (counted st (int_incr (numberConnectedClientV4 st)))).
Proof.
  intros [header Hreg] Hsec Hnone Hrow.
  rewrite (serverLineV4_client_row _ _ _ _ _ Hreg Hsec Hrow).
  by apply dataRowV4_no_header.
Qed.

Lemma serverLineV4_headerless_routing_row (st : serverStateV4) (line : string) :
  is_Some (openvpnServerHeaders e !! "ROUTING_TABLE") →
  currentSection st = "ROUTING_TABLE" →
  headersFoundV4 st !! "ROUTING_TABLE" = None →
  isDataRowV4 "ROUTING_TABLE" line = true →
  serverLineV4 e statusPath st line =
    ([], Next (counted st (numberConnectedClientV4 st))).
Proof.
  intros [header Hreg] Hsec Hnone Hrow.
  rewrite (serverLineV4_routing_row _ _ _ _ _ Hreg Hsec Hrow).
  by apply dataRowV4_no_header.
Qed.

Lemma runsTo_headerless_rows (rows : list string) :
  is_Some (openvpnServerHeaders e !! "CLIENT_LIST") →
  Forall (λ line, isDataRowV4 "CLIENT_LIST" line = true) rows →
  ∀ st, currentSection st = "CLIENT_LIST" →
        headersFoundV4 st !! "CLIENT_LIST" = None →
        runsTo (serverLineV4 e statusPath) st rows =
          Some ([], counted st (Nat.iter (length rows) int_incr
                                  (numberConnectedClientV4 st))).
Proof.
  intros Hreg. induction 1 as [|line rows Hline Hrows IH]; intros st Hsec Hnone.
  - by destruct st.
  - simpl runsTo.
    rewrite (serverLineV4_headerless_client_row _ _ Hreg Hsec Hnone Hline).
    rewrite IH by done. simpl. by rewrite Nat.iter_swap.
Qed.

End headerless.

(** ** Where the parse errors come from *)

Section parse_errors.
Context `{GoRuntime}.
Variable e : OpenVPNExporter.
Variable statusPath : string.

(** The metric loop stops at the first field that the row has a value
    for, that [subslice] lets through and that [ParseFloat] rejects. *)
Lemma exportMetrics_fails (columnValues : gmap string string) (labels : list string)
    (before after : list OpenvpnServerHeaderField) (field : OpenvpnServerHeaderField)
    (value : string) :
  ∀ recorded recorded' sent,
    exportMetrics columnValues labels recorded before = (sent, inr recorded') →
    columnValues !! Column field = Some value →
    subslice labels (default [] (recorded' !! field)) = false →
    ParseFloat value = None →
    exportMetrics columnValues labels recorded (before ++ field :: after) =
      (sent, inl (NumError value)).
Proof.
  induction before as [|metric before IH];
    intros recorded recorded' sent Hbefore Hcol Hsub Hparse; simpl in *.
  - injection Hbefore as <- <-. by rewrite Hcol, Hsub, Hparse.
  - destruct (columnValues !! Column metric) as [columnValue|]; [|by eapply IH].
    destruct (negb _); [|by eapply IH].
    destruct (ParseFloat columnValue) as [v|]; [|done].
    destruct (exportMetrics columnValues labels _ before) as [sent0 r] eqn:Hb.
    injection Hbefore as <- ->.
    by rewrite (IH _ _ _ Hb Hcol Hsub Hparse).
Qed.

Lemma serverLine_NumError (sep : ascii) (st : serverState) (text value : string)
    (sent : list prometheus.Metric) :
  serverLine e statusPath sep st text = (sent, Return (NumError value)) →
  ParseFloat value = None.
Proof.
  unfold serverLine. intros Hline.
  repeat case_match; simplify_eq; try done.
  match goal with
  | Hexp : exportMetrics _ _ _ _ = (_, inl _) |- _ =>
      apply exportMetrics_error in Hexp as (field & v & _ & _ & Hparse & Herr)
  end.
  by injection Herr as ->.
Qed.

(** The v4 loop returns no error but those of its two parsers. *)
Lemma serverLineV4_error (st : serverStateV4) (line : string) (err : error)
    (sent : list prometheus.Metric) :
  serverLineV4 e statusPath st line = (sent, Return err) →
  (∃ value, err = NumError value ∧ ParseFloat value = None) ∨
  (∃ value, err = TimeParseError "2006-01-02 15:04:05" value ∧
            time_Parse "2006-01-02 15:04:05" value = None).
Proof.
  unfold serverLineV4, dataRowV4, parseTime. intros Hline.
  repeat case_match; simplify_eq;
    try (right; eexists; split; [reflexivity | done]);
    match goal with
    | Hexp : exportMetrics _ _ _ _ = (_, inl _) |- _ =>
        apply exportMetrics_error in Hexp as (field & v & _ & _ & Hparse & ->)
    end;
    left; by exists v.
Qed.

Lemma clientLine_error (st : unit) (text : string) (err : error)
    (sent : list prometheus.Metric) :
  clientLine e statusPath st text = (sent, Return err) →
  (∀ value, err = NumError value → ParseFloat value = None) ∧
  (∀ layout value, err = TimeParseError layout value →
     time_ParseInLocation_Local layout value = None).
Proof.
  unfold clientLine. intros Hline.
  repeat case_match; simplify_eq; split; intros; simplify_eq; done.
Qed.

End parse_errors.

(** ** Lines on which a parse fails *)

Section failing_lines.
Context `{GoRuntime}.
Variable paths : list string.
Variable ignoreIndividuals : bool.
Variable statusPath : string.
Let e := NewOpenVPNExporter paths ignoreIndividuals.

Lemma meetsRejected_fails (columnValues : gmap string string) (labels : list string)
    recorded (metrics : list OpenvpnServerHeaderField) (sent : list prometheus.Metric)
    (value : string) :
  meetsRejected columnValues labels recorded metrics sent value →
  exportMetrics columnValues labels recorded metrics = (sent, inl (NumError value)).
Proof.
  intros (before & field & after & recorded' & -> & Hbefore & Hcol & Hsub & Hparse).
  by eapply exportMetrics_fails.
Qed.

Lemma serverLine_row_fails (sep : ascii) (st : serverState) (text key value : string)
    (header : OpenvpnServerHeader) (columnNames : list string)
    (sent : list prometheus.Metric) :
  firstField sep text = key →
  openvpnServerHeaders e !! key = Some header →
  headersFound st !! key = Some columnNames →
  length (strings.Split text sep) = S (length columnNames) →
  meetsRejected (rowValues header columnNames (strings.Split text sep))
    (extractLabels statusPath (rowValues header columnNames (strings.Split text sep))
       (LabelColumns header))
    (recordedMetrics st) (Metrics header) sent value →
  serverLine e statusPath sep st text = (sent, Return (NumError value)).
Proof.
  unfold firstField, rowValues. intros Hkey Hreg Hfound Hlen Hmeets.
  apply meetsRejected_fails in Hmeets.
  unfold serverLine. cbv zeta. rewrite Hkey, Hreg, Hfound, Hlen, Hmeets.
  replace (length columnNames + 1)%nat with (S (length columnNames)) by lia.
  rewrite Nat.eqb_refl.
  by destruct (registered_sections _ _ _ _ Hreg) as [-> | ->].
Qed.

Lemma serverLine_time_fails (sep : ascii) (st : serverState) (text a value : string) :
  strings.Split text sep = ["TIME"; a; value] →
  ParseFloat value = None →
  serverLine e statusPath sep st text = ([], Return (NumError value)).
Proof.
  intros Hsplit Hparse. unfold serverLine, index. rewrite Hsplit. simpl.
  by rewrite Hparse.
Qed.

Lemma dataRowV4_fails (section : string) (header : OpenvpnServerHeader) (count : Z)
    (st : serverStateV4) (fields : list string) (sent : list prometheus.Metric)
    (value : string) :
  meetsRejected (rowValuesV4 (default [] (headersFoundV4 st !! section)) fields)
    (extractLabels statusPath
       (rowValuesV4 (default [] (headersFoundV4 st !! section)) fields)
       (LabelColumns header))
    (recordedMetricsV4 st) (Metrics header) sent value →
  dataRowV4 statusPath section header count st fields = (sent, Return (NumError value)).
Proof.
  unfold rowValuesV4. intros Hmeets. apply meetsRejected_fails in Hmeets.
  unfold dataRowV4. by rewrite Hmeets.
Qed.

(** A line that starts with [Updated,] is no title and is not empty. *)
Lemma updated_tests (line : string) :
  strings.HasPrefix line "Updated," = true →
  (line =? "") = false ∧ (line =? "OpenVPN CLIENT LIST") = false ∧
  (line =? "ROUTING TABLE") = false ∧ (line =? "GLOBAL STATS") = false ∧
  (line =? "END") = false.
Proof.
  intros Hupd. split_and!; apply String.eqb_neq; intros ->; discriminate Hupd.
Qed.

Lemma serverLineV4_updated_fails (st : serverStateV4) (line : string) :
  currentSection st = "CLIENT_LIST" →
  strings.HasPrefix line "Updated," = true →
  time_Parse "2006-01-02 15:04:05"
    (TrimSpace (index (strings.Split line ",") 1)) = None →
  serverLineV4 e statusPath st line =
    ([], Return (TimeParseError "2006-01-02 15:04:05"
                   (TrimSpace (index (strings.Split line ",") 1)))).
Proof.
  intros Hsec Hupd Htime. rewrite serverLineV4_title.
  destruct (updated_tests _ Hupd) as (-> & -> & -> & -> & ->).
  cbv zeta. rewrite Hsec, Hupd. unfold parseTime. by rewrite Htime.
Qed.

Lemma clientLine_updated_fails (st : unit) (text value : string) :
  strings.Split text "," = ["Updated"; value] →
  time_ParseInLocation_Local "Mon Jan 2 15:04:05 2006" value = None →
  clientLine e statusPath st text =
    ([], Return (TimeParseError "Mon Jan 2 15:04:05 2006" value)).
Proof.
  intros Hsplit Htime. unfold clientLine, index. rewrite Hsplit. simpl.
  by rewrite Htime.
Qed.

Lemma clientLine_counter_fails (st : unit) (text key value : string) :
  strings.Split text "," = [key; value] →
  is_Some (openvpnClientDescs e !! key) →
  ParseFloat value = None →
  clientLine e statusPath st text = ([], Return (NumError value)).
Proof.
  intros Hsplit [desc Hdesc] Hparse. unfold clientLine, index. rewrite Hsplit.
  cbn [nth length Nat.eqb andb]. rewrite !andb_false_r.
  destruct (String.eqb_spec key "Updated") as [->|_]; [by vm_compute in Hdesc|].
  cbn [andb]. by rewrite Hdesc, Hparse.
Qed.

End failing_lines.

(** * The properties *)

(** C4. The format detector selects the parser by the literal the stream
    starts with, in the order [TITLE,] (version 2, comma separated),
    [TITLE] and a tab (version 3, tab separated), [OpenVPN STATISTICS]
    (client), [OpenVPN CLIENT LIS] (version 4).  It looks at the first 18
    bytes only: two streams with the same first 18 bytes are handed to the
    same parser, or are both rejected.  A stream that starts with none of
    the literals makes the scan fail, sending nothing, with the error that
    carries the bytes peeked: the first 18 bytes of the stream, or all of
    it when it is shorter. *)
Theorem format_detection `{GoRuntime} (e : OpenVPNExporter) (statusPath : string)
    (file : bufio.Reader) :
  collectStatusFromReader e statusPath file =
    match dialectOf (bufio.data file) with
    | inl d => parserOf e statusPath d file
    | inr err => ([], Some err)
    end
  ∧ (∀ rest, dialectOf ("TITLE," +:+ rest) = inl ServerV2)
  ∧ (∀ rest, dialectOf (tabTitle +:+ rest) = inl ServerV3)
  ∧ (∀ rest, dialectOf ("OpenVPN STATISTICS" +:+ rest) = inl Client)
  ∧ (∀ rest, dialectOf ("OpenVPN CLIENT LIS" +:+ rest) = inl ServerV4)
  (* only the first 18 bytes count *)
  ∧ (∀ head rest rest', String.length head = 18%nat →
       dialectOf (head +:+ rest) = dialectOf (head +:+ rest'))
  ∧ (∀ file' head rest rest', String.length head = 18%nat →
       bufio.data file = head +:+ rest → bufio.data file' = head +:+ rest' →
       (∃ d, collectStatusFromReader e statusPath file = parserOf e statusPath d file ∧
             collectStatusFromReader e statusPath file' = parserOf e statusPath d file') ∨
       (collectStatusFromReader e statusPath file =
          ([], Some (UnexpectedFileContents head)) ∧
        collectStatusFromReader e statusPath file' =
          ([], Some (UnexpectedFileContents head))))
  (* the streams that are rejected, and the bytes the error carries *)
  ∧ (∀ stream err, dialectOf stream = inr err →
       strings.HasPrefix stream "TITLE," = false ∧
       strings.HasPrefix stream tabTitle = false ∧
       strings.HasPrefix stream "OpenVPN STATISTICS" = false ∧
       strings.HasPrefix stream "OpenVPN CLIENT LIS" = false ∧
       ((String.length stream ≤ 18)%nat → err = UnexpectedFileContents stream) ∧
       (∀ head rest, stream = head +:+ rest → String.length head = 18%nat →
          err = UnexpectedFileContents head)).
Proof.
  assert (Hcode : ∀ f, collectStatusFromReader e statusPath f =
    match dialectOf (bufio.data f) with
    | inl d => parserOf e statusPath d f
    | inr err => ([], Some err)
    end).
  { intros f. unfold collectStatusFromReader, dialectOf, bufio.Peek.
    rewrite !HasPrefix_first_bytes by (simpl; lia).
    by repeat case_match. }
  assert (Hhead : ∀ head rest, String.length head = 18%nat →
    dialectOf (head +:+ rest) =
      if strings.HasPrefix head "TITLE," then inl ServerV2
      else if strings.HasPrefix head tabTitle then inl ServerV3
      else if strings.HasPrefix head "OpenVPN STATISTICS" then inl Client
      else if strings.HasPrefix head "OpenVPN CLIENT LIS" then inl ServerV4
      else inr (UnexpectedFileContents head)).
  { intros head rest Hlen. unfold dialectOf.
    rewrite <- !(HasPrefix_first_bytes _ 18 (head +:+ rest)) by (simpl; lia).
    by rewrite (first_bytes_app head 18 rest Hlen). }
  split_and!.
  - apply Hcode.
  - intros rest. reflexivity.
  - intros rest. reflexivity.
  - intros rest. reflexivity.
  - intros rest. reflexivity.
  - intros head rest rest' Hlen. by rewrite !Hhead.
  - intros file' head rest rest' Hlen Hdata Hdata'.
    rewrite (Hcode file), (Hcode file'), Hdata, Hdata', !Hhead by done.
    repeat case_match; simplify_eq; first [by left; eexists | by right].
  - intros stream err. unfold dialectOf.
    repeat case_match; intros; simplify_eq; split_and!; try done.
    + intros Hshort. by rewrite first_bytes_short.
    + intros head rest -> Hlen. by rewrite (first_bytes_app head 18 rest Hlen).
Qed.

(** C10. In the v2/v3 parser an empty line is a line with the unknown key
    [""]: reading it returns the unsupported-key error, so a document that
    holds an empty line fails, with that error when the lines before it
    are read without one.  The v4 parser skips empty lines and continues:
    the loop does with a document what it does with the document without
    the empty line.  Adding an empty line to a v2 document that scans
    successfully turns the result into an error. *)
Theorem empty_line_v2_v4 `{GoRuntime} (paths : list string) (ignoreIndividuals : bool)
    (statusPath : string) :
  let e := NewOpenVPNExporter paths ignoreIndividuals in
  (∀ sep st, serverLine e statusPath sep st "" = ([], Return (UnsupportedKey "")))
  ∧ (∀ file sep, "" ∈ bufio.tokens (bufio.NewScanner file) →
       ∃ err, (collectServerStatusFromReader e statusPath file sep).2 = Some err)
  ∧ (∀ file sep pre post sent st,
       bufio.tokens (bufio.NewScanner file) = pre ++ "" :: post →
       runsTo (serverLine e statusPath sep) serverState_init pre = Some (sent, st) →
       collectServerStatusFromReader e statusPath file sep =
         (sent, Some (UnsupportedKey "")))
  ∧ (∀ st, serverLineV4 e statusPath st "" = ([], Next st))
  ∧ (∀ pre post st,
       forScan (serverLineV4 e statusPath) st (pre ++ "" :: post) =
       forScan (serverLineV4 e statusPath) st (pre ++ post))
  ∧ (∀ file file' pre post,
       bufio.tokens (bufio.NewScanner file) = pre ++ "" :: post →
       bufio.tokens (bufio.NewScanner file') = pre ++ post →
       (collectServerStatusFromReaderV4 e statusPath file).1 =
       (collectServerStatusFromReaderV4 e statusPath file').1 ∧
       (bufio.Err (bufio.NewScanner file) = None →
        bufio.Err (bufio.NewScanner file') = None →
        collectServerStatusFromReaderV4 e statusPath file =
        collectServerStatusFromReaderV4 e statusPath file'))
  ∧ (collectStatusFromReader e statusPath
       (Sample.document ["TITLE,OpenVPN 2.4.7"; "END"]) =
         ([connectedClients e statusPath 0], None) ∧
     collectStatusFromReader e statusPath
       (Sample.document ["TITLE,OpenVPN 2.4.7"; ""; "END"]) =
         ([], Some (UnsupportedKey ""))).
Proof.
  intros e.
  assert (Hempty : ∀ sep st,
    serverLine e statusPath sep st "" = ([], Return (UnsupportedKey ""))).
  { intros sep st. apply serverLine_empty, empty_key_not_registered. }
  split_and!.
  - exact Hempty.
  - intros file sep Hin. unfold collectServerStatusFromReader.
    destruct (forScan_fatal_line (serverLine e statusPath sep) ""
                (λ st, ex_intro _ [] (ex_intro _ _ (Hempty sep st)))
                (λ st line sent st', serverLine_no_break e statusPath sep st st' line sent)
                _ serverState_init Hin) as [err Herr].
    destruct (forScan _ _ _) as [sent [err'|st]]; simpl in *; [by exists err'|done].
  - intros file sep pre post sent st Htok Hrun. unfold collectServerStatusFromReader.
    rewrite Htok, (forScan_return _ pre post "" _ st sent [] _ Hrun (Hempty sep st)).
    by rewrite app_nil_r.
  - done.
  - intros pre post st. apply forScanV4_skip_empty.
  - intros file file' pre post Htok Htok'. unfold collectServerStatusFromReaderV4.
    rewrite Htok, Htok', forScanV4_skip_empty.
    destruct (forScan _ _ (pre ++ post)) as [sent [err|st]]; cbv beta iota zeta;
      [done|].
    split; [done|]. intros Herr Herr'. f_equal.
    rewrite Herr, Herr'.
    destruct (brokeAfter _ _ (pre ++ "" :: post)), (brokeAfter _ _ (pre ++ post));
      by rewrite ?ErrAfter_None.
  - done.
  - done.
Qed.

(** C5. In a v2/v3 document, a line whose first field is a registered
    section ([CLIENT_LIST] or [ROUTING_TABLE]) and before which no [HEADER]
    line gave the columns of that section makes the scan fail: the scan
    returns an error, and when the lines before it are read without one,
    it is the error that the section should be preceded by its headers,
    naming the section. *)
Theorem missing_header_v2 `{GoRuntime} (paths : list string) (ignoreIndividuals : bool)
    (statusPath : string) (file : bufio.Reader) (sep : ascii)
    (pre post : list string) (text section : string) :
  let e := NewOpenVPNExporter paths ignoreIndividuals in
  is_Some (openvpnServerHeaders e !! section) →
  bufio.tokens (bufio.NewScanner file) = pre ++ text :: post →
  firstField sep text = section →
  Forall (λ earlier, isHeaderFor sep section earlier = false) pre →
  (∃ err, (collectServerStatusFromReader e statusPath file sep).2 = Some err) ∧
  (∀ sent st,
     runsTo (serverLine e statusPath sep) serverState_init pre = Some (sent, st) →
     collectServerStatusFromReader e statusPath file sep =
       (sent, Some (ShouldBePrecededByHeaders section))).
Proof.
  intros e [header Hreg] Htok Hfirst Hno.
  assert (Hfail : ∀ sent st,
    runsTo (serverLine e statusPath sep) serverState_init pre = Some (sent, st) →
    collectServerStatusFromReader e statusPath file sep =
      (sent, Some (ShouldBePrecededByHeaders section))).
  { intros sent st Hrun. unfold collectServerStatusFromReader. rewrite Htok.
    assert (Hline : serverLine e statusPath sep st text =
                      ([], Return (ShouldBePrecededByHeaders section))).
    { rewrite <- Hfirst. apply serverLine_missing_header with header.
      - rewrite Hfirst. by apply registered_sections in Hreg.
      - by rewrite Hfirst.
      - rewrite Hfirst, (runsTo_headers _ _ _ _ _ _ _ _ Hrun Hno). apply lookup_empty. }
    rewrite (forScan_return _ pre post text _ st sent [] _ Hrun Hline).
    by rewrite app_nil_r. }
  split; [|exact Hfail].
  destruct (runsTo_or_fails (serverLine e statusPath sep) pre
              (λ st line sent st', serverLine_no_break e statusPath sep st st' line sent)
              serverState_init)
    as [(sent & st & Hrun)|(sent & err & Hpre)].
  - rewrite (Hfail _ _ Hrun). by eexists.
  - unfold collectServerStatusFromReader. rewrite Htok, Hpre. by exists err.
Qed.

(** C3. When the scan of a server document succeeds, the connected-clients
    gauge is sent exactly once, and its value is the number of
    [CLIENT_LIST] rows converted to a float: the lines whose first field
    is [CLIENT_LIST] for versions 2 and 3, the data rows of the client
    list section for version 4; it is [float64(0)] when there is no such
    row.  (The count is held in an [int], 64 bits wide: for a number of
    rows from [2 ^ 63] on, the value is the number wrapped around.) *)
Theorem connected_clients_gauge `{GoRuntime} (paths : list string)
    (ignoreIndividuals : bool) (statusPath : string) (file : bufio.Reader) :
  let e := NewOpenVPNExporter paths ignoreIndividuals in
  let lines := bufio.tokens (bufio.NewScanner file) in
  let gauges sent :=
    filter (λ m, prometheus.desc m = openvpnConnectedClientsDesc e) sent in
  let gauge (n : Z) :=
    prometheus.MustNewConstMetric (openvpnConnectedClientsDesc e)
      prometheus.GaugeValue (float64_of_int n) [statusPath] in
  (∀ sep sent,
     collectServerStatusFromReader e statusPath file sep = (sent, None) →
     ((Z.of_nat (clientListRows sep lines) < 2 ^ 63)%Z →
      gauges sent = [gauge (Z.of_nat (clientListRows sep lines))])
     ∧ (clientListRows sep lines = 0%nat → gauges sent = [gauge 0%Z])
     ∧ gauges sent =
         [gauge ((Z.of_nat (clientListRows sep lines) + 2 ^ 63) mod 2 ^ 64 - 2 ^ 63)%Z])
  ∧ (∀ sent,
     collectServerStatusFromReaderV4 e statusPath file = (sent, None) →
     ((Z.of_nat (clientListRowsV4 "" lines) < 2 ^ 63)%Z →
      gauges sent = [gauge (Z.of_nat (clientListRowsV4 "" lines))])
     ∧ (clientListRowsV4 "" lines = 0%nat → gauges sent = [gauge 0%Z])
     ∧ gauges sent =
         [gauge ((Z.of_nat (clientListRowsV4 "" lines) + 2 ^ 63) mod 2 ^ 64 - 2 ^ 63)%Z]).
Proof.
  intros e lines gauges gauge.
  assert (Hcount : ∀ (k : nat) sent,
    gauges sent = [gauge (int_wrap (Z.of_nat k))] →
    ((Z.of_nat k < 2 ^ 63)%Z → gauges sent = [gauge (Z.of_nat k)])
    ∧ (k = 0%nat → gauges sent = [gauge 0%Z])
    ∧ gauges sent = [gauge ((Z.of_nat k + 2 ^ 63) mod 2 ^ 64 - 2 ^ 63)%Z]).
  { intros k sent Hg. split_and!.
    - intros Hk. rewrite Hg. by rewrite int_wrap_small by lia.
    - intros ->. rewrite Hg. by rewrite int_wrap_small by lia.
    - exact Hg. }
  assert (Hlast : ∀ sent n,
    Forall (lineMetric e statusPath) sent →
    gauges (sent ++ [connectedClients e statusPath n]) =
      [connectedClients e statusPath n]).
  { intros sent n Hsent. unfold gauges, e in *.
    rewrite filter_app, (filter_connected_nil _ _ _ _ Hsent).
    by rewrite filter_cons_True. }
  split.
  - intros sep sent Hscan. apply Hcount.
    unfold collectServerStatusFromReader in Hscan. fold lines in Hscan.
    pose proof (forScan_Forall (serverLine e statusPath sep) _
                  (serverLine_sent e statusPath sep) lines serverState_init) as Hsent.
    destruct (forScan _ _ lines) as [sent0 [err|st]] eqn:Hloop; [done|].
    injection Hscan as <- _. cbn [fst] in Hsent.
    apply forScan_all_read in Hloop;
      [|intros; apply serverLine_no_break].
    rewrite (runsTo_counter _ _ _ _ _ _ _ Hloop). cbn [numberConnectedClient serverState_init].
    rewrite iter_int_incr. by apply Hlast.
  - intros sent Hscan. apply Hcount.
    unfold collectServerStatusFromReaderV4 in Hscan. fold lines in Hscan.
    pose proof (forScan_Forall (serverLineV4 e statusPath) _
                  (serverLineV4_sent e statusPath) lines serverStateV4_init) as Hsent.
    destruct (forScan _ _ lines) as [sent0 [err|st]] eqn:Hloop; [done|].
    injection Hscan as <- _. cbn [fst] in Hsent.
    rewrite (forScanV4_counter e statusPath (client_list_registered _ _)
               _ _ _ _ Hloop). cbn [numberConnectedClientV4 currentSection serverStateV4_init].
    rewrite iter_int_incr. by apply Hlast.
Qed.

(** C8. Whatever a server parser (versions 2 and 3, or version 4) sends for
    a field of a registered section carries one label value for the status
    path, which comes first, followed by one for each label column of the
    section: [1 + len(LabelColumns)] values, as many as the descriptor of
    the field has labels. *)
Theorem section_label_tuple `{GoRuntime} (paths : list string)
    (ignoreIndividuals : bool) (statusPath : string) (file : bufio.Reader)
    (m : prometheus.Metric) (key : string) (header : OpenvpnServerHeader)
    (field : OpenvpnServerHeaderField) :
  let e := NewOpenVPNExporter paths ignoreIndividuals in
  (∃ sep, m ∈ (collectServerStatusFromReader e statusPath file sep).1) ∨
  m ∈ (collectServerStatusFromReaderV4 e statusPath file).1 →
  openvpnServerHeaders e !! key = Some header →
  field ∈ Metrics header →
  prometheus.desc m = Desc field →
  length (prometheus.labelValues m) = (1 + length (LabelColumns header))%nat ∧
  prometheus.labelValues m !! 0%nat = Some statusPath ∧
  length (prometheus.labelValues m) =
    length (prometheus.variableLabels (prometheus.desc m)).
Proof.
  intros e Hsent Hreg Hin Hdesc.
  assert (Hm : lineMetric e statusPath m ∨ ∃ n, m = connectedClients e statusPath n).
  { destruct Hsent as [[sep Hsent]|Hsent].
    - by eapply collectServerStatusFromReader_sent.
    - by eapply collectServerStatusFromReaderV4_sent. }
  destruct (registered_desc_not_gauge _ _ _ _ _ Hreg Hin) as [Hnc Hnu].
  destruct Hm as [[[Hupd _]|Hrow]|[n ->]].
  - rewrite Hdesc in Hupd. by destruct Hnu.
  - destruct Hrow as (key' & header' & field' & values & Hreg' & Hin' & Hdesc' & _ & Hlab & Hlen).
    assert (header' = header) as ->.
    { eapply registered_desc_section; [exact Hreg'|exact Hin'|exact Hreg|exact Hin|].
      congruence. }
    rewrite Hlab. simpl. rewrite Hlen. split_and!; try done.
    rewrite Hdesc. clear -Hreg Hin.
    unfold e, NewOpenVPNExporter in Hreg. simpl in Hreg.
    rewrite !lookup_insert in Hreg.
    repeat case_decide; simplify_eq; simpl in *;
      repeat (apply elem_of_cons in Hin as [->|Hin]; [by destruct ignoreIndividuals|]);
      by apply elem_of_nil in Hin.
  - simpl in Hdesc. by destruct Hnc.
Qed.

(** C6. In a v4 document, a data row of the client list or of the routing
    table read while no header line of its section is stored sends nothing
    and is no error: the loop goes on to the next line with the section,
    the headers and the recorded labels unchanged, so the lines that
    follow decide the result, which can be success. *)
Theorem v4_row_without_header `{GoRuntime} (paths : list string)
    (ignoreIndividuals : bool) (statusPath : string) :
  let e := NewOpenVPNExporter paths ignoreIndividuals in
  (∀ st section line,
     section = "CLIENT_LIST" ∨ section = "ROUTING_TABLE" →
     currentSection st = section →
     headersFoundV4 st !! section = None →
     isDataRowV4 section line = true →
     ∃ st', serverLineV4 e statusPath st line = ([], Next st') ∧
            currentSection st' = section ∧
            headersFoundV4 st' = headersFoundV4 st ∧
            recordedMetricsV4 st' = recordedMetricsV4 st)
  ∧ (∀ file pre post st section line sent,
     section = "CLIENT_LIST" ∨ section = "ROUTING_TABLE" →
     bufio.tokens (bufio.NewScanner file) = pre ++ line :: post →
     runsTo (serverLineV4 e statusPath) serverStateV4_init pre = Some (sent, st) →
     currentSection st = section →
     headersFoundV4 st !! section = None →
     isDataRowV4 section line = true →
     ∃ st', forScan (serverLineV4 e statusPath) serverStateV4_init (pre ++ line :: post) =
              (sent ++ (forScan (serverLineV4 e statusPath) st' post).1,
               (forScan (serverLineV4 e statusPath) st' post).2) ∧
            currentSection st' = section ∧
            headersFoundV4 st' = headersFoundV4 st ∧
            recordedMetricsV4 st' = recordedMetricsV4 st)
  ∧ collectStatusFromReader e statusPath
      (Sample.document ["OpenVPN CLIENT LIST"; "alice,192.0.2.1:1194,100,200";
                        "ROUTING TABLE"; "10.8.0.2,alice,192.0.2.1:1194";
                        "GLOBAL STATS"; "END"]) =
      ([connectedClients e statusPath 1], None).
Proof.
  intros e.
  assert (Hstep : ∀ st section line,
     section = "CLIENT_LIST" ∨ section = "ROUTING_TABLE" →
     currentSection st = section →
     headersFoundV4 st !! section = None →
     isDataRowV4 section line = true →
     ∃ st', serverLineV4 e statusPath st line = ([], Next st') ∧
            currentSection st' = section ∧
            headersFoundV4 st' = headersFoundV4 st ∧
            recordedMetricsV4 st' = recordedMetricsV4 st).
  { intros st section line [-> | ->] Hsec Hnone Hrow.
    - eexists. split.
      + apply serverLineV4_headerless_client_row;
          first [done | apply client_list_registered].
      + done.
    - eexists. split.
      + apply serverLineV4_headerless_routing_row;
          first [done | apply routing_table_registered].
      + done. }
  split_and!.
  - exact Hstep.
  - intros file pre post st section line sent Hsection Htok Hrun Hsec Hnone Hrow.
    destruct (Hstep st section line Hsection Hsec Hnone Hrow) as (st' & Hline & Hrest).
    exists st'. split; [|done].
    by rewrite (forScan_next _ pre post line _ st st' sent [] Hrun Hline).
  - done.
Qed.

(** C9. In the v4 parser every data row of the client list (a line of that
    section that is neither an [Updated,] line nor a [Common Name,] header)
    that does not fail increments the client counter by one (the counter
    is an [int]: from its largest value it wraps around), and a row read
    while no header is stored does so without sending anything; the gauge
    sent at the end counts those rows too: a client list of rows without a
    header yields the gauge with the number of rows and nothing else. *)
Theorem v4_counts_every_row `{GoRuntime} (paths : list string)
    (ignoreIndividuals : bool) (statusPath : string) :
  let e := NewOpenVPNExporter paths ignoreIndividuals in
  let incremented (st st' : serverStateV4) :=
    numberConnectedClientV4 st' =
      ((numberConnectedClientV4 st + 1 + 2 ^ 63) mod 2 ^ 64 - 2 ^ 63)%Z ∧
    ((- 2 ^ 63 ≤ numberConnectedClientV4 st < 2 ^ 63 - 1)%Z →
     numberConnectedClientV4 st' = (numberConnectedClientV4 st + 1)%Z) in
  (∀ st line,
     currentSection st = "CLIENT_LIST" →
     isDataRowV4 "CLIENT_LIST" line = true →
     (∃ sent err, serverLineV4 e statusPath st line = (sent, Return err)) ∨
     (∃ sent st', serverLineV4 e statusPath st line = (sent, Next st') ∧
                  incremented st st'))
  ∧ (∀ st line,
     currentSection st = "CLIENT_LIST" →
     headersFoundV4 st !! "CLIENT_LIST" = None →
     isDataRowV4 "CLIENT_LIST" line = true →
     ∃ st', serverLineV4 e statusPath st line = ([], Next st') ∧
            incremented st st')
  ∧ (∀ file rows rest,
     Forall (λ line, isDataRowV4 "CLIENT_LIST" line = true) rows →
     bufio.tokens (bufio.NewScanner file) = "OpenVPN CLIENT LIST" :: rows ∨
     bufio.tokens (bufio.NewScanner file) = "OpenVPN CLIENT LIST" :: rows ++ "END" :: rest →
     ((Z.of_nat (length rows) < 2 ^ 63)%Z →
      (collectServerStatusFromReaderV4 e statusPath file).1 =
        [prometheus.MustNewConstMetric (openvpnConnectedClientsDesc e)
           prometheus.GaugeValue (float64_of_int (Z.of_nat (length rows))) [statusPath]])
     ∧ (collectServerStatusFromReaderV4 e statusPath file).1 =
         [prometheus.MustNewConstMetric (openvpnConnectedClientsDesc e)
            prometheus.GaugeValue
            (float64_of_int ((Z.of_nat (length rows) + 2 ^ 63) mod 2 ^ 64 - 2 ^ 63)%Z)
            [statusPath]]
     ∧ (bufio.Err (bufio.NewScanner file) = None →
        (collectServerStatusFromReaderV4 e statusPath file).2 = None)).
Proof.
  intros e incremented.
  pose proof (client_list_registered paths ignoreIndividuals) as Hreg.
  fold e in Hreg.
  assert (Hincr : ∀ st st',
    numberConnectedClientV4 st' = int_incr (numberConnectedClientV4 st) →
    incremented st st').
  { intros st st' Hst. split; [exact Hst|].
    intros Hrange. rewrite Hst. unfold int_incr. by rewrite int_wrap_small by lia. }
  split_and!.
  - intros st line Hsec Hrow. destruct Hreg as [header Hreg].
    rewrite (serverLineV4_client_row _ _ _ _ _ Hreg Hsec Hrow).
    destruct (dataRowV4 _ _ _ _ _ _) as [sent [st'|st'|err]] eqn:Hdata.
    + right. exists sent, st'. split; [done|]. apply Hincr.
      by destruct (dataRowV4_next _ _ _ _ _ _ _ _ Hdata) as (_ & _ & ->).
    + by apply dataRowV4_no_break in Hdata.
    + left. by exists sent, err.
  - intros st line Hsec Hnone Hrow. eexists. split.
    + by apply serverLineV4_headerless_client_row.
    + by apply Hincr.
  - intros file rows rest Hrows Htok.
    pose proof (runsTo_headerless_rows e statusPath rows Hreg Hrows
                  (setSection serverStateV4_init "CLIENT_LIST") eq_refl
                  (lookup_empty _)) as Hrun.
    assert (Htitle : runsTo (serverLineV4 e statusPath) serverStateV4_init
                       ("OpenVPN CLIENT LIST" :: rows) =
                     Some ([], counted (setSection serverStateV4_init "CLIENT_LIST")
                                 (Nat.iter (length rows) int_incr 0%Z))).
    { change (runsTo (serverLineV4 e statusPath) serverStateV4_init
                ("OpenVPN CLIENT LIST" :: rows))
        with (match runsTo (serverLineV4 e statusPath)
                      (setSection serverStateV4_init "CLIENT_LIST") rows with
              | Some (sent', st'') => Some ([] ++ sent', st'')
              | None => None
              end).
      by rewrite Hrun. }
    assert (Hloop : ∃ tail,
      forScan (serverLineV4 e statusPath) serverStateV4_init
        (bufio.tokens (bufio.NewScanner file)) =
        ([], inr (counted (setSection serverStateV4_init "CLIENT_LIST")
                    (Nat.iter (length rows) int_incr 0%Z))) ∧
      bufio.tokens (bufio.NewScanner file) = ("OpenVPN CLIENT LIST" :: rows) ++ tail).
    { destruct Htok as [-> | ->].
      - exists []. split; [|by rewrite app_nil_r].
        rewrite <- (app_nil_r ("OpenVPN CLIENT LIST" :: rows)).
        by rewrite (forScan_runsTo _ _ [] _ _ _ Htitle).
      - exists ("END" :: rest). split; [|done].
        change ("OpenVPN CLIENT LIST" :: rows ++ "END" :: rest)
          with (("OpenVPN CLIENT LIST" :: rows) ++ "END" :: rest).
        by rewrite (forScan_runsTo _ _ _ _ _ _ Htitle). }
    destruct Hloop as (tail & Hloop & _).
    unfold collectServerStatusFromReaderV4. rewrite Hloop. cbv beta iota zeta.
    cbn [fst snd app counted numberConnectedClientV4]. rewrite iter_int_incr.
    split_and!.
    + intros Hk. by rewrite int_wrap_small by lia.
    + done.
    + intros Herr. rewrite Herr. destruct (brokeAfter _ _ _); by rewrite ?ErrAfter_None.
Qed.

(** C7. In a client document, the line [Updated,Sun Oct 20 09:23:08 2024]
    followed by the line [TCP/UDP read bytes,1234], reached after lines the
    parser accepts, make the scan send the status update time gauge
    ([openvpn_status_update_time_seconds]) with the Unix time that
    [time.ParseInLocation] gives for that date and the layout
    [Mon Jan 2 15:04:05 2006] in the local time zone, and then the counter
    [openvpn_client_tcp_udp_read_bytes_total] with the value 1234. *)
Theorem client_update_time_and_counter `{GoRuntime} (paths : list string)
    (ignoreIndividuals : bool) (statusPath : string) (file : bufio.Reader)
    (pre post : list string) (sent : list prometheus.Metric) (unix : Z) :
  let e := NewOpenVPNExporter paths ignoreIndividuals in
  bufio.tokens (bufio.NewScanner file) =
    pre ++ "Updated,Sun Oct 20 09:23:08 2024" :: "TCP/UDP read bytes,1234" :: post →
  runsTo (clientLine e statusPath) tt pre = Some (sent, tt) →
  time_ParseInLocation_Local "Mon Jan 2 15:04:05 2006" "Sun Oct 20 09:23:08 2024"
    = Some unix →
  ParseFloat "1234" = Some (float64_of_int 1234) →
  ∃ desc later,
    openvpnClientDescs e !! "TCP/UDP read bytes" = Some desc ∧
    prometheus.fqName desc = "openvpn_client_tcp_udp_read_bytes_total" ∧
    prometheus.fqName (openvpnStatusUpdateTimeDesc e) =
      "openvpn_status_update_time_seconds" ∧
    (collectClientStatusFromReader e statusPath file).1 =
      sent ++
      [prometheus.MustNewConstMetric (openvpnStatusUpdateTimeDesc e)
         prometheus.GaugeValue (float64_of_int unix) [statusPath];
       prometheus.MustNewConstMetric desc
         prometheus.CounterValue (float64_of_int 1234) [statusPath]] ++
      later.
Proof.
  intros e Htok Hrun Htime Hfloat.
  assert (Hupdated : clientLine e statusPath tt "Updated,Sun Oct 20 09:23:08 2024" =
    ([prometheus.MustNewConstMetric (openvpnStatusUpdateTimeDesc e)
        prometheus.GaugeValue (float64_of_int unix) [statusPath]], Next tt)).
  { unfold clientLine, index. simpl. by rewrite Htime. }
  destruct (openvpnClientDescs e !! "TCP/UDP read bytes") as [desc|] eqn:Hdesc;
    [|by vm_compute in Hdesc].
  assert (Hname : prometheus.fqName desc = "openvpn_client_tcp_udp_read_bytes_total").
  { vm_compute in Hdesc. by injection Hdesc as <-. }
  assert (Hcounter : clientLine e statusPath tt "TCP/UDP read bytes,1234" =
    ([prometheus.MustNewConstMetric desc
        prometheus.CounterValue (float64_of_int 1234) [statusPath]], Next tt)).
  { unfold clientLine, index. simpl strings.Split. simpl nth.
    rewrite Hdesc. simpl. by rewrite Hfloat. }
  exists desc, (forScan (clientLine e statusPath) tt post).1.
  split_and!; try done.
  unfold collectClientStatusFromReader. rewrite Htok.
  rewrite (forScan_next _ pre _ _ _ tt tt sent _ Hrun Hupdated).
  simpl forScan. rewrite Hcounter.
  by destruct (forScan (clientLine e statusPath) tt post) as [later [err|[]]].
Qed.

(** C1 (as the parsers have it).  When the line the scan has reached makes
    the parser return an error, the scan stops there and returns that one
    error, wherever the line stands in the document.  What was sent for
    the lines before it, and for the earlier fields of the same row, stays
    sent; nothing is sent for the lines after it, and a server parser does
    not send the connected-clients gauge.  The lines on which a parse
    fails are such lines: a row in which the metric loop meets a value
    that [ParseFloat] rejects (a field that the row has a value for and
    that [subslice] lets through), a [TIME] line or a client counter with
    such a value, and an [Updated] line whose timestamp does not parse.
    A [NumError] is returned only for a value that [ParseFloat] rejects,
    and the v4 parser returns no other errors than those of [ParseFloat]
    and [time.Parse]. *)
Theorem error_stops_the_scan `{GoRuntime} (paths : list string)
    (ignoreIndividuals : bool) (statusPath : string) :
  let e := NewOpenVPNExporter paths ignoreIndividuals in
  let gauges sent :=
    filter (λ m, prometheus.desc m = openvpnConnectedClientsDesc e) sent in
  (* the scan stops at the line *)
  (∀ file pre line post sent sent' err,
     bufio.tokens (bufio.NewScanner file) = pre ++ line :: post →
     (∀ sep st,
        runsTo (serverLine e statusPath sep) serverState_init pre = Some (sent, st) →
        serverLine e statusPath sep st line = (sent', Return err) →
        collectServerStatusFromReader e statusPath file sep = (sent ++ sent', Some err) ∧
        gauges (sent ++ sent') = [] ∧
        (∀ value, err = NumError value → ParseFloat value = None))
     ∧ (∀ st,
        runsTo (serverLineV4 e statusPath) serverStateV4_init pre = Some (sent, st) →
        serverLineV4 e statusPath st line = (sent', Return err) →
        collectServerStatusFromReaderV4 e statusPath file = (sent ++ sent', Some err) ∧
        gauges (sent ++ sent') = [] ∧
        ((∃ value, err = NumError value ∧ ParseFloat value = None) ∨
         (∃ value, err = TimeParseError "2006-01-02 15:04:05" value ∧
                   time_Parse "2006-01-02 15:04:05" value = None)))
     ∧ (∀ st,
        runsTo (clientLine e statusPath) tt pre = Some (sent, st) →
        clientLine e statusPath st line = (sent', Return err) →
        collectClientStatusFromReader e statusPath file = (sent ++ sent', Some err) ∧
        (∀ value, err = NumError value → ParseFloat value = None) ∧
        (∀ layout value, err = TimeParseError layout value →
           time_ParseInLocation_Local layout value = None)))
  (* a row of a v2/v3 document with a value that is rejected *)
  ∧ (∀ sep st text key value header columnNames sent,
     firstField sep text = key →
     openvpnServerHeaders e !! key = Some header →
     headersFound st !! key = Some columnNames →
     length (strings.Split text sep) = S (length columnNames) →
     meetsRejected (rowValues header columnNames (strings.Split text sep))
       (extractLabels statusPath (rowValues header columnNames (strings.Split text sep))
          (LabelColumns header))
       (recordedMetrics st) (Metrics header) sent value →
     serverLine e statusPath sep st text = (sent, Return (NumError value)))
  (* the TIME line of a v2/v3 document *)
  ∧ (∀ sep st text a value,
     strings.Split text sep = ["TIME"; a; value] →
     ParseFloat value = None →
     serverLine e statusPath sep st text = ([], Return (NumError value)))
  (* a row of a v4 document with a value that is rejected *)
  ∧ (∀ st section line value header sent,
     currentSection st = section →
     isDataRowV4 section line = true →
     openvpnServerHeaders e !! section = Some header →
     meetsRejected
       (rowValuesV4 (default [] (headersFoundV4 st !! section)) (strings.Split line ","))
       (extractLabels statusPath
          (rowValuesV4 (default [] (headersFoundV4 st !! section)) (strings.Split line ","))
          (LabelColumns header))
       (recordedMetricsV4 st) (Metrics header) sent value →
     serverLineV4 e statusPath st line = (sent, Return (NumError value)))
  (* the Updated line of a v4 document *)
  ∧ (∀ st line,
     currentSection st = "CLIENT_LIST" →
     strings.HasPrefix line "Updated," = true →
     time_Parse "2006-01-02 15:04:05"
       (TrimSpace (index (strings.Split line ",") 1)) = None →
     serverLineV4 e statusPath st line =
       ([], Return (TimeParseError "2006-01-02 15:04:05"
                      (TrimSpace (index (strings.Split line ",") 1)))))
  (* the Updated line and the counters of a client document *)
  ∧ (∀ st text value,
     strings.Split text "," = ["Updated"; value] →
     time_ParseInLocation_Local "Mon Jan 2 15:04:05 2006" value = None →
     clientLine e statusPath st text =
       ([], Return (TimeParseError "Mon Jan 2 15:04:05 2006" value)))
  ∧ (∀ st text key value,
     strings.Split text "," = [key; value] →
     is_Some (openvpnClientDescs e !! key) →
     ParseFloat value = None →
     clientLine e statusPath st text = ([], Return (NumError value))).
Proof.
  intros e gauges.
  split_and!.
  - intros file pre line post sent sent' err Htok. split_and!.
    + intros sep st Hrun Hline.
      pose proof (forScan_return _ pre post line _ st sent sent' err Hrun Hline) as Hscan.
      split_and!.
      * unfold collectServerStatusFromReader. by rewrite Htok, Hscan.
      * pose proof (forScan_Forall (serverLine e statusPath sep) _
                      (serverLine_sent e statusPath sep) (pre ++ line :: post)
                      serverState_init) as Hsent.
        rewrite Hscan in Hsent. by apply filter_connected_nil in Hsent.
      * intros value ->. by eapply serverLine_NumError.
    + intros st Hrun Hline.
      pose proof (forScan_return _ pre post line _ st sent sent' err Hrun Hline) as Hscan.
      split_and!.
      * unfold collectServerStatusFromReaderV4. by rewrite Htok, Hscan.
      * pose proof (forScan_Forall (serverLineV4 e statusPath) _
                      (serverLineV4_sent e statusPath) (pre ++ line :: post)
                      serverStateV4_init) as Hsent.
        rewrite Hscan in Hsent. by apply filter_connected_nil in Hsent.
      * by eapply serverLineV4_error.
    + intros st Hrun Hline.
      pose proof (forScan_return _ pre post line _ st sent sent' err Hrun Hline) as Hscan.
      split.
      * unfold collectClientStatusFromReader. by rewrite Htok, Hscan.
      * by eapply clientLine_error.
  - intros sep st text key value header columnNames sent.
    apply serverLine_row_fails.
  - intros sep st text a value. apply serverLine_time_fails.
  - intros st section line value header sent Hsec Hrow Hreg Hmeets.
    destruct (registered_sections _ _ _ _ Hreg) as [-> | ->].
    + rewrite (serverLineV4_client_row _ _ _ _ _ Hreg Hsec Hrow).
      by apply dataRowV4_fails.
    + rewrite (serverLineV4_routing_row _ _ _ _ _ Hreg Hsec Hrow).
      by apply dataRowV4_fails.
  - intros st line. apply serverLineV4_updated_fails.
  - intros st text value. apply clientLine_updated_fails.
  - intros st text key value. apply clientLine_counter_fails.
Qed.

(** C1, the claim as stated, fails: the [TIME] line of the first version 2
    document has sent the status update time when the value [abc] of the
    client row is rejected, so the scan returns the error with that metric
    sent; and in the second document the value [abc] stands in a row that
    [subslice] takes for a repeat, so it is not parsed and the scan
    succeeds. *)
Lemma malformed_value_keeps_earlier_metrics :
  Sample.scan ["TITLE,OpenVPN 2.4.7"; "TIME,Mon Oct 21 09:23:08 2024,1729502588";
               "HEADER,CLIENT_LIST,Common Name,Bytes Received,Bytes Sent";
               "CLIENT_LIST,alice,abc,200"; "END"] =
    ([("openvpn_status_update_time_seconds", 1729502588%Z, [Sample.path])],
     Some (NumError "abc"))
  ∧ Sample.scan ["TITLE,OpenVPN 2.4.7";
                 "HEADER,CLIENT_LIST,Common Name,Bytes Received,Bytes Sent";
                 "CLIENT_LIST,alice,100,200"; "CLIENT_LIST,alice,abc,200"; "END"] =
    ([("openvpn_server_client_received_bytes_total", 100%Z,
       [Sample.path; "alice"; ""; ""; ""; "alice"]);
      ("openvpn_server_client_sent_bytes_total", 200%Z,
       [Sample.path; "alice"; ""; ""; ""; "alice"]);
      ("openvpn_server_connected_clients", 2%Z, [Sample.path])],
     None).
Proof. by vm_compute. Qed.

(** C2. [subslice] does not test for a run of consecutive elements: it
    accepts a candidate whose label values all occur somewhere in the
    recorded labels of the field, in any order and from any earlier row.
    So the third client row of this version 2 document, whose label tuple
    is new, is taken for a repeat: its two counters are not sent, while
    the gauge counts three clients. *)
Theorem subslice_scattered_labels :
  subslice ["p"; "b"; "a"] ["p"; "a"; "b"] = true
  ∧ isContiguousRun ["p"; "b"; "a"] ["p"; "a"; "b"] = false
  ∧ Sample.scan
      ["TITLE,OpenVPN 2.4.7";
       "HEADER,CLIENT_LIST,Common Name,Real Address,Virtual Address,Bytes Received,Bytes Sent,Connected Since";
       "CLIENT_LIST,alice,192.0.2.1:1194,10.8.0.2,100,200,Mon Oct 21 09:00:00 2024";
       "CLIENT_LIST,bob,192.0.2.2:1194,10.8.0.3,300,400,Mon Oct 21 09:00:00 2024";
       "CLIENT_LIST,alice,192.0.2.2:1194,10.8.0.2,500,600,Mon Oct 21 09:00:00 2024";
       "END"] =
      ([("openvpn_server_client_received_bytes_total", 100%Z,
         [Sample.path; "alice"; "Mon Oct 21 09:00:00 2024"; "192.0.2.1:1194";
          "10.8.0.2"; "alice"]);
        ("openvpn_server_client_sent_bytes_total", 200%Z,
         [Sample.path; "alice"; "Mon Oct 21 09:00:00 2024"; "192.0.2.1:1194";
          "10.8.0.2"; "alice"]);
        ("openvpn_server_client_received_bytes_total", 300%Z,
         [Sample.path; "bob"; "Mon Oct 21 09:00:00 2024"; "192.0.2.2:1194";
          "10.8.0.3"; "bob"]);
        ("openvpn_server_client_sent_bytes_total", 400%Z,
         [Sample.path; "bob"; "Mon Oct 21 09:00:00 2024"; "192.0.2.2:1194";
          "10.8.0.3"; "bob"]);
        ("openvpn_server_connected_clients", 3%Z, [Sample.path])],
       None).
Proof. by vm_compute. Qed.

(** * The properties at concrete documents *)

(** C4 at a stream of 23 bytes that starts with none of the four literals:
    the error carries its first 18 bytes. *)
Lemma format_detection_witness :
  ∃ err,
    dialectOf "garbage in, garbage out" = inr err ∧
    err = UnexpectedFileContents "garbage in, garbag" ∧
    collectStatusFromReader (H := Sample.runtime) Sample.exporter Sample.path
      {| bufio.data := "garbage in, garbage out"; bufio.readErr := None |} =
      ([], Some err).
Proof.
  destruct (format_detection (H := Sample.runtime) Sample.exporter Sample.path
              {| bufio.data := "garbage in, garbage out"; bufio.readErr := None |})
    as (Hcode & _ & _ & _ & _ & _ & _ & Hother).
  destruct (Hother "garbage in, garbage out"
              (UnexpectedFileContents (strings.first_bytes 18 "garbage in, garbage out"))
              eq_refl)
    as (_ & _ & _ & _ & _ & Hhead).
  exists (UnexpectedFileContents (strings.first_bytes 18 "garbage in, garbage out")).
  split; [reflexivity|]. split.
  - exact (Hhead "garbage in, garbag" "e out" eq_refl eq_refl).
  - exact Hcode.
Defined.

(** C1 at a version 2 document whose client row has the value [abc] in its
    second metric column: the update time and the first counter of the
    row are sent, then the scan returns the error. *)
Lemma error_stops_the_scan_witness :
  collectServerStatusFromReader (H := Sample.runtime) Sample.exporter Sample.path
    (Sample.document
       ["TITLE,OpenVPN 2.4.7"; "TIME,Mon Oct 21 09:23:08 2024,1729502588";
        "HEADER,CLIENT_LIST,Common Name,Bytes Received,Bytes Sent";
        "CLIENT_LIST,alice,100,abc"; "END"]) "," =
    ([prometheus.MustNewConstMetric (openvpnStatusUpdateTimeDesc Sample.exporter)
        prometheus.GaugeValue (@float64_of_int Sample.runtime 1729502588)
        [Sample.path]] ++
     [prometheus.MustNewConstMetric
        (prometheus.NewDesc "openvpn_server_client_received_bytes_total"
           "Amount of data received over a connection on the VPN server, in bytes."
           ["status_path"; "common_name"; "connection_time"; "real_address";
            "virtual_address"; "username"])
        prometheus.CounterValue (@float64_of_int Sample.runtime 100)
        [Sample.path; "alice"; ""; ""; ""; "alice"]],
     Some (NumError "abc")).
Proof.
  destruct (error_stops_the_scan (H := Sample.runtime) [Sample.path] false Sample.path)
    as (Hstops & Hrow & _).
  destruct (Hstops
              (Sample.document
                 ["TITLE,OpenVPN 2.4.7"; "TIME,Mon Oct 21 09:23:08 2024,1729502588";
                  "HEADER,CLIENT_LIST,Common Name,Bytes Received,Bytes Sent";
                  "CLIENT_LIST,alice,100,abc"; "END"])
              ["TITLE,OpenVPN 2.4.7"; "TIME,Mon Oct 21 09:23:08 2024,1729502588";
               "HEADER,CLIENT_LIST,Common Name,Bytes Received,Bytes Sent"]
              "CLIENT_LIST,alice,100,abc" ["END"]
              [prometheus.MustNewConstMetric (openvpnStatusUpdateTimeDesc Sample.exporter)
                 prometheus.GaugeValue (@float64_of_int Sample.runtime 1729502588)
                 [Sample.path]]
              [prometheus.MustNewConstMetric
                 (prometheus.NewDesc "openvpn_server_client_received_bytes_total"
                    "Amount of data received over a connection on the VPN server, in bytes."
                    ["status_path"; "common_name"; "connection_time"; "real_address";
                     "virtual_address"; "username"])
                 prometheus.CounterValue (@float64_of_int Sample.runtime 100)
                 [Sample.path; "alice"; ""; ""; ""; "alice"]]
              (NumError "abc") eq_refl) as (Hserver & _ & _).
  refine (proj1 (Hserver ","%char {|
            headersFound := <["CLIENT_LIST" := ["Common Name"; "Bytes Received"; "Bytes Sent"]]> ∅;
            numberConnectedClient := 0;
            recordedMetrics := ∅ |} _ _)).
  - vm_compute. reflexivity.
  - eapply (Hrow ","%char _ "CLIENT_LIST,alice,100,abc" "CLIENT_LIST" "abc").
    + reflexivity.
    + reflexivity.
    + reflexivity.
    + reflexivity.
    + eexists [_], _, [], _. split_and!; reflexivity.
Defined.

(** C3 at a version 2 document with two clients: the gauge has the
    value 2. *)
Lemma connected_clients_gauge_witness :
  filter (λ m, prometheus.desc m = openvpnConnectedClientsDesc Sample.exporter)
    (collectServerStatusFromReader (H := Sample.runtime) Sample.exporter Sample.path
       (Sample.document
          ["TITLE,OpenVPN 2.4.7"; "HEADER,CLIENT_LIST,Common Name,Bytes Received";
           "CLIENT_LIST,alice,100"; "CLIENT_LIST,bob,300"; "END"]) ",").1 =
    [prometheus.MustNewConstMetric (H := Sample.runtime)
       (openvpnConnectedClientsDesc Sample.exporter) prometheus.GaugeValue
       (@float64_of_int Sample.runtime 2) [Sample.path]].
Proof.
  refine (proj1 (proj1 (connected_clients_gauge (H := Sample.runtime) [Sample.path] false
                          Sample.path
                          (Sample.document
                             ["TITLE,OpenVPN 2.4.7";
                              "HEADER,CLIENT_LIST,Common Name,Bytes Received";
                              "CLIENT_LIST,alice,100"; "CLIENT_LIST,bob,300"; "END"]))
                   ","%char _ _) _).
  - vm_compute. reflexivity.
  - vm_compute. reflexivity.
Defined.

(** C5 at a version 2 document whose client row has no [HEADER] line
    before it. *)
Lemma missing_header_v2_witness :
  collectServerStatusFromReader (H := Sample.runtime) Sample.exporter Sample.path
    (Sample.document ["TITLE,OpenVPN 2.4.7"; "CLIENT_LIST,alice,100,200"; "END"]) "," =
    ([], Some (ShouldBePrecededByHeaders "CLIENT_LIST")).
Proof.
  refine (proj2 (missing_header_v2 (H := Sample.runtime) [Sample.path] false Sample.path
                   (Sample.document
                      ["TITLE,OpenVPN 2.4.7"; "CLIENT_LIST,alice,100,200"; "END"])
                   "," ["TITLE,OpenVPN 2.4.7"] ["END"] "CLIENT_LIST,alice,100,200"
                   "CLIENT_LIST" _ eq_refl eq_refl _) [] serverState_init eq_refl).
  - apply client_list_registered.
  - repeat constructor.
Defined.

(** C6 at the first row of a version 4 client list without a header
    line. *)
Lemma v4_row_without_header_witness :
  ∃ st', serverLineV4 (H := Sample.runtime) Sample.exporter Sample.path
           (setSection serverStateV4_init "CLIENT_LIST")
           "alice,192.0.2.1:1194,100,200" = ([], Next st') ∧
         currentSection st' = "CLIENT_LIST" ∧
         headersFoundV4 st' = ∅ ∧
         recordedMetricsV4 st' = ∅.
Proof.
  refine (proj1 (v4_row_without_header (H := Sample.runtime) [Sample.path] false
                   Sample.path)
            (setSection serverStateV4_init "CLIENT_LIST") "CLIENT_LIST"
            "alice,192.0.2.1:1194,100,200" _ eq_refl _ eq_refl).
  - by left.
  - reflexivity.
Defined.

(** C7 at the client document made of the title, the two lines and [END]. *)
Lemma client_update_time_and_counter_witness :
  ∃ desc later,
    openvpnClientDescs Sample.exporter !! "TCP/UDP read bytes" = Some desc ∧
    prometheus.fqName desc = "openvpn_client_tcp_udp_read_bytes_total" ∧
    prometheus.fqName (openvpnStatusUpdateTimeDesc Sample.exporter) =
      "openvpn_status_update_time_seconds" ∧
    (collectClientStatusFromReader (H := Sample.runtime) Sample.exporter Sample.path
       (Sample.document
          ["OpenVPN STATISTICS"; "Updated,Sun Oct 20 09:23:08 2024";
           "TCP/UDP read bytes,1234"; "END"])).1 =
      [] ++
      [prometheus.MustNewConstMetric (openvpnStatusUpdateTimeDesc Sample.exporter)
         prometheus.GaugeValue (@float64_of_int Sample.runtime 1729416188)
         [Sample.path];
       prometheus.MustNewConstMetric desc
         prometheus.CounterValue (@float64_of_int Sample.runtime 1234)
         [Sample.path]] ++
      later.
Proof.
  exact (client_update_time_and_counter (H := Sample.runtime) [Sample.path] false
           Sample.path
           (Sample.document
              ["OpenVPN STATISTICS"; "Updated,Sun Oct 20 09:23:08 2024";
               "TCP/UDP read bytes,1234"; "END"])
           ["OpenVPN STATISTICS"] ["END"] [] 1729416188
           eq_refl eq_refl eq_refl eq_refl).
Defined.

(** C9 at a version 4 client list of two rows without a header line: the
    gauge has the value 2. *)
Lemma v4_counts_every_row_witness :
  (collectServerStatusFromReaderV4 (H := Sample.runtime) Sample.exporter Sample.path
     (Sample.document
        ["OpenVPN CLIENT LIST"; "alice,192.0.2.1:1194,100,200";
         "bob,192.0.2.2:1194,300,400"; "END"])).1 =
    [prometheus.MustNewConstMetric (H := Sample.runtime)
       (openvpnConnectedClientsDesc Sample.exporter) prometheus.GaugeValue
       (@float64_of_int Sample.runtime 2) [Sample.path]] ∧
  (collectServerStatusFromReaderV4 (H := Sample.runtime) Sample.exporter Sample.path
     (Sample.document
        ["OpenVPN CLIENT LIST"; "alice,192.0.2.1:1194,100,200";
         "bob,192.0.2.2:1194,300,400"; "END"])).2 = None.
Proof.
  assert (Hrows : Forall (λ line, isDataRowV4 "CLIENT_LIST" line = true)
                    ["alice,192.0.2.1:1194,100,200"; "bob,192.0.2.2:1194,300,400"]).
  { repeat constructor. }
  destruct (proj2 (proj2 (v4_counts_every_row (H := Sample.runtime) [Sample.path] false
                            Sample.path))
              (Sample.document
                 ["OpenVPN CLIENT LIST"; "alice,192.0.2.1:1194,100,200";
                  "bob,192.0.2.2:1194,300,400"; "END"])
              ["alice,192.0.2.1:1194,100,200"; "bob,192.0.2.2:1194,300,400"] []
              Hrows (or_intror eq_refl)) as (Hsmall & _ & Herr).
  split.
  - apply Hsmall. vm_compute. reflexivity.
  - apply Herr. reflexivity.
Defined.

(** C10 at a version 2 document with an empty second line. *)
Lemma empty_line_v2_v4_witness :
  collectServerStatusFromReader (H := Sample.runtime) Sample.exporter Sample.path
    (Sample.document ["TITLE,OpenVPN 2.4.7"; ""; "END"]) "," =
    ([], Some (UnsupportedKey "")).
Proof.
  destruct (empty_line_v2_v4 (H := Sample.runtime) [Sample.path] false Sample.path)
    as (_ & _ & Hreached & _).
  exact (Hreached (Sample.document ["TITLE,OpenVPN 2.4.7"; ""; "END"]) ","%char
           ["TITLE,OpenVPN 2.4.7"] ["END"] [] serverState_init eq_refl eq_refl).
Defined.

(** C8 at the received-bytes counter of a version 2 client row. *)
Lemma section_label_tuple_witness :
  ∃ (m : @prometheus.Metric Sample.runtime) header field,
    m ∈ (collectServerStatusFromReader Sample.exporter Sample.path
           (Sample.document
              ["TITLE,OpenVPN 2.4.7"; "HEADER,CLIENT_LIST,Common Name,Bytes Received";
               "CLIENT_LIST,alice,100"; "END"]) ",").1 ∧
    openvpnServerHeaders Sample.exporter !! "CLIENT_LIST" = Some header ∧
    field ∈ Metrics header ∧
    prometheus.desc m = Desc field ∧
    length (prometheus.labelValues m) = (1 + length (LabelColumns header))%nat ∧
    prometheus.labelValues m !! 0%nat = Some Sample.path.
Proof.
  pose (received := prometheus.NewDesc "openvpn_server_client_received_bytes_total"
          "Amount of data received over a connection on the VPN server, in bytes."
          ["status_path"; "common_name"; "connection_time"; "real_address";
           "virtual_address"; "username"]).
  pose (sentBytes := prometheus.NewDesc "openvpn_server_client_sent_bytes_total"
          "Amount of data sent over a connection on the VPN server, in bytes."
          ["status_path"; "common_name"; "connection_time"; "real_address";
           "virtual_address"; "username"]).
  pose (field := {| Column := "Bytes Received"; Desc := received;
                    ValueType := prometheus.CounterValue |}).
  pose (header := {| LabelColumns := ["Common Name"; "Connected Since"; "Real Address";
                                      "Virtual Address"; "Common Name"];
                     Metrics := [field;
                                 {| Column := "Bytes Sent"; Desc := sentBytes;
                                    ValueType := prometheus.CounterValue |}] |}).
  pose (m := prometheus.MustNewConstMetric (H := Sample.runtime) received
               prometheus.CounterValue (@float64_of_int Sample.runtime 100)
               [Sample.path; "alice"; ""; ""; ""; "alice"]).
  assert (Hsent : m ∈ (collectServerStatusFromReader Sample.exporter Sample.path
            (Sample.document
               ["TITLE,OpenVPN 2.4.7"; "HEADER,CLIENT_LIST,Common Name,Bytes Received";
                "CLIENT_LIST,alice,100"; "END"]) ",").1).
  { vm_compute. left. }
  assert (Hreg : openvpnServerHeaders Sample.exporter !! "CLIENT_LIST" = Some header).
  { reflexivity. }
  assert (Hfield : field ∈ Metrics header).
  { left. }
  destruct (section_label_tuple (H := Sample.runtime) [Sample.path] false Sample.path _
              m "CLIENT_LIST" header field
              (or_introl (ex_intro _ ","%char Hsent)) Hreg Hfield eq_refl)
    as (Hlen & Hfirst & _).
  exists m, header, field. repeat split; assumption.
Defined.

(** * Further properties of the exporter *)

(** ** What a scan of any dialect sends *)

Section scan_sent.
Context `{GoRuntime}.
Variable e : OpenVPNExporter.
Variable statusPath : string.

Lemma clientLine_sent (st : unit) (text : string) :
  Forall (scanMetric e statusPath) (clientLine e statusPath st text).1.
Proof.
  unfold clientLine.
  repeat case_match; simpl; try apply List.Forall_nil;
    apply List.Forall_cons; try apply List.Forall_nil.
  - left. apply updateTime_sent.
  - right. right. by eexists _, _.
Qed.

Lemma collectClientStatusFromReader_sent (file : bufio.Reader) :
  Forall (scanMetric e statusPath) (collectClientStatusFromReader e statusPath file).1.
Proof.
  unfold collectClientStatusFromReader.
  pose proof (forScan_Forall (clientLine e statusPath) _ clientLine_sent
                (bufio.tokens (bufio.NewScanner file)) tt) as Hsent.
  by destruct (forScan _ _ _) as [sent [err|st]].
Qed.

Lemma collectStatusFromReader_sent (file : bufio.Reader) :
  Forall (scanMetric e statusPath) (collectStatusFromReader e statusPath file).1.
Proof.
  assert (Hserver : ∀ m, lineMetric e statusPath m ∨
                         (∃ n, m = connectedClients e statusPath n) →
                         scanMetric e statusPath m).
  { intros m [Hm|Hm]; [by left | by right; left]. }
  unfold collectStatusFromReader.
  repeat case_match; try apply collectClientStatusFromReader_sent;
    try (apply Forall_forall; intros m Hm; apply Hserver;
         first [ by eapply collectServerStatusFromReader_sent
               | by eapply collectServerStatusFromReaderV4_sent ]).
  constructor.
Qed.

End scan_sent.

(** ** The client table and the [up] descriptor of [NewOpenVPNExporter] *)

Section registry_client.
Context `{GoRuntime}.
Variable paths : list string.
Variable ignoreIndividuals : bool.
Let e := NewOpenVPNExporter paths ignoreIndividuals.

Lemma client_desc (key : string) (desc : prometheus.Desc) :
  openvpnClientDescs e !! key = Some desc →
  prometheus.variableLabels desc = ["status_path"] ∧
  strings.HasPrefix (prometheus.fqName desc) "openvpn_client_" = true.
Proof.
  unfold e, NewOpenVPNExporter. simpl.
  rewrite !lookup_insert. intros Hlook.
  repeat case_decide; simplify_eq; done.
Qed.

(** The number of label names of a registered field. *)
Lemma registered_label_names (key : string) (header : OpenvpnServerHeader)
    (field : OpenvpnServerHeaderField) :
  openvpnServerHeaders e !! key = Some header → field ∈ Metrics header →
  length (prometheus.variableLabels (Desc field)) = S (length (LabelColumns header)).
Proof.
  unfold e, NewOpenVPNExporter. simpl.
  rewrite !lookup_insert. intros Hreg Hin.
  repeat case_decide; simplify_eq; simpl in *;
    repeat (apply elem_of_cons in Hin as [->|Hin]; [by destruct ignoreIndividuals|]);
    by apply elem_of_nil in Hin.
Qed.

(** Every metric of a scan has the status path as its first label value,
    as many label values as its descriptor has label names, and a
    descriptor other than [openvpn_up]. *)
Lemma scanMetric_labels (statusPath : string) (m : prometheus.Metric) :
  scanMetric e statusPath m →
  length (prometheus.labelValues m) =
    length (prometheus.variableLabels (prometheus.desc m)) ∧
  prometheus.labelValues m !! 0%nat = Some statusPath ∧
  prometheus.desc m ≠ openvpnUpDesc e.
Proof.
  intros [[[Hdesc Hlab]|Hrow]|[[n ->]|(key & desc & Hlook & Hdesc & _ & Hlab)]].
  - rewrite Hdesc, Hlab. by split_and!.
  - destruct Hrow as (key & header & field & values & Hreg & Hin & Hdesc & _ & Hlab & Hlen).
    rewrite Hdesc, Hlab, (registered_label_names _ _ _ Hreg Hin). simpl.
    split_and!; [by rewrite Hlen | done |].
    destruct (registered_fields _ _ _ _ _ Hreg Hin) as [[_ [Hf|Hf]]|[_ Hf]];
      intros Heq; rewrite Heq in Hf; discriminate Hf.
  - by split_and!.
  - destruct (client_desc _ _ Hlook) as [Hnames Hprefix].
    rewrite Hdesc, Hlab, Hnames. split_and!; try done.
    intros ->. discriminate Hprefix.
Qed.

End registry_client.

(** ** [Collect] *)

Section collect_facts.
Context `{GoRuntime}.
Variable paths : list string.
Variable ignoreIndividuals : bool.
Variable Open : string → bufio.Reader + error.
Let e := NewOpenVPNExporter paths ignoreIndividuals.

Lemma collectStatusFromFile_sent (statusPath : string) :
  Forall (scanMetric e statusPath) (collectStatusFromFile e Open statusPath).1.
Proof.
  unfold collectStatusFromFile.
  destruct (Open statusPath) as [conn|err]; [|constructor].
  apply collectStatusFromReader_sent.
Qed.

Lemma Collect_range_up (statusPaths : list string) :
  filter (λ m, prometheus.desc m = openvpnUpDesc e) (Collect_range e Open statusPaths) =
    map (λ statusPath,
           upMetric e statusPath (collectStatusFromFile e Open statusPath).2)
        statusPaths.
Proof.
  induction statusPaths as [|statusPath rest IH]; simpl; [done|].
  pose proof (collectStatusFromFile_sent statusPath) as Hsent.
  destruct (collectStatusFromFile e Open statusPath) as [sent err]. simpl in *.
  rewrite filter_app, filter_cons_True by done.
  rewrite IH. replace (filter _ sent) with (@nil prometheus.Metric); [done|].
  symmetry. induction Hsent as [|m sent Hm Hsent IHsent]; [done|].
  rewrite filter_cons_False; [done|].
  by destruct (scanMetric_labels paths ignoreIndividuals statusPath m Hm) as (_ & _ & ?).
Qed.

Lemma Collect_range_labels (statusPaths : list string) (m : prometheus.Metric) :
  m ∈ Collect_range e Open statusPaths →
  length (prometheus.labelValues m) =
    length (prometheus.variableLabels (prometheus.desc m)) ∧
  ∃ statusPath, statusPath ∈ statusPaths ∧
                prometheus.labelValues m !! 0%nat = Some statusPath.
Proof.
  induction statusPaths as [|statusPath rest IH]; simpl.
  { by intros ?%elem_of_nil. }
  pose proof (collectStatusFromFile_sent statusPath) as Hsent.
  rewrite Forall_forall in Hsent.
  destruct (collectStatusFromFile e Open statusPath) as [sent err]. simpl in *.
  intros [Hin|[->|Hin]%elem_of_cons]%elem_of_app.
  - destruct (scanMetric_labels paths ignoreIndividuals statusPath m (Hsent m Hin))
      as (Hlen & Hfirst & _).
    split; [done|]. exists statusPath. split; [by left | done].
  - split; [done|]. exists statusPath. split; [by left | done].
  - destruct (IH Hin) as (Hlen & p & Hp & Hfirst).
    split; [done|]. exists p. split; [by right | done].
Qed.

End collect_facts.

(** X1. When none of its calls of [MustNewConstMetric] panics, [Collect]
    sends exactly one [openvpn_up] gauge for each configured status path,
    in the order of the paths, whatever else the scans send: its value is
    [float64(1)] when [collectStatusFromFile] returned no error for the
    path and [float64(0)] when it returned one (the file could not be
    opened, the format was not recognized, a line failed or the scanner
    failed).  The status paths are then valid UTF-8: the call for the
    gauge of a path that is not panics. *)
Theorem collect_up_gauges `{GoRuntime} (paths : list string) (ignoreIndividuals : bool)
    (Open : string → bufio.Reader + error) :
  let e := NewOpenVPNExporter paths ignoreIndividuals in
  Forall (λ m, prometheus.panics m = false) (Collect e Open) →
  filter (λ m, prometheus.desc m = openvpnUpDesc e) (Collect e Open) =
    map (λ statusPath,
           prometheus.MustNewConstMetric (openvpnUpDesc e) prometheus.GaugeValue
             (match (collectStatusFromFile e Open statusPath).2 with
              | None => float64_of_int 1
              | Some _ => float64_of_int 0
              end)
             [statusPath])
        paths
  ∧ Forall (λ statusPath, utf8.ValidString statusPath = true) paths.
Proof.
  intros e Hbuilt.
  assert (Hup : filter (λ m, prometheus.desc m = openvpnUpDesc e) (Collect e Open) =
    map (λ statusPath, upMetric e statusPath (collectStatusFromFile e Open statusPath).2)
      paths).
  { unfold Collect. apply Collect_range_up. }
  split; [exact Hup|].
  apply Forall_forall. intros statusPath Hin.
  assert (Hsent : upMetric e statusPath (collectStatusFromFile e Open statusPath).2
                    ∈ Collect e Open).
  { eapply (proj1 (list_elem_of_filter _ _ _)). rewrite Hup.
    apply list_elem_of_fmap. by exists statusPath. }
  rewrite Forall_forall in Hbuilt. specialize (Hbuilt _ Hsent).
  unfold prometheus.panics, prometheus.validateLabelValues in Hbuilt.
  apply negb_false_iff, andb_true_iff in Hbuilt as [_ Hvalid].
  simpl in Hvalid. by apply andb_true_iff in Hvalid as [Hvalid _].
Qed.

(** X2. Every metric [Collect] sends has as many label values as its
    descriptor has label names (the arity that [MustNewConstMetric]
    requires), and its first label value is one of the configured status
    paths. *)
Theorem collect_label_values `{GoRuntime} (paths : list string) (ignoreIndividuals : bool)
    (Open : string → bufio.Reader + error) (m : prometheus.Metric) :
  m ∈ Collect (NewOpenVPNExporter paths ignoreIndividuals) Open →
  length (prometheus.labelValues m) =
    length (prometheus.variableLabels (prometheus.desc m)) ∧
  ∃ statusPath, statusPath ∈ paths ∧
                prometheus.labelValues m !! 0%nat = Some statusPath.
Proof.
  unfold Collect. apply Collect_range_labels.
Qed.

(** ** The labels recorded by the metric loop *)

Lemma subslice_app_r (sub main more : list string) :
  subslice sub main = true → subslice sub (main ++ more) = true.
Proof.
  rewrite !subslice_spec. intros [Hlen Hall]. split.
  - rewrite length_app. lia.
  - intros x Hx. apply elem_of_app. left. by apply Hall.
Qed.

Lemma subslice_recorded (labels l : list string) :
  subslice labels (l ++ labels) = true.
Proof.
  apply subslice_spec. split.
  - rewrite length_app. lia.
  - intros x Hx. apply elem_of_app. by right.
Qed.

Lemma subslice_prefix (sub main main' : list string) :
  main `prefix_of` main' → subslice sub main = true → subslice sub main' = true.
Proof. intros [more ->]. apply subslice_app_r. Qed.

Section recorded.
Context `{GoRuntime}.
Variable columnValues : gmap string string.
Variable labels : list string.

(** The loop only appends to what is recorded. *)
Lemma exportMetrics_prefix (metrics : list OpenvpnServerHeaderField) :
  ∀ recorded recorded' sent,
    exportMetrics columnValues labels recorded metrics = (sent, inr recorded') →
    ∀ field, recordedFor recorded field `prefix_of` recordedFor recorded' field.
Proof.
  induction metrics as [|metric rest IH]; intros recorded recorded' sent Hexp field;
    simpl in Hexp.
  - by injection Hexp as _ <-.
  - destruct (columnValues !! Column metric) as [columnValue|]; [|by eapply IH].
    destruct (negb _); [|by eapply IH].
    destruct (ParseFloat columnValue) as [value|]; [|done].
    destruct (exportMetrics columnValues labels _ rest) as [sent' r] eqn:Hrest.
    injection Hexp as _ ->.
    etrans; [|by eapply IH]. unfold recordedFor.
    destruct (decide (metric = field)) as [->|Hne].
    + rewrite lookup_insert_eq. simpl. by apply prefix_app_r.
    + by rewrite lookup_insert_ne.
Qed.

(** After the loop, every field the row has a value for finds the labels
    of the row in what is recorded for it. *)
Lemma exportMetrics_covered (metrics : list OpenvpnServerHeaderField) :
  ∀ recorded recorded' sent,
    exportMetrics columnValues labels recorded metrics = (sent, inr recorded') →
    ∀ field, field ∈ metrics → is_Some (columnValues !! Column field) →
             subslice labels (recordedFor recorded' field) = true.
Proof.
  induction metrics as [|metric rest IH]; intros recorded recorded' sent Hexp field Hin Hcol;
    simpl in Hexp.
  { by apply elem_of_nil in Hin. }
  apply elem_of_cons in Hin as [->|Hin].
  - destruct Hcol as [columnValue Hcol]. rewrite Hcol in Hexp.
    destruct (subslice labels (default [] (recorded !! metric))) eqn:Hsub; simpl in Hexp.
    + eapply subslice_prefix; [by eapply exportMetrics_prefix | done].
    + destruct (ParseFloat columnValue) as [value|]; [|done].
      destruct (exportMetrics columnValues labels _ rest) as [sent' r] eqn:Hrest.
      injection Hexp as _ ->.
      eapply subslice_prefix; [by eapply exportMetrics_prefix|].
      unfold recordedFor. rewrite lookup_insert_eq. simpl. apply subslice_recorded.
  - destruct (columnValues !! Column metric) as [columnValue|]; [|by eapply IH].
    destruct (negb _); [|by eapply IH].
    destruct (ParseFloat columnValue) as [value|]; [|done].
    destruct (exportMetrics columnValues labels _ rest) as [sent' r] eqn:Hrest.
    injection Hexp as _ ->. by eapply IH.
Qed.

(** When that holds before the loop, the loop sends and records nothing. *)
Lemma exportMetrics_suppressed (metrics : list OpenvpnServerHeaderField) recorded :
  (∀ field, field ∈ metrics → is_Some (columnValues !! Column field) →
            subslice labels (recordedFor recorded field) = true) →
  exportMetrics columnValues labels recorded metrics = ([], inr recorded).
Proof.
  induction metrics as [|metric rest IH]; intros Hcov; simpl; [done|].
  assert (Hrest : exportMetrics columnValues labels recorded rest = ([], inr recorded)).
  { apply IH. intros field Hin. apply Hcov. by right. }
  destruct (columnValues !! Column metric) as [columnValue|] eqn:Hcol; [|done].
  unfold recordedFor in Hcov. rewrite (Hcov metric); [done | by left | by rewrite Hcol].
Qed.

(** What is recorded for a field after the loop is what was recorded before
    it, followed by the label values of the metrics the loop sent for the
    field. *)
Lemma exportMetrics_history (metrics : list OpenvpnServerHeaderField) :
  ∀ recorded recorded' sent,
    exportMetrics columnValues labels recorded metrics = (sent, inr recorded') →
    ∀ field, (∀ other, other ∈ metrics → Desc other = Desc field → other = field) →
             recordedFor recorded' field =
               recordedFor recorded field ++ labelsSentFor field sent.
Proof.
  unfold labelsSentFor.
  induction metrics as [|metric rest IH]; intros recorded recorded' sent Hexp field Hinj;
    simpl in Hexp.
  { injection Hexp as <- <-. simpl. by rewrite app_nil_r. }
  assert (Hrest : ∀ other, other ∈ rest → Desc other = Desc field → other = field).
  { intros other Hin. apply Hinj. by right. }
  destruct (columnValues !! Column metric) as [columnValue|]; [|by eapply IH].
  destruct (negb _); [|by eapply IH].
  destruct (ParseFloat columnValue) as [value|]; [|done].
  destruct (exportMetrics columnValues labels _ rest) as [sent' r] eqn:Hr.
  injection Hexp as <- ->.
  rewrite (IH _ _ _ Hr field Hrest). unfold recordedFor.
  destruct (decide (Desc metric = Desc field)) as [Heq|Hne].
  - assert (metric = field) as -> by (apply Hinj; [by left | done]).
    rewrite lookup_insert_eq, filter_cons_True by done. simpl.
    by rewrite <- !app_assoc.
  - rewrite lookup_insert_ne by congruence.
    by rewrite filter_cons_False by done.
Qed.

End recorded.

(** ** Rows read again *)

Section rows.
Context `{GoRuntime}.
Variable paths : list string.
Variable ignoreIndividuals : bool.
Variable statusPath : string.
Let e := NewOpenVPNExporter paths ignoreIndividuals.

(** A line of a registered section whose columns are known and whose
    number of fields fits them is a row for the metric loop. *)
Lemma serverLine_row (sep : ascii) (st : serverState) (text : string)
    (header : OpenvpnServerHeader) (columnNames : list string) :
  openvpnServerHeaders e !! firstField sep text = Some header →
  headersFound st !! firstField sep text = Some columnNames →
  length (strings.Split text sep) = S (length columnNames) →
  serverLine e statusPath sep st text =
    match exportMetrics (rowValues header columnNames (strings.Split text sep))
            (extractLabels statusPath
               (rowValues header columnNames (strings.Split text sep))
               (LabelColumns header))
            (recordedMetrics st) (Metrics header) with
    | (sent, inl err) => (sent, Return err)
    | (sent, inr recorded) =>
        (sent, Next {| headersFound := headersFound st;
                       numberConnectedClient :=
                         if firstField sep text =? "CLIENT_LIST"
                         then int_incr (numberConnectedClient st)
                         else numberConnectedClient st;
                       recordedMetrics := recorded |})
    end.
Proof.
  unfold firstField, rowValues. intros Hreg Hfound Hlen.
  unfold serverLine. cbv zeta. rewrite Hreg, Hfound, Hlen.
  replace (length columnNames + 1)%nat with (S (length columnNames)) by lia.
  rewrite Nat.eqb_refl.
  by destruct (registered_sections _ _ _ _ Hreg) as [-> | ->].
Qed.

(** A line of a registered section that the loop gets past was such a
    row. *)
Lemma serverLine_row_inv (sep : ascii) (st st' : serverState) (text : string)
    (header : OpenvpnServerHeader) (sent : list prometheus.Metric) :
  openvpnServerHeaders e !! firstField sep text = Some header →
  serverLine e statusPath sep st text = (sent, Next st') →
  ∃ columnNames,
    headersFound st !! firstField sep text = Some columnNames ∧
    length (strings.Split text sep) = S (length columnNames) ∧
    exportMetrics (rowValues header columnNames (strings.Split text sep))
      (extractLabels statusPath
         (rowValues header columnNames (strings.Split text sep))
         (LabelColumns header))
      (recordedMetrics st) (Metrics header) = (sent, inr (recordedMetrics st')) ∧
    headersFound st' = headersFound st.
Proof.
  intros Hreg Hline.
  destruct (headersFound st !! firstField sep text) as [columnNames|] eqn:Hfound.
  - destruct (decide (length (strings.Split text sep) = S (length columnNames)))
      as [Hlen|Hlen].
    + rewrite (serverLine_row _ _ _ _ _ Hreg Hfound Hlen) in Hline.
      exists columnNames.
      destruct (exportMetrics _ _ _ _) as [sent0 [err|recorded]]; simplify_eq. done.
    + exfalso. revert Hline. unfold serverLine, firstField in *. cbv zeta.
      rewrite Hreg, Hfound.
      replace (length (strings.Split text sep) =? length columnNames + 1)%nat
        with false by (symmetry; apply Nat.eqb_neq; lia).
      by destruct (registered_sections _ _ _ _ Hreg) as [-> | ->].
  - exfalso. revert Hline. unfold serverLine, firstField in *. cbv zeta.
    rewrite Hreg, Hfound.
    by destruct (registered_sections _ _ _ _ Hreg) as [-> | ->].
Qed.

(** The v2/v3 loop only appends to what is recorded for a field. *)
Lemma serverLine_prefix (sep : ascii) (st st' : serverState) (text : string)
    (sent : list prometheus.Metric) (field : OpenvpnServerHeaderField) :
  serverLine e statusPath sep st text = (sent, Next st') →
  recordedFor (recordedMetrics st) field `prefix_of`
    recordedFor (recordedMetrics st') field.
Proof.
  unfold serverLine. intros Hline.
  repeat case_match; simplify_eq; simpl;
    first [reflexivity | by eapply exportMetrics_prefix].
Qed.

Lemma runsTo_prefix (sep : ascii) (lines : list string) (field : OpenvpnServerHeaderField) :
  ∀ st st' sent,
    runsTo (serverLine e statusPath sep) st lines = Some (sent, st') →
    recordedFor (recordedMetrics st) field `prefix_of`
      recordedFor (recordedMetrics st') field.
Proof.
  induction lines as [|line rest IH]; intros st st' sent Hrun; simpl in Hrun.
  - by injection Hrun as _ <-.
  - destruct (serverLine e statusPath sep st line) as [sent0 [st0| |]] eqn:Hline;
      try done.
    destruct (runsTo _ st0 rest) as [[sent1 st1]|] eqn:Hrest; [|done].
    injection Hrun as _ <-.
    etrans; [by eapply serverLine_prefix | by eapply IH].
Qed.

(** A row that was read sends nothing when it is read again with the same
    columns for its section, whatever was recorded in between. *)
Lemma serverLine_again (sep : ascii) (st1 st1' st2 : serverState) (text : string)
    (sent : list prometheus.Metric) :
  is_Some (openvpnServerHeaders e !! firstField sep text) →
  serverLine e statusPath sep st1 text = (sent, Next st1') →
  headersFound st2 !! firstField sep text = headersFound st1 !! firstField sep text →
  (∀ field, recordedFor (recordedMetrics st1') field `prefix_of`
            recordedFor (recordedMetrics st2) field) →
  serverLine e statusPath sep st2 text =
    ([], Next {| headersFound := headersFound st2;
                 numberConnectedClient :=
                   if firstField sep text =? "CLIENT_LIST"
                   then int_incr (numberConnectedClient st2)
                   else numberConnectedClient st2;
                 recordedMetrics := recordedMetrics st2 |}).
Proof.
  intros [header Hreg] Hline Hsame Hext.
  destruct (serverLine_row_inv _ _ _ _ _ _ Hreg Hline)
    as (columnNames & Hfound & Hlen & Hexp & _).
  rewrite <- Hsame in Hfound.
  rewrite (serverLine_row _ _ _ _ _ Hreg Hfound Hlen).
  rewrite exportMetrics_suppressed; [done|].
  intros field Hin Hcol.
  eapply subslice_prefix; [apply Hext|].
  by eapply exportMetrics_covered.
Qed.

End rows.

Lemma runsTo_app `{GoRuntime} {St : Type}
    (body : St → string → list prometheus.Metric * ctl St) (pre post : list string) :
  ∀ st, runsTo body st (pre ++ post) =
        match runsTo body st pre with
        | Some (sent, st') =>
            match runsTo body st' post with
            | Some (sent', st'') => Some (sent ++ sent', st'')
            | None => None
            end
        | None => None
        end.
Proof.
  induction pre as [|line pre IH]; intros st; simpl.
  - by destruct (runsTo body st post) as [[sent' st'']|].
  - destruct (body st line) as [sent0 [st0| |]]; try done.
    rewrite IH. destruct (runsTo body st0 pre) as [[sent1 st1]|]; [|done].
    destruct (runsTo body st1 post) as [[sent2 st2]|]; [|done].
    by rewrite app_assoc.
Qed.

Lemma labelsSentFor_nil `{GoRuntime} (field : OpenvpnServerHeaderField) :
  labelsSentFor field [] = [].
Proof. reflexivity. Qed.

Lemma labelsSentFor_app `{GoRuntime} (field : OpenvpnServerHeaderField)
    (sent sent' : list prometheus.Metric) :
  labelsSentFor field (sent ++ sent') =
    labelsSentFor field sent ++ labelsSentFor field sent'.
Proof.
  unfold labelsSentFor. by rewrite filter_app, map_app, concat_app.
Qed.

Section rows_v4.
Context `{GoRuntime}.
Variable paths : list string.
Variable ignoreIndividuals : bool.
Variable statusPath : string.
Let e := NewOpenVPNExporter paths ignoreIndividuals.

(** A data row of a v4 section goes to the row code of the section. *)
Lemma serverLineV4_row (st : serverStateV4) (section line : string) :
  currentSection st = section →
  isDataRowV4 section line = true →
  ∃ header count,
    openvpnServerHeaders e !! section = Some header ∧
    serverLineV4 e statusPath st line =
      dataRowV4 statusPath section header count st (strings.Split line ",").
Proof.
  intros Hsec Hrow.
  assert (section = "CLIENT_LIST" ∨ section = "ROUTING_TABLE") as [-> | ->].
  { unfold isDataRowV4 in Hrow.
    destruct (String.eqb_spec section "CLIENT_LIST"); [by left|].
    destruct (String.eqb_spec section "ROUTING_TABLE"); [by right|].
    by rewrite andb_false_r in Hrow. }
  - destruct (client_list_registered paths ignoreIndividuals) as [header Hreg].
    exists header, (int_incr (numberConnectedClientV4 st)). split; [done|].
    by apply serverLineV4_client_row.
  - destruct (routing_table_registered paths ignoreIndividuals) as [header Hreg].
    exists header, (numberConnectedClientV4 st). split; [done|].
    by apply serverLineV4_routing_row.
Qed.

Lemma serverLineV4_prefix (st st' : serverStateV4) (line : string)
    (sent : list prometheus.Metric) (field : OpenvpnServerHeaderField) :
  serverLineV4 e statusPath st line = (sent, Next st') →
  recordedFor (recordedMetricsV4 st) field `prefix_of`
    recordedFor (recordedMetricsV4 st') field.
Proof.
  unfold serverLineV4, dataRowV4. intros Hline.
  repeat case_match; simplify_eq; simpl;
    first [reflexivity | by eapply exportMetrics_prefix].
Qed.

(** A v4 row that was read sends nothing when it is read again in the same
    section with the same header. *)
Lemma serverLineV4_again (st1 st1' st2 : serverStateV4) (section line : string)
    (sent : list prometheus.Metric) :
  currentSection st1 = section → currentSection st2 = section →
  isDataRowV4 section line = true →
  serverLineV4 e statusPath st1 line = (sent, Next st1') →
  headersFoundV4 st2 !! section = headersFoundV4 st1 !! section →
  (∀ field, recordedFor (recordedMetricsV4 st1') field `prefix_of`
            recordedFor (recordedMetricsV4 st2) field) →
  ∃ st2', serverLineV4 e statusPath st2 line = ([], Next st2') ∧
          recordedMetricsV4 st2' = recordedMetricsV4 st2 ∧
          headersFoundV4 st2' = headersFoundV4 st2 ∧
          currentSection st2' = section.
Proof.
  intros Hsec1 Hsec2 Hrow Hline Hsame Hext.
  destruct (serverLineV4_row st1 section line Hsec1 Hrow) as (header & count1 & Hreg & Hrow1).
  destruct (serverLineV4_row st2 section line Hsec2 Hrow) as (header' & count2 & Hreg' & Hrow2).
  assert (header' = header) as -> by congruence.
  rewrite Hrow1 in Hline. rewrite Hrow2. unfold dataRowV4 in *.
  rewrite Hsame.
  destruct (exportMetrics _ _ (recordedMetricsV4 st1) _) as [sent1 [err|recorded]] eqn:Hexp;
    simplify_eq.
  rewrite exportMetrics_suppressed.
  - eexists. split; [reflexivity|]. done.
  - intros field Hin Hcol.
    eapply subslice_prefix; [apply Hext|].
    by eapply exportMetrics_covered.
Qed.

End rows_v4.

(** X3. A row is exported once: in a v2/v3 document, a line of a registered
    section that was read sends nothing, and records nothing, when the
    same line is read again later in the scan, provided no [HEADER] line
    for its section stands between the two; in a v4 document, a data row
    that was read sends nothing when it is read again in the same section
    under the same header, whatever was recorded in between. *)
Theorem repeated_row_sends_nothing `{GoRuntime} (paths : list string)
    (ignoreIndividuals : bool) (statusPath : string) :
  let e := NewOpenVPNExporter paths ignoreIndividuals in
  (∀ sep pre text mid sent st,
     is_Some (openvpnServerHeaders e !! firstField sep text) →
     Forall (λ line, isHeaderFor sep (firstField sep text) line = false) mid →
     runsTo (serverLine e statusPath sep) serverState_init (pre ++ text :: mid) =
       Some (sent, st) →
     ∃ st', runsTo (serverLine e statusPath sep) serverState_init
              (pre ++ text :: mid ++ [text]) = Some (sent, st') ∧
            recordedMetrics st' = recordedMetrics st)
  ∧ (∀ st1 st1' st2 section line sent,
     currentSection st1 = section → currentSection st2 = section →
     isDataRowV4 section line = true →
     serverLineV4 e statusPath st1 line = (sent, Next st1') →
     headersFoundV4 st2 !! section = headersFoundV4 st1 !! section →
     (∀ field, recordedFor (recordedMetricsV4 st1') field `prefix_of`
               recordedFor (recordedMetricsV4 st2) field) →
     ∃ st2', serverLineV4 e statusPath st2 line = ([], Next st2') ∧
             recordedMetricsV4 st2' = recordedMetricsV4 st2).
Proof.
  intros e. subst e. split.
  - intros sep pre text mid sent st Hreg Hmid Hrun.
    assert (Hlast : pre ++ text :: mid ++ [text] = (pre ++ text :: mid) ++ [text])
      by (by rewrite <- app_assoc).
    assert (Hsplit : pre ++ text :: mid = (pre ++ [text]) ++ mid)
      by (by rewrite <- app_assoc).
    rewrite Hlast, runsTo_app, Hrun.
    rewrite Hsplit, runsTo_app in Hrun.
    destruct (runsTo _ serverState_init (pre ++ [text])) as [[sent1 st1']|] eqn:Hfirst;
      [|done].
    destruct (runsTo _ st1' mid) as [[sent2 st2]|] eqn:Hmidrun; [|done].
    injection Hrun as <- <-.
    rewrite runsTo_app in Hfirst.
    destruct (runsTo _ serverState_init pre) as [[sent0 st1]|] eqn:Hpre; [|done].
    simpl in Hfirst.
    destruct (serverLine _ statusPath sep st1 text) as [sentt [st1''| |]] eqn:Hline;
      try done.
    injection Hfirst as <- <-.
    destruct Hreg as [header Hreg].
    destruct (serverLine_row_inv _ _ _ _ _ _ _ _ _ Hreg Hline) as (cols & _ & _ & _ & Hh).
    simpl runsTo.
    rewrite (serverLine_again paths ignoreIndividuals statusPath sep st1 st1'' st2 text sentt);
      [ | by eexists | done | | ].
    + eexists. split; [by rewrite !app_nil_r | done].
    + rewrite (runsTo_headers _ _ _ _ _ _ _ _ Hmidrun Hmid). by rewrite Hh.
    + intros field. by eapply runsTo_prefix.
  - intros st1 st1' st2 section line sent Hsec1 Hsec2 Hrow Hline Hsame Hext.
    destruct (serverLineV4_again paths ignoreIndividuals statusPath st1 st1' st2 section
                line sent Hsec1 Hsec2 Hrow Hline Hsame Hext) as (st2' & Hl & Hr & _).
    by exists st2'.
Qed.

(** ** What is recorded and what was sent *)

Section history.
Context `{GoRuntime}.
Variable paths : list string.
Variable ignoreIndividuals : bool.
Variable statusPath : string.
Let e := NewOpenVPNExporter paths ignoreIndividuals.

(** No two registered fields share a descriptor. *)
Lemma registered_desc_inj (key key' : string) (header header' : OpenvpnServerHeader)
    (field field' : OpenvpnServerHeaderField) :
  openvpnServerHeaders e !! key = Some header → field ∈ Metrics header →
  openvpnServerHeaders e !! key' = Some header' → field' ∈ Metrics header' →
  Desc field = Desc field' → field = field'.
Proof.
  unfold e, NewOpenVPNExporter. simpl.
  rewrite !lookup_insert. intros Hreg Hin Hreg' Hin' Hdesc.
  repeat case_decide; simplify_eq; simpl in *;
    repeat (apply elem_of_cons in Hin as [->|Hin]);
    try (by apply elem_of_nil in Hin);
    repeat (apply elem_of_cons in Hin' as [->|Hin']);
    try (by apply elem_of_nil in Hin');
    first [reflexivity | discriminate Hdesc].
Qed.

Lemma no_labels_of_update_time (key : string) (header : OpenvpnServerHeader)
    (field : OpenvpnServerHeaderField) (v : float64) :
  openvpnServerHeaders e !! key = Some header → field ∈ Metrics header →
  labelsSentFor field
    [prometheus.MustNewConstMetric (openvpnStatusUpdateTimeDesc e)
       prometheus.GaugeValue v [statusPath]] = [].
Proof.
  intros Hreg Hin. unfold labelsSentFor.
  rewrite filter_cons_False; [done|]. simpl. intros Heq.
  by destruct (registered_desc_not_gauge _ _ _ _ _ Hreg Hin) as [_ []].
Qed.

Lemma row_history (key key' : string) (header header' : OpenvpnServerHeader)
    (field : OpenvpnServerHeaderField) (columnValues : gmap string string)
    (labels : list string) recorded recorded' (sent : list prometheus.Metric) :
  openvpnServerHeaders e !! key = Some header → field ∈ Metrics header →
  openvpnServerHeaders e !! key' = Some header' →
  exportMetrics columnValues labels recorded (Metrics header') = (sent, inr recorded') →
  recordedFor recorded' field = recordedFor recorded field ++ labelsSentFor field sent.
Proof.
  intros Hreg Hin Hreg' Hexp.
  eapply exportMetrics_history; [exact Hexp|].
  intros other Hother Hdesc.
  exact (registered_desc_inj _ _ _ _ _ _ Hreg' Hother Hreg Hin Hdesc).
Qed.

Lemma serverLine_history (sep : ascii) (st st' : serverState) (text key : string)
    (header : OpenvpnServerHeader) (field : OpenvpnServerHeaderField)
    (sent : list prometheus.Metric) :
  openvpnServerHeaders e !! key = Some header → field ∈ Metrics header →
  serverLine e statusPath sep st text = (sent, Next st') →
  recordedFor (recordedMetrics st') field =
    recordedFor (recordedMetrics st) field ++ labelsSentFor field sent.
Proof.
  intros Hreg Hin. unfold serverLine. intros Hline.
  repeat case_match; simplify_eq; simpl;
    first [ by rewrite labelsSentFor_nil, app_nil_r
          | by rewrite (no_labels_of_update_time _ _ _ _ Hreg Hin), app_nil_r
          | eapply (row_history _ _ _ _ _ _ _ _ _ _ Hreg Hin); eassumption ].
Qed.

Lemma serverLineV4_history (st st' : serverStateV4) (line key : string)
    (header : OpenvpnServerHeader) (field : OpenvpnServerHeaderField)
    (sent : list prometheus.Metric) :
  openvpnServerHeaders e !! key = Some header → field ∈ Metrics header →
  serverLineV4 e statusPath st line = (sent, Next st') →
  recordedFor (recordedMetricsV4 st') field =
    recordedFor (recordedMetricsV4 st) field ++ labelsSentFor field sent.
Proof.
  intros Hreg Hin. unfold serverLineV4, dataRowV4. intros Hline.
  repeat case_match; simplify_eq; simpl;
    first [ by rewrite labelsSentFor_nil, app_nil_r
          | by rewrite (no_labels_of_update_time _ _ _ _ Hreg Hin), app_nil_r
          | eapply (row_history _ _ _ _ _ _ _ _ _ _ Hreg Hin); eassumption ].
Qed.

Lemma runsTo_history (sep : ascii) (key : string)
    (header : OpenvpnServerHeader) (field : OpenvpnServerHeaderField)
    (lines : list string) :
  openvpnServerHeaders e !! key = Some header → field ∈ Metrics header →
  ∀ st st' sent,
    runsTo (serverLine e statusPath sep) st lines = Some (sent, st') →
    recordedFor (recordedMetrics st') field =
      recordedFor (recordedMetrics st) field ++ labelsSentFor field sent.
Proof.
  intros Hreg Hin.
  induction lines as [|line rest IH]; intros st st' sent Hrun; simpl in Hrun.
  - injection Hrun as <- <-. by rewrite app_nil_r.
  - destruct (serverLine e statusPath sep st line) as [sent0 [st0| |]] eqn:Hline;
      try done.
    destruct (runsTo _ st0 rest) as [[sent1 st1]|] eqn:Hrest; [|done].
    injection Hrun as <- <-.
    rewrite (IH _ _ _ Hrest), (serverLine_history _ _ _ _ _ _ _ _ Hreg Hin Hline).
    by rewrite labelsSentFor_app, app_assoc.
Qed.

Lemma runsToV4_history (key : string)
    (header : OpenvpnServerHeader) (field : OpenvpnServerHeaderField)
    (lines : list string) :
  openvpnServerHeaders e !! key = Some header → field ∈ Metrics header →
  ∀ st st' sent,
    runsTo (serverLineV4 e statusPath) st lines = Some (sent, st') →
    recordedFor (recordedMetricsV4 st') field =
      recordedFor (recordedMetricsV4 st) field ++ labelsSentFor field sent.
Proof.
  intros Hreg Hin.
  induction lines as [|line rest IH]; intros st st' sent Hrun; simpl in Hrun.
  - injection Hrun as <- <-. by rewrite app_nil_r.
  - destruct (serverLineV4 e statusPath st line) as [sent0 [st0| |]] eqn:Hline;
      try done.
    destruct (runsTo _ st0 rest) as [[sent1 st1]|] eqn:Hrest; [|done].
    injection Hrun as <- <-.
    rewrite (IH _ _ _ Hrest), (serverLineV4_history _ _ _ _ _ _ _ Hreg Hin Hline).
    by rewrite labelsSentFor_app, app_assoc.
Qed.

End history.

(** X4. In both server parsers, what is recorded for a registered field
    when the scan reaches a line is exactly the label values of the
    metrics sent so far for that field, tuple after tuple in the order
    they were sent: nothing is recorded that was not sent, and nothing
    recorded is dropped or reordered. *)
Theorem recorded_is_what_was_sent `{GoRuntime} (paths : list string)
    (ignoreIndividuals : bool) (statusPath : string) (key : string)
    (header : OpenvpnServerHeader) (field : OpenvpnServerHeaderField) :
  let e := NewOpenVPNExporter paths ignoreIndividuals in
  openvpnServerHeaders e !! key = Some header →
  field ∈ Metrics header →
  (∀ sep lines sent st,
     runsTo (serverLine e statusPath sep) serverState_init lines = Some (sent, st) →
     recordedFor (recordedMetrics st) field = labelsSentFor field sent)
  ∧ (∀ lines sent st,
     runsTo (serverLineV4 e statusPath) serverStateV4_init lines = Some (sent, st) →
     recordedFor (recordedMetricsV4 st) field = labelsSentFor field sent).
Proof.
  intros e Hreg Hin. split.
  - intros sep lines sent st Hrun.
    by rewrite (runsTo_history _ _ _ _ _ _ _ _ Hreg Hin _ _ _ Hrun).
  - intros lines sent st Hrun.
    by rewrite (runsToV4_history _ _ _ _ _ _ _ Hreg Hin _ _ _ Hrun).
Qed.

(** X5. [subslice(sub, main)] holds exactly when [main] is at least as long
    as [sub] and every element of [sub] occurs somewhere in [main]; so a
    label tuple is always found in a history that it was appended to, and
    it stays found when more is appended. *)
Theorem subslice_is_membership (sub main more : list string) :
  subslice sub main =
    bool_decide ((length sub ≤ length main)%nat ∧ Forall (λ x, x ∈ main) sub)
  ∧ subslice sub (main ++ sub) = true
  ∧ (if subslice sub main then subslice sub (main ++ more) else true) = true.
Proof.
  split_and!.
  - destruct (subslice sub main) eqn:Hsub; symmetry.
    + apply bool_decide_eq_true. apply subslice_spec in Hsub as [Hlen Hall].
      split; [done|]. by apply Forall_forall.
    + apply bool_decide_eq_false. intros [Hlen Hall].
      assert (subslice sub main = true) as Htrue; [|congruence].
      apply subslice_spec. split; [done|]. by apply Forall_forall.
  - apply subslice_recorded.
  - destruct (subslice sub main) eqn:Hsub; [|done]. by apply subslice_app_r.
Qed.

(** ** Rows with a label value that was not recorded *)

Section fresh.
Context `{GoRuntime}.
Variable columnValues : gmap string string.
Variable labels : list string.

Lemma subslice_missing (x : string) (main : list string) :
  x ∈ labels → x ∉ main → subslice labels main = false.
Proof.
  intros Hx Hnot. destruct (subslice labels main) eqn:Hsub; [|done].
  apply subslice_spec in Hsub as [_ Hall]. by destruct Hnot; apply Hall.
Qed.

(** The loop leaves alone what is recorded for the fields it does not
    range over. *)
Lemma exportMetrics_other (metrics : list OpenvpnServerHeaderField) :
  ∀ recorded recorded' sent field,
    exportMetrics columnValues labels recorded metrics = (sent, inr recorded') →
    field ∉ metrics → recorded' !! field = recorded !! field.
Proof.
  induction metrics as [|metric rest IH]; intros recorded recorded' sent field Hexp Hnot;
    simpl in Hexp.
  { by injection Hexp as _ <-. }
  apply not_elem_of_cons in Hnot as [Hne Hnot].
  destruct (columnValues !! Column metric) as [columnValue|]; [|by eapply IH].
  destruct (negb _); [|by eapply IH].
  destruct (ParseFloat columnValue) as [value|]; [|done].
  destruct (exportMetrics columnValues labels _ rest) as [sent' r] eqn:Hrest.
  injection Hexp as _ ->.
  rewrite (IH _ _ _ _ Hrest Hnot). by rewrite lookup_insert_ne.
Qed.

Lemma exportMetrics_fresh (x : string) (metrics : list OpenvpnServerHeaderField) :
  NoDup metrics → x ∈ labels →
  ∀ recorded,
    (∀ field, field ∈ metrics → x ∉ recordedFor recorded field) →
    (∀ field value, field ∈ metrics → columnValues !! Column field = Some value →
                    is_Some (ParseFloat value)) →
    ∃ recorded',
      exportMetrics columnValues labels recorded metrics =
        (omap (metricOf columnValues labels) metrics, inr recorded') ∧
      ∀ field, field ∈ metrics → is_Some (columnValues !! Column field) →
               recordedFor recorded' field = recordedFor recorded field ++ labels.
Proof.
  intros Hnodup Hx. induction Hnodup as [|metric rest Hnotin Hnodup IH];
    intros recorded Hfresh Hparse; simpl.
  { exists recorded. split; [done|]. by intros field ?%elem_of_nil. }
  unfold metricOf at 1.
  destruct (columnValues !! Column metric) as [columnValue|] eqn:Hcol.
  - rewrite (subslice_missing x) by
      (first [done | apply (Hfresh metric); by left]). simpl.
    destruct (Hparse metric columnValue) as [value Hvalue]; [by left | done |].
    rewrite Hvalue.
    destruct (IH (<[metric := default [] (recorded !! metric) ++ labels]> recorded))
      as (recorded' & Hexp & Hrec).
    { intros field Hin. unfold recordedFor.
      rewrite lookup_insert_ne by (intros ->; done).
      apply Hfresh. by right. }
    { intros field v Hin. apply Hparse. by right. }
    exists recorded'. rewrite Hexp. split; [done|].
    intros field [->|Hin]%elem_of_cons Hsome.
    + unfold recordedFor.
      rewrite (exportMetrics_other _ _ _ _ _ Hexp Hnotin).
      by rewrite lookup_insert_eq.
    + rewrite (Hrec field Hin Hsome). unfold recordedFor.
      by rewrite lookup_insert_ne by (intros ->; done).
  - destruct (IH recorded) as (recorded' & Hexp & Hrec).
    { intros field Hin. apply Hfresh. by right. }
    { intros field v Hin. apply Hparse. by right. }
    exists recorded'. split; [done|].
    intros field [->|Hin]%elem_of_cons Hsome.
    + rewrite Hcol in Hsome. by destruct Hsome.
    + by apply Hrec.
Qed.

End fresh.

(** X6. A row with a label value that is not among the labels recorded for
    the fields of its section is exported in full: the metric loop sends,
    in the order of the fields, one metric for each field the row has a
    value for, with that value parsed and the labels of the row, and
    appends the labels of the row to what is recorded for each of these
    fields.  (The values are taken to parse, the fields of a section to be
    distinct, as they are in the registry, and [MustNewConstMetric] to
    accept the labels of the row for these fields: as many values as the
    descriptor has label names, each of them valid UTF-8.  With labels it
    does not accept, the first of the calls panics.) *)
Theorem new_label_value_is_exported `{GoRuntime} (columnValues : gmap string string)
    (labels : list string) (recorded : gmap OpenvpnServerHeaderField (list string))
    (metrics : list OpenvpnServerHeaderField) (x : string) :
  NoDup metrics →
  x ∈ labels →
  (∀ field, field ∈ metrics → x ∉ recordedFor recorded field) →
  (∀ field value, field ∈ metrics → columnValues !! Column field = Some value →
                  is_Some (ParseFloat value)) →
  (∀ field, field ∈ metrics → is_Some (columnValues !! Column field) →
            prometheus.validateLabelValues labels
              (length (prometheus.variableLabels (Desc field))) = true) →
  ∃ recorded',
    exportMetrics columnValues labels recorded metrics =
      (omap (metricOf columnValues labels) metrics, inr recorded') ∧
    Forall (λ m, prometheus.panics m = false)
      (omap (metricOf columnValues labels) metrics) ∧
    ∀ field, field ∈ metrics → is_Some (columnValues !! Column field) →
             recordedFor recorded' field = recordedFor recorded field ++ labels.
Proof.
  intros Hnodup Hx Hfresh Hparse Hvalid.
  destruct (exportMetrics_fresh columnValues labels x metrics Hnodup Hx recorded
              Hfresh Hparse) as (recorded' & Hexp & Hrec).
  exists recorded'. split_and!; [done| |done].
  apply Forall_forall. intros m Hm.
  apply list_elem_of_omap in Hm as (field & Hin & Hm).
  unfold metricOf in Hm.
  destruct (columnValues !! Column field) as [columnValue|] eqn:Hcol; [|done].
  destruct (ParseFloat columnValue) as [value|]; [|done].
  injection Hm as <-. unfold prometheus.panics. cbn [prometheus.labelValues
    prometheus.desc prometheus.MustNewConstMetric].
  rewrite Hvalid; [done | done | by rewrite Hcol].
Qed.

(** ** The column values of a row *)

Lemma index_lookup (l : list string) (i : nat) (x : string) :
  l !! i = Some x → index l i = x.
Proof. intros Hl. unfold index. by rewrite nth_lookup, Hl. Qed.

Lemma mapColumnValues_skip (headers fields : list string) (name : string) :
  ∀ i columnValues,
    (∀ k, (k < length fields)%nat → headers !! (i + k)%nat ≠ Some name) →
    mapColumnValues i headers fields columnValues !! name = columnValues !! name.
Proof.
  induction fields as [|value fields IH]; intros i columnValues Hskip; simpl; [done|].
  rewrite IH.
  - destruct (Nat.ltb_spec i (length headers)) as [Hlt|Hge]; [|done].
    apply lookup_insert_ne. intros Heq.
    apply (Hskip 0%nat); [simpl; lia|].
    rewrite Nat.add_0_r. destruct (lookup_lt_is_Some_2 headers i Hlt) as [h Hh].
    by rewrite Hh, <- Heq, (index_lookup _ _ _ Hh).
  - intros k Hk. replace (S i + k)%nat with (i + S k)%nat by lia.
    apply Hskip. simpl. lia.
Qed.

Lemma mapColumnValues_lookup (headers : list string) (name value : string) :
  NoDup headers →
  ∀ fields i j columnValues,
    headers !! (i + j)%nat = Some name → fields !! j = Some value →
    mapColumnValues i headers fields columnValues !! name = Some value.
Proof.
  intros Hnodup. induction fields as [|v fields IH]; intros i j columnValues Hh Hf.
  { by rewrite lookup_nil in Hf. }
  simpl. destruct j as [|j].
  - rewrite Nat.add_0_r in Hh. simpl in Hf. injection Hf as ->.
    rewrite mapColumnValues_skip.
    + rewrite (proj2 (Nat.ltb_lt _ _) (lookup_lt_Some _ _ _ Hh)).
      rewrite (index_lookup _ _ _ Hh). apply lookup_insert_eq.
    + intros k Hk Hother.
      assert (S i + k = i)%nat; [|lia].
      by eapply NoDup_lookup.
  - apply (IH (S i) j); [|done].
    by replace (S i + j)%nat with (i + S j)%nat by lia.
Qed.

(** X7. The column values of a v4 row map positionally: when the stored
    header has no repeated name, the name at a position maps to the value
    of the row at that position, and a name of the header beyond the end
    of the row, or any other name, maps to nothing; values beyond the end
    of the header are dropped. *)
Theorem v4_column_values (headers fields : list string) :
  NoDup headers →
  (∀ j name value,
     headers !! j = Some name → fields !! j = Some value →
     rowValuesV4 headers fields !! name = Some value)
  ∧ (∀ name, name ∉ take (length fields) headers →
             rowValuesV4 headers fields !! name = None)
  ∧ (∀ name value, rowValuesV4 headers fields !! name = Some value →
                   ∃ j, headers !! j = Some name ∧ fields !! j = Some value).
Proof.
  intros Hnodup.
  assert (Hnone : ∀ name, name ∉ take (length fields) headers →
                          rowValuesV4 headers fields !! name = None).
  { intros name Hnot. unfold rowValuesV4.
    rewrite mapColumnValues_skip; [apply lookup_empty|].
    intros k Hk Hh. apply Hnot. apply list_elem_of_lookup. exists k.
    by rewrite lookup_take_lt. }
  split_and!.
  - intros j name value Hh Hf. unfold rowValuesV4.
    by apply (mapColumnValues_lookup headers name value Hnodup fields 0 j).
  - exact Hnone.
  - intros name value Hlook.
    destruct (decide (name ∈ take (length fields) headers)) as [Hin|Hnot].
    + apply list_elem_of_lookup in Hin as [j Hj].
      apply lookup_take_Some in Hj as [Hh Hlt].
      destruct (lookup_lt_is_Some_2 fields j Hlt) as [v Hv].
      exists j. split; [done|].
      unfold rowValuesV4 in Hlook.
      rewrite (mapColumnValues_lookup headers name v Hnodup fields 0 j) in Hlook by done.
      congruence.
    + by rewrite Hnone in Hlook.
Qed.

Lemma presetLabelColumns_lookup (labelColumns : list string) (name : string) :
  ∀ columnValues,
    presetLabelColumns labelColumns columnValues !! name =
      if decide (name ∈ labelColumns) then Some "" else columnValues !! name.
Proof.
  unfold presetLabelColumns.
  induction labelColumns as [|column rest IH]; intros columnValues; simpl; [done|].
  rewrite IH. destruct (decide (name ∈ rest)) as [Hin|Hnot].
  - rewrite decide_True; [done | by right].
  - destruct (decide (column = name)) as [->|Hne].
    + rewrite lookup_insert_eq. rewrite decide_True; [done | by left].
    + rewrite lookup_insert_ne by done.
      rewrite decide_False; [done|].
      intros [?|?]%elem_of_cons; congruence.
Qed.

Lemma storeEntryValues_skip (columnNames fields : list string) (name : string) :
  name ∉ columnNames →
  ∀ i columnValues,
    storeEntryValues i columnNames fields columnValues !! name = columnValues !! name.
Proof.
  induction columnNames as [|column rest IH]; intros Hnot i columnValues; simpl; [done|].
  apply not_elem_of_cons in Hnot as [Hne Hnot].
  rewrite IH by done. by rewrite lookup_insert_ne.
Qed.

Lemma storeEntryValues_lookup (fields : list string) (name : string) :
  ∀ columnNames, NoDup columnNames →
  ∀ i j columnValues,
    columnNames !! j = Some name →
    storeEntryValues i columnNames fields columnValues !! name =
      Some (index fields (i + j + 1)).
Proof.
  intros columnNames Hnodup.
  induction Hnodup as [|column rest Hnotin Hnodup IH]; intros i j columnValues Hj.
  { by rewrite lookup_nil in Hj. }
  simpl. destruct j as [|j].
  - simpl in Hj. injection Hj as ->.
    rewrite storeEntryValues_skip by done.
    rewrite lookup_insert_eq. by rewrite Nat.add_0_r.
  - simpl in Hj. rewrite (IH (S i) j) by done.
    do 2 f_equal. lia.
Qed.

(** X8. The column values of a v2/v3 row: when the [HEADER] line has no
    repeated column, the column at a position maps to the field of the
    row that follows the tag at that position; a label column of the
    section that the header does not have maps to the empty string, and
    any other name maps to nothing. *)
Theorem v2_column_values (header : OpenvpnServerHeader)
    (columnNames fields : list string) :
  NoDup columnNames →
  (∀ j name, columnNames !! j = Some name →
             rowValues header columnNames fields !! name = Some (index fields (S j)))
  ∧ (∀ name, name ∉ columnNames → name ∈ LabelColumns header →
             rowValues header columnNames fields !! name = Some "")
  ∧ (∀ name, name ∉ columnNames → name ∉ LabelColumns header →
             rowValues header columnNames fields !! name = None).
Proof.
  intros Hnodup. unfold rowValues. split_and!.
  - intros j name Hj.
    rewrite (storeEntryValues_lookup fields name columnNames Hnodup 0 j) by done.
    do 2 f_equal. lia.
  - intros name Hnot Hin.
    rewrite storeEntryValues_skip, presetLabelColumns_lookup by done.
    by rewrite decide_True.
  - intros name Hnot Hnotl.
    rewrite storeEntryValues_skip, presetLabelColumns_lookup by done.
    by rewrite decide_False.
Qed.

(** ** The [END] line *)

Section end_line.
Context `{GoRuntime}.
Variable e : OpenVPNExporter.
Variable statusPath : string.

Lemma forScanV4_end (pre post post' : list string) :
  ∀ st, forScan (serverLineV4 e statusPath) st (pre ++ "END" :: post) =
        forScan (serverLineV4 e statusPath) st (pre ++ "END" :: post').
Proof.
  induction pre as [|line pre IH]; intros st; simpl.
  - done.
  - destruct (serverLineV4 e statusPath st line) as [sent [st'| |]]; try done.
    by rewrite IH.
Qed.

Lemma serverLineV4_end (st : serverStateV4) :
  serverLineV4 e statusPath st "END" = ([], Break st).
Proof. done. Qed.

(** The v4 loop is left by [break] at an [END] line only. *)
Lemma serverLineV4_break (st st' : serverStateV4) (line : string)
    (sent : list prometheus.Metric) :
  serverLineV4 e statusPath st line = (sent, Break st') → line = "END".
Proof.
  unfold serverLineV4, dataRowV4. intros Hline.
  repeat case_match; simplify_eq.
  match goal with
  | Hend : _ && (line =? "END") = true |- _ =>
      apply andb_true_iff in Hend as [_ Hend]; by apply String.eqb_eq in Hend
  end.
Qed.

(** The v4 scan of a document whose [END] line is reached. *)
Lemma collectServerStatusFromReaderV4_end (file : bufio.Reader)
    (pre post : list string) (sent : list prometheus.Metric) (st : serverStateV4) :
  bufio.tokens (bufio.NewScanner file) = pre ++ "END" :: post →
  runsTo (serverLineV4 e statusPath) serverStateV4_init pre = Some (sent, st) →
  collectServerStatusFromReaderV4 e statusPath file =
    (sent ++ [connectedClients e statusPath (numberConnectedClientV4 st)],
     bufio.ErrAfter (bufio.NewScanner file) (S (length pre))).
Proof.
  intros Htok Hrun. unfold collectServerStatusFromReaderV4. rewrite Htok.
  rewrite (forScan_runsTo _ _ _ _ _ _ Hrun), (brokeAfter_runsTo _ _ _ _ _ _ Hrun).
  cbn [forScan brokeAfter]. rewrite serverLineV4_end. cbv beta iota zeta.
  cbn [fst snd fmap option_fmap option_map]. rewrite app_nil_r.
  by replace (length pre + 1)%nat with (S (length pre)) by lia.
Qed.

Lemma serverLine_end (sep : ascii) (st : serverState) :
  sep = ","%char ∨ sep = tab →
  serverLine e statusPath sep st "END" = ([], Next st).
Proof. by intros [-> | ->]. Qed.

Lemma forScan_skip (St : Type) (body : St → string → list prometheus.Metric * ctl St)
    (skipped : string) (pre post : list string) :
  (∀ st, body st skipped = ([], Next st)) →
  ∀ st, forScan body st (pre ++ skipped :: post) = forScan body st (pre ++ post).
Proof.
  intros Hskip. induction pre as [|line pre IH]; intros st; simpl.
  - rewrite Hskip. by destruct (forScan body st post).
  - destruct (body st line) as [sent [st'| |]]; try done.
    by rewrite IH.
Qed.

End end_line.

(** X9. In a v4 document the [END] line ends the scan: the lines after it
    are not read, whatever they are, and the scanner is asked for its
    error where it stands.  When the [END] line ends in a newline the scan
    returns no error, even if the reader fails after it; when it is the
    last line of the stream, without a newline, the scan returns the error
    the reader ended with.  In a v2/v3 document and in a client document
    the [END] line does nothing: the scan reads on, and the result is that
    of the document without the line. *)
Theorem end_line_v4_and_others `{GoRuntime} (e : OpenVPNExporter) (statusPath : string)
    (file file' : bufio.Reader) (pre post post' : list string) :
  bufio.tokens (bufio.NewScanner file) = pre ++ "END" :: post →
  (∀ sent st,
     runsTo (serverLineV4 e statusPath) serverStateV4_init pre = Some (sent, st) →
     (collectServerStatusFromReaderV4 e statusPath file).1 =
       sent ++ [prometheus.MustNewConstMetric (openvpnConnectedClientsDesc e)
                  prometheus.GaugeValue (float64_of_int (numberConnectedClientV4 st))
                  [statusPath]]
     ∧ (post ≠ [] ∨ bufio.lastAtEOF (bufio.NewScanner file) = false →
        (collectServerStatusFromReaderV4 e statusPath file).2 = None)
     ∧ (post = [] → bufio.lastAtEOF (bufio.NewScanner file) = true →
        (collectServerStatusFromReaderV4 e statusPath file).2 = bufio.readErr file))
  ∧ (bufio.tokens (bufio.NewScanner file') = pre ++ "END" :: post' →
     (collectServerStatusFromReaderV4 e statusPath file).1 =
     (collectServerStatusFromReaderV4 e statusPath file').1)
  ∧ (bufio.tokens (bufio.NewScanner file') = pre ++ post →
     bufio.Err (bufio.NewScanner file) = bufio.Err (bufio.NewScanner file') →
     (∀ sep, sep = ","%char ∨ sep = tab →
             collectServerStatusFromReader e statusPath file sep =
             collectServerStatusFromReader e statusPath file' sep) ∧
     collectClientStatusFromReader e statusPath file =
     collectClientStatusFromReader e statusPath file').
Proof.
  intros Htok. split_and!.
  - intros sent st Hrun.
    rewrite (collectServerStatusFromReaderV4_end e statusPath file pre post sent st Htok Hrun).
    cbn [fst snd]. split_and!; [done| |].
    + intros Hterminated. unfold bufio.ErrAfter. rewrite Htok, length_app.
      destruct Hterminated as [Hpost | ->]; [|by rewrite andb_false_r].
      replace (S (length pre) =? length pre + length ("END" :: post))%nat with false;
        [done|].
      symmetry. apply Nat.eqb_neq. destruct post; [done|]. simpl. lia.
    + intros -> Hlast. unfold bufio.ErrAfter. rewrite Htok, length_app, Hlast.
      cbn [length]. replace (length pre + 1)%nat with (S (length pre)) by lia.
      rewrite Nat.eqb_refl. by apply NewScanner_lastAtEOF.
  - intros Htok'. unfold collectServerStatusFromReaderV4.
    rewrite Htok, Htok', (forScanV4_end e statusPath pre post post').
    by destruct (forScan _ _ _) as [sent [err|st]].
  - intros Htok' Herr. split.
    + intros sep Hsep. unfold collectServerStatusFromReader.
      rewrite Htok, Htok'.
      rewrite (forScan_skip _ (serverLine e statusPath sep) "END" pre post)
        by (intros st; by apply serverLine_end).
      by rewrite Herr.
    + unfold collectClientStatusFromReader. rewrite Htok, Htok'.
      rewrite (forScan_skip _ (clientLine e statusPath) "END" pre post) by done.
      by rewrite Herr.
Qed.

(** ** The error of the reader *)

Section reader_error.
Context `{GoRuntime}.
Variable e : OpenVPNExporter.
Variable statusPath : string.
Variable stream : string.

Let file (err : option error) : bufio.Reader :=
  {| bufio.data := stream; bufio.readErr := err |}.

(** The error of a scanner for the stream: it is the error of the reader,
    or it does not depend on it. *)
Lemma NewScanner_Err_readErr :
  (∀ err, bufio.Err (bufio.NewScanner (file err)) = err) ∨
  (∀ err, bufio.Err (bufio.NewScanner (file err)) = Some ErrTooLong).
Proof.
  unfold bufio.NewScanner, file. cbn [bufio.Err bufio.data bufio.readErr].
  destruct (forallb bufio.fits _); [by left | by right].
Qed.

Lemma no_break_reader_error {St : Type}
    (body : St → string → list prometheus.Metric * ctl St) (st : St)
    (done : list prometheus.Metric → St → list prometheus.Metric) :
  let scan err :=
    match forScan body st (bufio.tokens (bufio.NewScanner (file err))) with
    | (sent, inl lineErr) => (sent, Some lineErr)
    | (sent, inr st') => (done sent st', bufio.Err (bufio.NewScanner (file err)))
    end in
  (∀ err, (scan err).1 = (scan None).1) ∧
  ((∃ fixed, ∀ err, (scan err).2 = Some fixed) ∨ (∀ err, (scan err).2 = err)).
Proof.
  intros scan.
  set (lines := bufio.tokens (bufio.NewScanner (file None))).
  assert (Hscan : ∀ err, scan err =
    match forScan body st lines with
    | (sent, inl lineErr) => (sent, Some lineErr)
    | (sent, inr st') => (done sent st', bufio.Err (bufio.NewScanner (file err)))
    end) by reflexivity.
  destruct (forScan body st lines) as [sent [lineErr|st']].
  - split; [intros err; by rewrite !Hscan|].
    left. exists lineErr. intros err. by rewrite Hscan.
  - split; [intros err; by rewrite !Hscan|].
    destruct NewScanner_Err_readErr as [Hread|Hlong].
    + right. intros err. rewrite Hscan. apply Hread.
    + left. exists ErrTooLong. intros err. rewrite Hscan. apply Hlong.
Qed.

End reader_error.

(** X10. The metrics a scan sends do not depend on the error the reader
    ends with.  The error the scan returns is one that does not depend on
    it either (the error of the format detector or of a line, or
    [ErrTooLong] for a line that does not fit the buffer of the scanner),
    or it is the error of the reader, returned after all the metrics of
    the document are sent, the connected-clients gauge included.  In one
    case the error of the reader is dropped: a v4 document whose scan left
    the loop at the [END] line returns no error when that line ends in a
    newline. *)
Theorem reader_error_is_returned_last `{GoRuntime} (e : OpenVPNExporter)
    (statusPath : string) (stream : string) :
  let scan err :=
    collectStatusFromReader e statusPath
      {| bufio.data := stream; bufio.readErr := err |} in
  (∀ err, (scan err).1 = (scan None).1)
  ∧ ((∃ fixed, ∀ err, (scan err).2 = Some fixed)
     ∨ (∀ err, (scan err).2 = err)
     ∨ ((∀ err, (scan err).2 = None) ∧
        strings.HasPrefix stream "OpenVPN CLIENT LIS" = true ∧
        "END" ∈ bufio.tokens
                  (bufio.NewScanner {| bufio.data := stream; bufio.readErr := None |}))).
Proof.
  intros scan. unfold scan, collectStatusFromReader, bufio.Peek. cbn [bufio.data].
  assert (Hweaken : ∀ (r : option error → list prometheus.Metric * option error),
    (∀ err, (r err).1 = (r None).1) ∧
    ((∃ fixed, ∀ err, (r err).2 = Some fixed) ∨ (∀ err, (r err).2 = err)) →
    (∀ err, (r err).1 = (r None).1)
    ∧ ((∃ fixed, ∀ err, (r err).2 = Some fixed)
       ∨ (∀ err, (r err).2 = err)
       ∨ ((∀ err, (r err).2 = None) ∧
          strings.HasPrefix stream "OpenVPN CLIENT LIS" = true ∧
          "END" ∈ bufio.tokens
                    (bufio.NewScanner {| bufio.data := stream; bufio.readErr := None |})))).
  { intros r [Hsent [Hfixed|Hread]]; (split; [done|]); [by left | by right; left]. }
  destruct (strings.HasPrefix (strings.first_bytes 18 stream) "TITLE,").
  { apply (Hweaken (λ err, collectServerStatusFromReader e statusPath _ ","%char)).
    apply (no_break_reader_error stream (serverLine e statusPath ",") serverState_init
             (λ sent st, sent ++ [connectedClients e statusPath (numberConnectedClient st)])). }
  destruct (strings.HasPrefix (strings.first_bytes 18 stream) tabTitle).
  { apply (Hweaken (λ err, collectServerStatusFromReader e statusPath _ tab)).
    apply (no_break_reader_error stream (serverLine e statusPath tab) serverState_init
             (λ sent st, sent ++ [connectedClients e statusPath (numberConnectedClient st)])). }
  destruct (strings.HasPrefix (strings.first_bytes 18 stream) "OpenVPN STATISTICS").
  { apply (Hweaken (λ err, collectClientStatusFromReader e statusPath _)).
    unfold collectClientStatusFromReader.
    apply (no_break_reader_error stream (clientLine e statusPath) tt (λ sent _, sent)). }
  destruct (strings.HasPrefix (strings.first_bytes 18 stream) "OpenVPN CLIENT LIS")
    eqn:Hv4.
  2: { split; [done|]. left. by eexists. }
  rewrite HasPrefix_first_bytes in Hv4 by (simpl; lia).
  set (lines := bufio.tokens
                  (bufio.NewScanner {| bufio.data := stream; bufio.readErr := None |})).
  set (last := bufio.lastAtEOF
                 (bufio.NewScanner {| bufio.data := stream; bufio.readErr := None |})).
  assert (Hscan : ∀ err,
    collectServerStatusFromReaderV4 e statusPath
      {| bufio.data := stream; bufio.readErr := err |} =
    match forScan (serverLineV4 e statusPath) serverStateV4_init lines with
    | (sent, inl lineErr) => (sent, Some lineErr)
    | (sent, inr st) =>
        (sent ++ [connectedClients e statusPath (numberConnectedClientV4 st)],
         match brokeAfter (serverLineV4 e statusPath) serverStateV4_init lines with
         | Some n =>
             if (n =? length lines)%nat && last
             then bufio.Err (bufio.NewScanner
                               {| bufio.data := stream; bufio.readErr := err |})
             else None
         | None => bufio.Err (bufio.NewScanner
                                {| bufio.data := stream; bufio.readErr := err |})
         end)
    end) by reflexivity.
  destruct (forScan (serverLineV4 e statusPath) serverStateV4_init lines)
    as [sent [lineErr|st]].
  { split; [intros err; by rewrite !Hscan|].
    left. exists lineErr. intros err. by rewrite Hscan. }
  split; [intros err; by rewrite !Hscan|].
  destruct (brokeAfter (serverLineV4 e statusPath) serverStateV4_init lines)
    as [n|] eqn:Hn.
  - destruct ((n =? length lines)%nat && last) eqn:Hcond.
    + destruct (NewScanner_Err_readErr stream) as [Hread|Hlong].
      * right. left. intros err. rewrite Hscan. apply Hread.
      * left. exists ErrTooLong. intros err. rewrite Hscan. apply Hlong.
    + right. right. split_and!; [|done|].
      * intros err. by rewrite Hscan.
      * destruct (brokeAfter_line _ _ _ _ Hn) as (l & st' & s' & st'' & Hin & Hl).
        by apply serverLineV4_break in Hl as ->.
  - destruct (NewScanner_Err_readErr stream) as [Hread|Hlong].
    + right. left. intros err. rewrite Hscan. apply Hread.
    + left. exists ErrTooLong. intros err. rewrite Hscan. apply Hlong.
Qed.

(** ** The columns in force *)

Section header_in_force.
Context `{GoRuntime}.
Variable e : OpenVPNExporter.
Variable statusPath : string.

Lemma serverLine_header (sep : ascii) (st : serverState) (text section : string)
    (columnNames : list string) :
  strings.Split text sep = "HEADER" :: section :: columnNames →
  columnNames ≠ [] →
  ∃ st', serverLine e statusPath sep st text = ([], Next st') ∧
         headersFound st' !! section = Some columnNames.
Proof.
  intros Hsplit Hcols. unfold serverLine, index. rewrite Hsplit.
  destruct columnNames as [|column columnNames]; [done|]. simpl.
  eexists. split; [reflexivity|]. simpl. apply lookup_insert_eq.
Qed.

Lemma serverLine_arity (sep : ascii) (st : serverState) (text : string)
    (header : OpenvpnServerHeader) (columnNames : list string) :
  firstField sep text = "CLIENT_LIST" ∨ firstField sep text = "ROUTING_TABLE" →
  openvpnServerHeaders e !! firstField sep text = Some header →
  headersFound st !! firstField sep text = Some columnNames →
  length (strings.Split text sep) ≠ S (length columnNames) →
  serverLine e statusPath sep st text =
    ([], Return (DifferentNumberOfColumns (firstField sep text))).
Proof.
  unfold serverLine, firstField. intros Hkey Hreg Hfound Hlen. cbv zeta.
  rewrite Hreg, Hfound.
  replace (length (strings.Split text sep) =? length columnNames + 1)%nat
    with false by (symmetry; apply Nat.eqb_neq; lia).
  by destruct Hkey as [-> | ->].
Qed.

End header_in_force.

(** X11. In a v2/v3 document the columns of a section are those of the last
    [HEADER] line read for it: after such a line, and lines that are no
    [HEADER] line for the section, they are the fields that follow the
    section name; a row of the section with another number of fields than
    one more than these columns makes the scan fail with the error that
    the header describes a different number of columns, naming the
    section, and sends nothing. *)
Theorem header_in_force_and_arity `{GoRuntime} (paths : list string)
    (ignoreIndividuals : bool) (statusPath : string) (sep : ascii)
    (pre mid : list string) (hdr text section : string) (columnNames : list string)
    (sent : list prometheus.Metric) (st : serverState) :
  let e := NewOpenVPNExporter paths ignoreIndividuals in
  is_Some (openvpnServerHeaders e !! section) →
  strings.Split hdr sep = "HEADER" :: section :: columnNames →
  columnNames ≠ [] →
  Forall (λ line, isHeaderFor sep section line = false) mid →
  runsTo (serverLine e statusPath sep) serverState_init (pre ++ hdr :: mid) =
    Some (sent, st) →
  headersFound st !! section = Some columnNames ∧
  (firstField sep text = section →
   length (strings.Split text sep) ≠ S (length columnNames) →
   serverLine e statusPath sep st text =
     ([], Return (DifferentNumberOfColumns section))).
Proof.
  intros e [header Hreg] Hsplit Hcols Hmid Hrun.
  assert (Hfound : headersFound st !! section = Some columnNames).
  { assert (Hcut : pre ++ hdr :: mid = (pre ++ [hdr]) ++ mid)
      by (by rewrite <- app_assoc).
    rewrite Hcut, !runsTo_app in Hrun.
    destruct (runsTo _ serverState_init pre) as [[sent0 st0]|]; [|done].
    simpl in Hrun.
    destruct (serverLine_header e statusPath sep st0 hdr section columnNames Hsplit Hcols)
      as (st1 & Hline & Hlook).
    rewrite Hline in Hrun. simpl in Hrun.
    destruct (runsTo _ st1 mid) as [[sent2 st2]|] eqn:Hmidrun; [|done].
    injection Hrun as _ <-.
    by rewrite (runsTo_headers _ _ _ _ _ _ _ _ Hmidrun Hmid). }
  split; [done|].
  intros Hfirst Hlen. rewrite <- Hfirst in *.
  apply serverLine_arity with header columnNames; try done.
  by apply registered_sections in Hreg.
Qed.

(** ** The client parser *)

Lemma clientLine_count `{GoRuntime} (e : OpenVPNExporter) (statusPath : string)
    (st st' : unit) (text : string) (sent : list prometheus.Metric) :
  clientLine e statusPath st text = (sent, Next st') →
  length sent = if decide (length (strings.Split text ",") = 2%nat) then 1%nat else 0%nat.
Proof.
  unfold clientLine. intros Hline.
  repeat case_match; simplify_eq; simpl; try done;
    repeat match goal with
           | Hb : (_ && _) = true |- _ => apply andb_true_iff in Hb as [? ?]
           | Hn : (_ =? _)%nat = true |- _ => apply Nat.eqb_eq in Hn
           end; congruence.
Qed.

(** X12. The client parser does not de-duplicate: when its scan succeeds,
    it has sent exactly one metric for each line of two fields (the
    [Updated] line and the counters, repeated or not) and none for the
    other lines. *)
Theorem client_one_metric_per_line `{GoRuntime} (e : OpenVPNExporter)
    (statusPath : string) (file : bufio.Reader) (sent : list prometheus.Metric) :
  collectClientStatusFromReader e statusPath file = (sent, None) →
  length sent =
    length (filter (λ text, length (strings.Split text ",") = 2%nat)
              (bufio.tokens (bufio.NewScanner file))).
Proof.
  unfold collectClientStatusFromReader. intros Hscan.
  destruct (forScan _ _ _) as [sent0 [err|st]] eqn:Hloop; [done|].
  injection Hscan as <- _.
  apply forScan_all_read in Hloop; [|intros; apply clientLine_no_break].
  revert Hloop. generalize tt at 1. generalize (bufio.tokens (bufio.NewScanner file)).
  clear. intros lines. revert sent0 st.
  induction lines as [|line rest IH]; intros sent0 st st0 Hrun; simpl in Hrun.
  - by injection Hrun as <- _.
  - destruct (clientLine e statusPath st0 line) as [sent1 [st1| |]] eqn:Hline; try done.
    destruct (runsTo _ st1 rest) as [[sent2 st2]|] eqn:Hrest; [|done].
    injection Hrun as <- <-.
    rewrite length_app, (IH _ _ _ Hrest), (clientLine_count _ _ _ _ _ _ Hline).
    destruct (decide (length (strings.Split line ",") = 2%nat)).
    + by rewrite filter_cons_True.
    + by rewrite filter_cons_False.
Qed.

(** ** The errors a scan returns *)

Lemma forScan_error_line `{GoRuntime} {St : Type}
    (body : St → string → list prometheus.Metric * ctl St) (lines : list string) :
  ∀ st sent err,
    forScan body st lines = (sent, inl err) →
    ∃ line st' sent', line ∈ lines ∧ body st' line = (sent', Return err).
Proof.
  induction lines as [|line rest IH]; intros st sent err Hscan; simpl in Hscan; [done|].
  destruct (body st line) as [sent0 [st0|st0|err0]] eqn:Hline.
  - destruct (forScan body st0 rest) as [sent1 r] eqn:Hrest.
    injection Hscan as _ ->.
    destruct (IH _ _ _ Hrest) as (l & st' & sent' & Hin & Hl).
    exists l, st', sent'. split; [by right | done].
  - done.
  - injection Hscan as _ <-. exists line, st, sent0. split; [by left | done].
Qed.

Section error_kinds.
Context `{GoRuntime}.
Variable e : OpenVPNExporter.
Variable statusPath : string.

Lemma serverLine_error_kinds (sep : ascii) (st : serverState) (text : string)
    (sent : list prometheus.Metric) (err : error) :
  serverLine e statusPath sep st text = (sent, Return err) →
  (∃ value, err = NumError value ∧ ParseFloat value = None) ∨
  err = ShouldBePrecededByHeaders (firstField sep text) ∨
  err = DifferentNumberOfColumns (firstField sep text) ∨
  err = UnsupportedKey (firstField sep text).
Proof.
  intros Hline.
  destruct err as [buf|key|key|key|num|layout value|msg|];
    try (left; exists num; split;
         [reflexivity | by eapply serverLine_NumError]);
    revert Hline; unfold serverLine, firstField; intros Hline;
    repeat case_match; simplify_eq; auto;
    match goal with
    | Hexp : exportMetrics _ _ _ _ = (_, inl _) |- _ =>
        by apply exportMetrics_error in Hexp as (? & ? & _ & _ & _ & ?)
    end.
Qed.

Lemma clientLine_error_kinds (st : unit) (text : string)
    (sent : list prometheus.Metric) (err : error) :
  clientLine e statusPath st text = (sent, Return err) →
  (∃ value, err = NumError value ∧ ParseFloat value = None) ∨
  (∃ value, err = TimeParseError "Mon Jan 2 15:04:05 2006" value ∧
            time_ParseInLocation_Local "Mon Jan 2 15:04:05 2006" value = None) ∨
  err = UnsupportedKey (firstField "," text).
Proof.
  unfold clientLine, firstField. intros Hline.
  repeat case_match; simplify_eq; eauto.
Qed.

End error_kinds.

(** X13. The only errors a scan returns: the unexpected-contents error of
    the format detector, carrying the bytes peeked; [ErrTooLong] of the
    scanner, when a line of the stream has [MaxScanTokenSize] bytes or
    more; the error the reader ended with; or the error of a line of the
    document, which is a value that [ParseFloat] rejected, a timestamp
    that did not parse, or one of the three errors of the v2/v3 and client
    parsers that name the first field of the line (no header before it, a
    different number of columns, unsupported key). *)
Theorem scan_errors `{GoRuntime} (e : OpenVPNExporter) (statusPath : string)
    (file : bufio.Reader) (err : error) :
  (collectStatusFromReader e statusPath file).2 = Some err →
  err = UnexpectedFileContents (bufio.Peek file 18)
  ∨ (err = ErrTooLong ∧
     ∃ line, line ∈ bufio.scanLines (bufio.data file) ∧
             (bufio.MaxScanTokenSize ≤ N.of_nat (String.length line.1))%N)
  ∨ bufio.readErr file = Some err
  ∨ ∃ line, line ∈ bufio.tokens (bufio.NewScanner file) ∧
      ((∃ value, err = NumError value ∧ ParseFloat value = None)
       ∨ (∃ layout value, err = TimeParseError layout value ∧
            (time_Parse layout value = None ∨
             time_ParseInLocation_Local layout value = None))
       ∨ (∃ sep, (sep = ","%char ∨ sep = tab) ∧
            (err = ShouldBePrecededByHeaders (firstField sep line) ∨
             err = DifferentNumberOfColumns (firstField sep line) ∨
             err = UnsupportedKey (firstField sep line)))).
Proof.
  assert (Hscanner : bufio.Err (bufio.NewScanner file) = Some err →
    (err = ErrTooLong ∧
     ∃ line, line ∈ bufio.scanLines (bufio.data file) ∧
             (bufio.MaxScanTokenSize ≤ N.of_nat (String.length line.1))%N)
    ∨ bufio.readErr file = Some err).
  { intros Herr. destruct (NewScanner_Err file) as [[_ Hread]|[(line & Hin & Hline) Hlong]].
    - right. by rewrite <- Hread.
    - left. rewrite Hlong in Herr. injection Herr as <-. split; [done|].
      exists line. split; [done|]. unfold bufio.fits in Hline.
      by apply N.ltb_ge in Hline. }
  assert (Hserver : ∀ sep, sep = ","%char ∨ sep = tab →
    (collectServerStatusFromReader e statusPath file sep).2 = Some err →
    (err = ErrTooLong ∧
     ∃ line, line ∈ bufio.scanLines (bufio.data file) ∧
             (bufio.MaxScanTokenSize ≤ N.of_nat (String.length line.1))%N)
    ∨ bufio.readErr file = Some err
    ∨ ∃ line, line ∈ bufio.tokens (bufio.NewScanner file) ∧
        ((∃ value, err = NumError value ∧ ParseFloat value = None)
         ∨ (∃ layout value, err = TimeParseError layout value ∧
              (time_Parse layout value = None ∨
               time_ParseInLocation_Local layout value = None))
         ∨ (∃ sep, (sep = ","%char ∨ sep = tab) ∧
              (err = ShouldBePrecededByHeaders (firstField sep line) ∨
               err = DifferentNumberOfColumns (firstField sep line) ∨
               err = UnsupportedKey (firstField sep line))))).
  { intros sep Hsep. unfold collectServerStatusFromReader.
    destruct (forScan _ _ _) as [sent [err'|st]] eqn:Hloop; cbv beta iota zeta;
      cbn [snd].
    2: { intros Herr. destruct (Hscanner Herr); auto. }
    intros [= ->]. right. right.
    destruct (forScan_error_line _ _ _ _ _ Hloop) as (line & st' & sent' & Hin & Hline).
    exists line. split; [done|].
    destruct (serverLine_error_kinds _ _ _ _ _ _ _ Hline) as [Hnum|Hnamed];
      [by left|].
    right. right. by exists sep. }
  unfold collectStatusFromReader.
  destruct (strings.HasPrefix _ "TITLE,").
  { intros Herr. right. by apply (Hserver ","%char); [left|]. }
  destruct (strings.HasPrefix _ tabTitle).
  { intros Herr. right. by apply (Hserver tab); [right|]. }
  destruct (strings.HasPrefix _ "OpenVPN STATISTICS").
  { unfold collectClientStatusFromReader.
    destruct (forScan _ _ _) as [sent [err'|st]] eqn:Hloop; cbv beta iota zeta;
      cbn [snd].
    2: { intros Herr. right. destruct (Hscanner Herr); auto. }
    intros [= ->]. right. right. right.
    destruct (forScan_error_line _ _ _ _ _ Hloop) as (line & st' & sent' & Hin & Hline).
    exists line. split; [done|].
    destruct (clientLine_error_kinds _ _ _ _ _ _ Hline)
      as [Hnum|[(value & -> & Htime)|Hkey]].
    - by left.
    - right. left. eexists _, value. split; [done | by right].
    - right. right. exists ","%char. split; [by left | by right; right]. }
  destruct (strings.HasPrefix _ "OpenVPN CLIENT LIS").
  { unfold collectServerStatusFromReaderV4.
    destruct (forScan _ _ _) as [sent [err'|st]] eqn:Hloop; cbv beta iota zeta;
      cbn [snd].
    2: { intros Herr. right.
         destruct (brokeAfter _ _ _) as [n|].
         - destruct (ErrAfter_cases (bufio.NewScanner file) n) as [Hnone|[_ Hsame]].
           + by rewrite Hnone in Herr.
           + rewrite Hsame in Herr. destruct (Hscanner Herr); auto.
         - destruct (Hscanner Herr); auto. }
    intros [= ->]. right. right. right.
    destruct (forScan_error_line _ _ _ _ _ Hloop) as (line & st' & sent' & Hin & Hline).
    exists line. split; [done|].
    destruct (serverLineV4_error _ _ _ _ _ _ Hline) as [Hnum|(value & -> & Htime)].
    - by left.
    - right. left. eexists _, value. split; [done | by left]. }
  cbn [snd]. intros [= <-]. by left.
Qed.

(** ** Streams too short to be recognized *)

Lemma HasPrefix_length (prefix : string) :
  ∀ s, strings.HasPrefix s prefix = true → (String.length prefix ≤ String.length s)%nat.
Proof.
  induction prefix as [|p prefix IH]; intros s Hs; simpl in *; [lia|].
  destruct s as [|c s]; [done|].
  apply andb_true_iff in Hs as [_ Hs]. apply IH in Hs. simpl. lia.
Qed.

(** X14. A stream of fewer than six bytes, the empty stream included, is
    never taken for a status document: the scan sends nothing and returns
    the unexpected-contents error carrying the whole stream. *)
Theorem short_stream_is_unexpected `{GoRuntime} (e : OpenVPNExporter)
    (statusPath : string) (file : bufio.Reader) :
  (String.length (bufio.data file) < 6)%nat →
  collectStatusFromReader e statusPath file =
    ([], Some (UnexpectedFileContents (bufio.data file))).
Proof.
  intros Hshort. unfold collectStatusFromReader, bufio.Peek.
  rewrite first_bytes_short by lia.
  repeat match goal with
         | |- context [strings.HasPrefix ?s ?p] =>
             let Hp := fresh "Hp" in
             destruct (strings.HasPrefix s p) eqn:Hp;
             [apply HasPrefix_length in Hp; unfold tabTitle in Hp; simpl in Hp; lia|]
         end.
  done.
Qed.

(** ** The labels of a row *)

Section row_labels.
Context `{GoRuntime}.
Variable e : OpenVPNExporter.
Variable statusPath : string.

(** The metrics of a line of a v2/v3 document: the update time, or a
    field of the section of the line with the labels of its row. *)
Lemma serverLine_row_metric (sep : ascii) (st : serverState) (text : string)
    (m : prometheus.Metric) :
  m ∈ (serverLine e statusPath sep st text).1 →
  (prometheus.desc m = openvpnStatusUpdateTimeDesc e ∧
   prometheus.labelValues m = [statusPath]) ∨
  ∃ header columnNames field,
    openvpnServerHeaders e !! firstField sep text = Some header ∧
    headersFound st !! firstField sep text = Some columnNames ∧
    field ∈ Metrics header ∧
    prometheus.desc m = Desc field ∧
    prometheus.labelValues m =
      extractLabels statusPath (rowValues header columnNames (strings.Split text sep))
        (LabelColumns header).
Proof.
  unfold serverLine, firstField, rowValues.
  destruct (_ && _); [by intros ?%elem_of_nil|].
  destruct (_ =? _); [by intros ?%elem_of_nil|].
  destruct (_ && _); [by intros ?%elem_of_nil|].
  destruct (_ && _).
  { destruct (ParseFloat _); [|by intros ?%elem_of_nil].
    intros ->%list_elem_of_singleton. by left. }
  destruct (_ && _); [by intros ?%elem_of_nil|].
  destruct (openvpnServerHeaders e !! _) as [header|] eqn:Hreg;
    [|by intros ?%elem_of_nil].
  destruct (headersFound st !! _) as [columnNames|] eqn:Hfound;
    [|by intros ?%elem_of_nil].
  destruct (negb _); [by intros ?%elem_of_nil|].
  match goal with
  | |- context [exportMetrics ?cv ?labels ?rec ?metrics] =>
      pose proof (exportMetrics_sent cv labels metrics rec) as Hsent
  end.
  rewrite Forall_forall in Hsent.
  intros Hin. right. exists header, columnNames.
  destruct (exportMetrics _ _ _ _) as [sent [err|recorded]];
    destruct (Hsent m Hin) as (field & Hfield & Hdesc & _ & Hlabels);
    by exists field.
Qed.

(** The metrics of a line of a v4 document: the update time, or a field
    of the current section with the labels of the row. *)
Lemma serverLineV4_row_metric (st : serverStateV4) (line : string)
    (m : prometheus.Metric) :
  m ∈ (serverLineV4 e statusPath st line).1 →
  (prometheus.desc m = openvpnStatusUpdateTimeDesc e ∧
   prometheus.labelValues m = [statusPath]) ∨
  ∃ header field,
    openvpnServerHeaders e !! currentSection st = Some header ∧
    field ∈ Metrics header ∧
    prometheus.desc m = Desc field ∧
    prometheus.labelValues m =
      extractLabels statusPath
        (rowValuesV4 (default [] (headersFoundV4 st !! currentSection st))
           (strings.Split line ","))
        (LabelColumns header).
Proof.
  assert (Hrow : ∀ section header count,
    currentSection st = section →
    openvpnServerHeaders e !! section = Some header →
    m ∈ (dataRowV4 statusPath section header count st (strings.Split line ",")).1 →
    ∃ header field,
      openvpnServerHeaders e !! currentSection st = Some header ∧
      field ∈ Metrics header ∧
      prometheus.desc m = Desc field ∧
      prometheus.labelValues m =
        extractLabels statusPath
          (rowValuesV4 (default [] (headersFoundV4 st !! currentSection st))
             (strings.Split line ","))
          (LabelColumns header)).
  { intros section header count Hsec Hreg. unfold dataRowV4, rowValuesV4.
    rewrite Hsec.
    match goal with
    | |- context [exportMetrics ?cv ?labels ?rec ?metrics] =>
        pose proof (exportMetrics_sent cv labels metrics rec) as Hsent
    end.
    rewrite Forall_forall in Hsent.
    intros Hin. exists header.
    destruct (exportMetrics _ _ _ _) as [sent [err|recorded]];
      destruct (Hsent m Hin) as (field & Hfield & Hdesc & _ & Hlabels);
      by exists field. }
  unfold serverLineV4.
  destruct (_ =? _)%nat; [by intros ?%elem_of_nil|].
  repeat (destruct (_ && _); [by intros ?%elem_of_nil|]).
  destruct (String.eqb_spec (currentSection st) "CLIENT_LIST") as [Hsec|_].
  { destruct (strings.HasPrefix line "Updated,").
    { destruct (parseTime _); [|by intros ?%elem_of_nil].
      intros ->%list_elem_of_singleton. by left. }
    destruct (strings.HasPrefix line "Common Name,"); [by intros ?%elem_of_nil|].
    destruct (openvpnServerHeaders e !! "CLIENT_LIST") as [header|] eqn:Hreg;
      [|by intros ?%elem_of_nil].
    intros Hin. right. by eapply Hrow. }
  destruct (String.eqb_spec (currentSection st) "ROUTING_TABLE") as [Hsec|_];
    [|by intros ?%elem_of_nil].
  destruct (strings.HasPrefix line "Virtual Address,"); [by intros ?%elem_of_nil|].
  destruct (openvpnServerHeaders e !! "ROUTING_TABLE") as [header|] eqn:Hreg;
    [|by intros ?%elem_of_nil].
  intros Hin. right. by eapply Hrow.
Qed.

End row_labels.

(** The fields of the registry, by the name of their descriptor. *)
Lemma registered_field_names (paths : list string) (ignoreIndividuals : bool)
    (key : string) (header : OpenvpnServerHeader) (field : OpenvpnServerHeaderField) :
  openvpnServerHeaders (NewOpenVPNExporter paths ignoreIndividuals) !! key = Some header →
  field ∈ Metrics header →
  (strings.HasPrefix (prometheus.fqName (Desc field)) "openvpn_server_client_" = true ∧
   strings.HasPrefix (prometheus.fqName (Desc field)) "openvpn_server_route_" = false ∧
   key = "CLIENT_LIST" ∧
   LabelColumns header =
     if ignoreIndividuals then ["Common Name"]
     else ["Common Name"; "Connected Since"; "Real Address"; "Virtual Address";
           "Common Name"]) ∨
  (strings.HasPrefix (prometheus.fqName (Desc field)) "openvpn_server_client_" = false ∧
   strings.HasPrefix (prometheus.fqName (Desc field)) "openvpn_server_route_" = true ∧
   key = "ROUTING_TABLE" ∧
   LabelColumns header =
     if ignoreIndividuals then ["Common Name"]
     else ["Common Name"; "Real Address"; "Virtual Address"]).
Proof.
  intros Hreg Hin. unfold NewOpenVPNExporter in Hreg. simpl in Hreg.
  rewrite !lookup_insert in Hreg.
  repeat case_decide; simplify_eq; simpl in Hin;
    repeat (apply elem_of_cons in Hin as [->|Hin]);
    try (by apply elem_of_nil in Hin);
    first [ by left | by right ].
Qed.

(** X15. The label values of the metrics of rows, in both server parsers.
    A client metric ([openvpn_server_client_...]) is sent at a line of the
    client list and a route metric ([openvpn_server_route_...]) at a line
    of the routing table, reached after the lines before it were read;
    its label values are read in the column values of that row, under the
    header stored when the line is reached: for a client metric the status
    path, the common name and, unless individuals are ignored, the
    connection time, the real address, the virtual address and the common
    name once more (the value of the label [username]); for a route metric
    the status path, the common name and, unless individuals are ignored,
    the real and virtual addresses.  The value of a column is the field of
    the row at the position the column has in the header (a header without
    repeated names); in a v2/v3 row the tag of the line comes before the
    values, and a label column that the header lacks has the empty
    value. *)
Theorem row_label_values `{GoRuntime} (paths : list string) (ignoreIndividuals : bool)
    (statusPath : string) (file : bufio.Reader) (m : prometheus.Metric) :
  let e := NewOpenVPNExporter paths ignoreIndividuals in
  let client := strings.HasPrefix (prometheus.fqName (prometheus.desc m))
                  "openvpn_server_client_" in
  let route := strings.HasPrefix (prometheus.fqName (prometheus.desc m))
                 "openvpn_server_route_" in
  let labelsOf (section : string) (columnValues : gmap string string) :=
    (client = true →
     section = "CLIENT_LIST" ∧
     prometheus.labelValues m =
       if ignoreIndividuals then [statusPath; valueOf columnValues "Common Name"]
       else [statusPath; valueOf columnValues "Common Name";
             valueOf columnValues "Connected Since"; valueOf columnValues "Real Address";
             valueOf columnValues "Virtual Address"; valueOf columnValues "Common Name"])
    ∧ (route = true →
       section = "ROUTING_TABLE" ∧
       prometheus.labelValues m =
         if ignoreIndividuals then [statusPath; valueOf columnValues "Common Name"]
         else [statusPath; valueOf columnValues "Common Name";
               valueOf columnValues "Real Address";
               valueOf columnValues "Virtual Address"]) in
  (∀ sep,
     m ∈ (collectServerStatusFromReader e statusPath file sep).1 →
     client = true ∨ route = true →
     ∃ pre line post sent st header columnNames,
       bufio.tokens (bufio.NewScanner file) = pre ++ line :: post ∧
       runsTo (serverLine e statusPath sep) serverState_init pre = Some (sent, st) ∧
       openvpnServerHeaders e !! firstField sep line = Some header ∧
       headersFound st !! firstField sep line = Some columnNames ∧
       labelsOf (firstField sep line)
         (rowValues header columnNames (strings.Split line sep)))
  ∧ (m ∈ (collectServerStatusFromReaderV4 e statusPath file).1 →
     client = true ∨ route = true →
     ∃ pre line post sent st,
       bufio.tokens (bufio.NewScanner file) = pre ++ line :: post ∧
       runsTo (serverLineV4 e statusPath) serverStateV4_init pre = Some (sent, st) ∧
       labelsOf (currentSection st)
         (rowValuesV4 (default [] (headersFoundV4 st !! currentSection st))
            (strings.Split line ",")))
  ∧ (∀ header columnNames fields,
       NoDup columnNames →
       (∀ j name, columnNames !! j = Some name →
          valueOf (rowValues header columnNames fields) name = index fields (S j)) ∧
       (∀ name, name ∉ columnNames → name ∈ LabelColumns header →
          valueOf (rowValues header columnNames fields) name = ""))
  ∧ (∀ headers fields j name value,
       NoDup headers → headers !! j = Some name → fields !! j = Some value →
       valueOf (rowValuesV4 headers fields) name = value).
Proof.
  intros e client route labelsOf.
  assert (Hlabels : ∀ key header field columnValues,
    openvpnServerHeaders e !! key = Some header →
    field ∈ Metrics header →
    prometheus.desc m = Desc field →
    prometheus.labelValues m = extractLabels statusPath columnValues (LabelColumns header) →
    labelsOf key columnValues).
  { intros key header field cv Hreg Hin Hdesc Hlab.
    unfold labelsOf, client, route. rewrite Hdesc, Hlab.
    destruct (registered_field_names _ _ _ _ _ Hreg Hin)
      as [(-> & -> & -> & ->)|(-> & -> & -> & ->)];
      (split; intros Hname; [|]; try discriminate Hname);
      (split; [done|]); by destruct ignoreIndividuals. }
  assert (Hnot : ∀ d, prometheus.desc m = d →
    d = openvpnStatusUpdateTimeDesc e ∨ d = openvpnConnectedClientsDesc e →
    client = true ∨ route = true → False).
  { intros d Hd Hdesc. unfold client, route. rewrite Hd.
    by destruct Hdesc as [-> | ->]; intros [?|?]. }
  split_and!.
  - intros sep Hin Hname. unfold collectServerStatusFromReader in Hin.
    assert (Hloop : m ∈ (forScan (serverLine e statusPath sep) serverState_init
                           (bufio.tokens (bufio.NewScanner file))).1).
    { destruct (forScan _ _ _) as [sent [err|st]]; cbv beta iota zeta in Hin;
        cbn [fst] in *; [done|].
      apply elem_of_app in Hin as [Hin|Hin]; [done|].
      apply list_elem_of_singleton in Hin.
      destruct (Hnot _ (f_equal prometheus.desc Hin)); [by right | done]. }
    destruct (forScan_sent_at _ _ _ _ Hloop)
      as (pre & line & post & sent & st & Htok & Hrun & Hm).
    destruct (serverLine_row_metric e statusPath sep st line m Hm)
      as [[Hupd _]|(header & columnNames & field & Hreg & Hfound & Hfield & Hdesc & Hlab)].
    { destruct (Hnot _ Hupd); [by left | done]. }
    exists pre, line, post, sent, st, header, columnNames.
    split_and!; try done. by eapply Hlabels.
  - intros Hin Hname. unfold collectServerStatusFromReaderV4 in Hin.
    assert (Hloop : m ∈ (forScan (serverLineV4 e statusPath) serverStateV4_init
                           (bufio.tokens (bufio.NewScanner file))).1).
    { destruct (forScan _ _ _) as [sent [err|st]]; cbv beta iota zeta in Hin;
        cbn [fst] in *; [done|].
      apply elem_of_app in Hin as [Hin|Hin]; [done|].
      apply list_elem_of_singleton in Hin.
      destruct (Hnot _ (f_equal prometheus.desc Hin)); [by right | done]. }
    destruct (forScan_sent_at _ _ _ _ Hloop)
      as (pre & line & post & sent & st & Htok & Hrun & Hm).
    destruct (serverLineV4_row_metric e statusPath st line m Hm)
      as [[Hupd _]|(header & field & Hreg & Hfield & Hdesc & Hlab)].
    { destruct (Hnot _ Hupd); [by left | done]. }
    exists pre, line, post, sent, st.
    split_and!; try done. by eapply Hlabels.
  - intros header columnNames fields Hnodup. unfold valueOf, rowValues. split.
    + intros j name Hj.
      rewrite (storeEntryValues_lookup fields name columnNames Hnodup 0 j) by done.
      simpl. f_equal. lia.
    + intros name Hnot' Hin.
      rewrite storeEntryValues_skip, presetLabelColumns_lookup by done.
      by rewrite decide_True.
  - intros headers fields j name value Hnodup Hh Hf. unfold valueOf, rowValuesV4.
    by rewrite (mapColumnValues_lookup headers name value Hnodup fields 0 j).
Qed.

(** X16. [Describe] announces the descriptor [openvpn_up] and no other: of
    the metrics [Collect] sends, those with an announced descriptor are
    the [up] gauges, and every metric of a scan (update time, connected
    clients, client counters, row metrics) has a descriptor that was not
    announced. *)
Theorem describe_announces_up_only `{GoRuntime} (paths : list string)
    (ignoreIndividuals : bool) (Open : string → bufio.Reader + error)
    (statusPath : string) (m : prometheus.Metric) :
  let e := NewOpenVPNExporter paths ignoreIndividuals in
  Describe e = [openvpnUpDesc e]
  ∧ (m ∈ (collectStatusFromFile e Open statusPath).1 → prometheus.desc m ∉ Describe e)
  ∧ (m ∈ Collect e Open → prometheus.desc m ∈ Describe e →
     ∃ path, path ∈ paths ∧
             m = upMetric e path (collectStatusFromFile e Open path).2).
Proof.
  intros e. split_and!; [done| |].
  - intros Hin Hdesc.
    pose proof (collectStatusFromFile_sent paths ignoreIndividuals Open statusPath) as Hsent.
    rewrite Forall_forall in Hsent.
    destruct (scanMetric_labels paths ignoreIndividuals statusPath m (Hsent m Hin))
      as (_ & _ & Hnot).
    apply Hnot. unfold Describe in Hdesc. by apply list_elem_of_singleton in Hdesc.
  - intros Hin Hdesc. unfold Describe in Hdesc.
    apply list_elem_of_singleton in Hdesc.
    assert (Hup : m ∈ filter (λ m, prometheus.desc m = openvpnUpDesc e) (Collect e Open)).
    { by apply list_elem_of_filter. }
    unfold Collect in Hup.
    rewrite (Collect_range_up paths ignoreIndividuals Open) in Hup.
    apply list_elem_of_fmap in Hup as (path & -> & Hpath).
    by exists path.
Qed.

(** ** Label values that are valid UTF-8 *)

(** Reading one byte of a text: the state in which the bytes after it are
    read, if the byte is accepted.  A byte below 128 is accepted only
    where a character starts. *)
Lemma validFrom_step (c : ascii) (need : nat) (lo hi : N) :
  ∃ r : option (nat * N * N),
    (∀ s, utf8.validFrom (String c s) need lo hi =
          match r with
          | Some (need', lo', hi') => utf8.validFrom s need' lo' hi'
          | None => false
          end) ∧
    (∀ need' lo' hi', r = Some (need', lo', hi') → (128 ≤ lo')%N) ∧
    ((N_of_ascii c < 128)%N → (128 ≤ lo)%N →
     r = match need with O => Some (0%nat, 128%N, 191%N) | S _ => None end).
Proof.
  destruct need as [|need].
  - cbn [utf8.validFrom]. set (b := N_of_ascii c).
    destruct (N.ltb_spec b 128).
    { exists (Some (0%nat, 128%N, 191%N)). split_and!; [done| |done].
      intros ??? [= <- <- <-]. lia. }
    assert (Hother : ∀ r : option (nat * N * N),
      (N_of_ascii c < 128)%N → (128 ≤ lo)%N → r = Some (0%nat, 128%N, 191%N)).
    { intros r Hc. fold b in Hc. lia. }
    destruct (_ && _).
    { exists (Some (1%nat, 128%N, 191%N)). split_and!; [done| |apply Hother].
      intros ??? [= <- <- <-]. lia. }
    destruct (_ =? _)%N.
    { exists (Some (2%nat, 160%N, 191%N)). split_and!; [done| |apply Hother].
      intros ??? [= <- <- <-]. lia. }
    destruct (_ && _).
    { exists (Some (2%nat, 128%N, 191%N)). split_and!; [done| |apply Hother].
      intros ??? [= <- <- <-]. lia. }
    destruct (_ =? _)%N.
    { exists (Some (2%nat, 128%N, 159%N)). split_and!; [done| |apply Hother].
      intros ??? [= <- <- <-]. lia. }
    destruct (_ && _).
    { exists (Some (2%nat, 128%N, 191%N)). split_and!; [done| |apply Hother].
      intros ??? [= <- <- <-]. lia. }
    destruct (_ =? _)%N.
    { exists (Some (3%nat, 144%N, 191%N)). split_and!; [done| |apply Hother].
      intros ??? [= <- <- <-]. lia. }
    destruct (_ && _).
    { exists (Some (3%nat, 128%N, 191%N)). split_and!; [done| |apply Hother].
      intros ??? [= <- <- <-]. lia. }
    destruct (_ =? _)%N.
    { exists (Some (3%nat, 128%N, 143%N)). split_and!; [done| |apply Hother].
      intros ??? [= <- <- <-]. lia. }
    exists None. split_and!; [done|done|apply Hother].
  - cbn [utf8.validFrom]. set (b := N_of_ascii c).
    destruct ((lo <=? b)%N && (b <=? hi)%N) eqn:Hrange.
    + exists (Some (need, 128%N, 191%N)). split_and!; [done| |].
      * intros ??? [= <- <- <-]. lia.
      * intros Hc Hlo. apply andb_true_iff in Hrange as [Hrange _].
        apply N.leb_le in Hrange. lia.
    + exists None. by split_and!.
Qed.

(** A byte below 128 stands between characters. *)
Lemma validFrom_ascii (c : ascii) (s : string) (need : nat) (lo hi : N) :
  (N_of_ascii c < 128)%N → (128 ≤ lo)%N →
  utf8.validFrom (String c s) need lo hi = true →
  need = 0%nat ∧ utf8.ValidString s = true.
Proof.
  intros Hc Hlo Hvalid.
  destruct (validFrom_step c need lo hi) as (r & Hstep & _ & Hascii).
  rewrite Hstep, (Hascii Hc Hlo) in Hvalid. by destruct need.
Qed.

(** The fields that [Split] cuts a valid text into at a byte below 128 are
    valid. *)
Lemma Split_validFrom (sep : ascii) :
  (N_of_ascii sep < 128)%N →
  ∀ s need lo hi, (128 ≤ lo)%N → utf8.validFrom s need lo hi = true →
    ∃ f fs, strings.Split s sep = f :: fs ∧
            utf8.validFrom f need lo hi = true ∧
            Forall (λ v, utf8.ValidString v = true) fs.
Proof.
  intros Hsep. induction s as [|c s IH]; intros need lo hi Hlo Hvalid.
  { exists "", []. by split_and!. }
  cbn [strings.Split]. destruct (Ascii.eqb_spec c sep) as [->|Hne].
  - destruct (validFrom_ascii _ _ _ _ _ Hsep Hlo Hvalid) as [-> Hs].
    destruct (IH 0%nat 128%N 191%N) as (f & fs & Hsplit & Hf & Hfs); [lia|done|].
    exists "", (strings.Split s sep). split_and!; [done|done|].
    rewrite Hsplit. by constructor.
  - destruct (validFrom_step c need lo hi) as (r & Hstep & Hr & _).
    rewrite Hstep in Hvalid. destruct r as [[[need' lo'] hi']|]; [|done].
    destruct (IH need' lo' hi') as (f & fs & Hsplit & Hf & Hfs);
      [by eapply Hr|done|].
    rewrite Hsplit. exists (String c f), fs. split_and!; [done| |done].
    by rewrite Hstep.
Qed.

Lemma Split_valid (sep : ascii) (s : string) :
  (N_of_ascii sep < 128)%N → utf8.ValidString s = true →
  Forall (λ v, utf8.ValidString v = true) (strings.Split s sep).
Proof.
  intros Hsep Hvalid.
  destruct (Split_validFrom sep Hsep s 0%nat 128%N 191%N) as (f & fs & -> & Hf & Hfs);
    [lia|done|].
  by constructor.
Qed.

(** The lines of a valid stream are valid. *)
Lemma scanLines_nil (s : string) : bufio.scanLines s = [] → s = "".
Proof.
  destruct s as [|c s]; [done|]. cbn [bufio.scanLines].
  destruct (Ascii.eqb c newline); [done|].
  by destruct (bufio.scanLines s) as [|[line terminated] lines].
Qed.

Lemma scanLines_validFrom (s : string) :
  ∀ need lo hi, (128 ≤ lo)%N → utf8.validFrom s need lo hi = true →
    match bufio.scanLines s with
    | [] => True
    | line :: lines =>
        utf8.validFrom line.1 need lo hi = true ∧
        Forall (λ l, utf8.ValidString l.1 = true) lines
    end.
Proof.
  assert (Hnewline : (N_of_ascii newline < 128)%N) by (vm_compute; reflexivity).
  induction s as [|c s IH]; intros need lo hi Hlo Hvalid; [done|].
  cbn [bufio.scanLines]. destruct (Ascii.eqb_spec c newline) as [->|Hne].
  - destruct (validFrom_ascii _ _ _ _ _ Hnewline Hlo Hvalid) as [-> Hs].
    split; [done|].
    specialize (IH 0%nat 128%N 191%N (N.le_refl _) Hs).
    destruct (bufio.scanLines s) as [|line lines]; [constructor|].
    destruct IH as [Hline Hlines]. by constructor.
  - destruct (validFrom_step c need lo hi) as (r & Hstep & Hr & _).
    rewrite Hstep in Hvalid. destruct r as [[[need' lo'] hi']|]; [|done].
    specialize (IH need' lo' hi' (Hr _ _ _ eq_refl) Hvalid).
    destruct (bufio.scanLines s) as [|[line terminated] lines] eqn:Hlines.
    + apply scanLines_nil in Hlines as ->. cbn [fst].
      split; [by rewrite Hstep | constructor].
    + destruct IH as [Hline Hrest]. cbn [fst] in *.
      split; [by rewrite Hstep | done].
Qed.

(** Dropping the last byte of a valid text, when it is below 128. *)
Lemma first_bytes_validFrom (c : ascii) :
  (N_of_ascii c < 128)%N →
  ∀ line n need lo hi, (128 ≤ lo)%N →
    utf8.validFrom line need lo hi = true →
    String.length line = S n → String.get n line = Some c →
    utf8.validFrom (strings.first_bytes n line) need lo hi = true.
Proof.
  intros Hc. induction line as [|a line IH]; intros n need lo hi Hlo Hvalid Hlen Hget;
    [done|].
  destruct n as [|n].
  - simpl in Hget. injection Hget as ->. simpl.
    by destruct (validFrom_ascii _ _ _ _ _ Hc Hlo Hvalid) as [-> _].
  - simpl in Hget, Hlen. cbn [strings.first_bytes].
    destruct (validFrom_step a need lo hi) as (r & Hstep & Hr & _).
    rewrite Hstep in Hvalid. rewrite Hstep.
    destruct r as [[[need' lo'] hi']|]; [|done].
    apply IH; [by eapply Hr | done | lia | done].
Qed.

Lemma dropCR_valid (line : string) :
  utf8.ValidString line = true → utf8.ValidString (bufio.dropCR line) = true.
Proof.
  intros Hvalid. unfold bufio.dropCR.
  destruct (String.length line) as [|n] eqn:Hlen; [done|].
  destruct (String.get n line) as [c|] eqn:Hget; [|done].
  destruct (Ascii.eqb_spec c carriage_return) as [->|_]; [|done].
  by apply (first_bytes_validFrom carriage_return).
Qed.

Lemma fitting_Forall (P : string * bool → Prop) (lines : list (string * bool)) :
  Forall P lines → Forall P (bufio.fitting lines).
Proof.
  induction 1 as [|line lines Hline Hlines IH]; simpl; [constructor|].
  destruct (bufio.fits line); by constructor.
Qed.

(** The lines a scanner yields from a valid stream are valid. *)
Lemma NewScanner_valid (file : bufio.Reader) :
  utf8.ValidString (bufio.data file) = true →
  Forall (λ line, utf8.ValidString line = true) (bufio.tokens (bufio.NewScanner file)).
Proof.
  intros Hvalid. unfold bufio.NewScanner. cbn [bufio.tokens].
  apply Forall_fmap, fitting_Forall.
  pose proof (scanLines_validFrom (bufio.data file) 0%nat 128%N 191%N
                (N.le_refl _) Hvalid) as Hlines.
  destruct (bufio.scanLines (bufio.data file)) as [|line lines]; [constructor|].
  destruct Hlines as [Hline Hlines].
  constructor; [by apply dropCR_valid|].
  eapply Forall_impl; [exact Hlines|]. intros l Hl. by apply dropCR_valid.
Qed.

(** The values of the columns of a row are fields of the row, or
    empty. *)
Lemma storeEntryValues_values (P : string → Prop) (fields : list string) :
  P "" → Forall P fields →
  ∀ columnNames i columnValues,
    (∀ name v, columnValues !! name = Some v → P v) →
    ∀ name v, storeEntryValues i columnNames fields columnValues !! name = Some v → P v.
Proof.
  intros Hempty Hfields.
  induction columnNames as [|column columnNames IH]; intros i columnValues Hcv name v;
    simpl; [apply Hcv|].
  apply IH. intros name' v'. destruct (decide (column = name')) as [->|Hne].
  - rewrite lookup_insert_eq. intros [= <-]. unfold index. rewrite nth_lookup.
    destruct (fields !! (i + 1)%nat) as [x|] eqn:Hx; [|done].
    rewrite Forall_forall in Hfields. apply Hfields.
    by eapply list_elem_of_lookup_2.
  - rewrite lookup_insert_ne by done. apply Hcv.
Qed.

Lemma rowValues_values (P : string → Prop) (header : OpenvpnServerHeader)
    (columnNames fields : list string) (name : string) :
  P "" → Forall P fields → P (valueOf (rowValues header columnNames fields) name).
Proof.
  intros Hempty Hfields. unfold valueOf, rowValues.
  destruct (storeEntryValues _ _ _ _ !! name) as [v|] eqn:Hv; [|done].
  eapply (storeEntryValues_values P fields Hempty Hfields); [|exact Hv].
  intros name' v'. rewrite presetLabelColumns_lookup.
  destruct (decide _); [by intros [= <-] | by rewrite lookup_empty].
Qed.

Lemma mapColumnValues_values (P : string → Prop) (headers : list string) :
  ∀ fields i columnValues,
    Forall P fields →
    (∀ name v, columnValues !! name = Some v → P v) →
    ∀ name v, mapColumnValues i headers fields columnValues !! name = Some v → P v.
Proof.
  induction fields as [|value fields IH]; intros i columnValues Hfields Hcv name v;
    simpl; [apply Hcv|].
  apply Forall_cons in Hfields as [Hvalue Hfields].
  apply IH; [done|]. intros name' v'.
  destruct (_ <? _)%nat; [|apply Hcv].
  destruct (decide (index headers i = name')) as [->|Hne].
  - rewrite lookup_insert_eq. by intros [= <-].
  - rewrite lookup_insert_ne by done. apply Hcv.
Qed.

Lemma rowValuesV4_values (P : string → Prop) (headers fields : list string)
    (name : string) :
  P "" → Forall P fields → P (valueOf (rowValuesV4 headers fields) name).
Proof.
  intros Hempty Hfields. unfold valueOf, rowValuesV4.
  destruct (mapColumnValues _ _ _ _ !! name) as [v|] eqn:Hv; [|done].
  eapply (mapColumnValues_values P headers fields 0 ∅ Hfields); [|exact Hv].
  intros name' v'. by rewrite lookup_empty.
Qed.

Section valid_labels.
Context `{GoRuntime}.
Variable paths : list string.
Variable ignoreIndividuals : bool.
Variable statusPath : string.
Let e := NewOpenVPNExporter paths ignoreIndividuals.
Hypothesis statusPath_valid : utf8.ValidString statusPath = true.

Let validLabels (m : prometheus.Metric) : Prop :=
  Forall (λ v, utf8.ValidString v = true) (prometheus.labelValues m).

Lemma extractLabels_valid (columnValues : gmap string string)
    (labelColumns : list string) :
  (∀ name, utf8.ValidString (valueOf columnValues name) = true) →
  Forall (λ v, utf8.ValidString v = true)
    (extractLabels statusPath columnValues labelColumns).
Proof.
  intros Hcv. unfold extractLabels. constructor; [done|].
  apply Forall_fmap, Forall_forall. intros name _. apply Hcv.
Qed.

Lemma serverLine_valid (sep : ascii) (st : serverState) (text : string) :
  (N_of_ascii sep < 128)%N → utf8.ValidString text = true →
  Forall validLabels (serverLine e statusPath sep st text).1.
Proof.
  intros Hsep Htext. apply Forall_forall. intros m Hm.
  destruct (serverLine_row_metric e statusPath sep st text m Hm)
    as [[_ Hlab]|(header & columnNames & field & _ & _ & _ & _ & Hlab)];
    unfold validLabels; rewrite Hlab.
  - by repeat constructor.
  - apply extractLabels_valid. intros name.
    apply (rowValues_values (λ v, utf8.ValidString v = true)); [done|].
    by apply Split_valid.
Qed.

Lemma serverLineV4_valid (st : serverStateV4) (line : string) :
  utf8.ValidString line = true →
  Forall validLabels (serverLineV4 e statusPath st line).1.
Proof.
  intros Hline. apply Forall_forall. intros m Hm.
  destruct (serverLineV4_row_metric e statusPath st line m Hm)
    as [[_ Hlab]|(header & field & _ & _ & _ & Hlab)];
    unfold validLabels; rewrite Hlab.
  - by repeat constructor.
  - apply extractLabels_valid. intros name.
    apply (rowValuesV4_values (λ v, utf8.ValidString v = true)); [done|].
    apply Split_valid; [vm_compute; reflexivity | done].
Qed.

Lemma clientLine_valid (st : unit) (text : string) :
  Forall validLabels (clientLine e statusPath st text).1.
Proof.
  unfold clientLine, validLabels.
  repeat case_match; simpl; by repeat constructor.
Qed.

Lemma forScan_valid {St : Type}
    (body : St → string → list prometheus.Metric * ctl St) (lines : list string) :
  (∀ st line, utf8.ValidString line = true → Forall validLabels (body st line).1) →
  Forall (λ line, utf8.ValidString line = true) lines →
  ∀ st, Forall validLabels (forScan body st lines).1.
Proof.
  intros Hbody Hlines st. apply Forall_forall. intros m Hm.
  destruct (forScan_sent_at body lines st m Hm)
    as (pre & line & post & sent & st' & -> & _ & Hline).
  apply Forall_app in Hlines as [_ Hlines].
  apply Forall_cons in Hlines as [Hvalid _].
  specialize (Hbody st' line Hvalid). rewrite Forall_forall in Hbody. by apply Hbody.
Qed.

Lemma collectStatusFromReader_valid (file : bufio.Reader) :
  utf8.ValidString (bufio.data file) = true →
  Forall validLabels (collectStatusFromReader e statusPath file).1.
Proof.
  intros Hdata. pose proof (NewScanner_valid file Hdata) as Hlines.
  assert (Hgauge : ∀ n, validLabels (connectedClients e statusPath n)).
  { intros n. unfold validLabels. simpl. by repeat constructor. }
  assert (Hserver : ∀ sep, (N_of_ascii sep < 128)%N →
    Forall validLabels (collectServerStatusFromReader e statusPath file sep).1).
  { intros sep Hsep. unfold collectServerStatusFromReader.
    pose proof (forScan_valid (serverLine e statusPath sep) _
                  (λ st line, serverLine_valid sep st line Hsep) Hlines
                  serverState_init) as Hsent.
    destruct (forScan _ _ _) as [sent [err|st]]; cbv beta iota zeta; cbn [fst] in *;
      [done|].
    apply Forall_app. split; [done|]. constructor; [apply Hgauge | constructor]. }
  unfold collectStatusFromReader.
  destruct (strings.HasPrefix _ "TITLE,").
  { apply Hserver. vm_compute. reflexivity. }
  destruct (strings.HasPrefix _ tabTitle).
  { apply Hserver. vm_compute. reflexivity. }
  destruct (strings.HasPrefix _ "OpenVPN STATISTICS").
  { unfold collectClientStatusFromReader.
    pose proof (forScan_valid (clientLine e statusPath) _
                  (λ st line _, clientLine_valid st line) Hlines tt) as Hsent.
    by destruct (forScan _ _ _) as [sent [err|st]]. }
  destruct (strings.HasPrefix _ "OpenVPN CLIENT LIS"); [|constructor].
  unfold collectServerStatusFromReaderV4.
  pose proof (forScan_valid (serverLineV4 e statusPath) _
                (λ st line, serverLineV4_valid st line) Hlines
                serverStateV4_init) as Hsent.
  destruct (forScan _ _ _) as [sent [err|st]]; cbv beta iota zeta; cbn [fst] in *;
    [done|].
  apply Forall_app. split; [done|]. constructor; [apply Hgauge | constructor].
Qed.

(** No call of a scan of a valid stream panics. *)
Lemma collectStatusFromReader_no_panic (file : bufio.Reader) :
  utf8.ValidString (bufio.data file) = true →
  Forall (λ m, prometheus.panics m = false) (collectStatusFromReader e statusPath file).1.
Proof.
  intros Hdata.
  pose proof (collectStatusFromReader_valid file Hdata) as Hvalid.
  pose proof (collectStatusFromReader_sent e statusPath file) as Hsent.
  rewrite Forall_forall in Hvalid, Hsent. apply Forall_forall. intros m Hm.
  destruct (scanMetric_labels paths ignoreIndividuals statusPath m (Hsent m Hm))
    as (Hlen & _ & _).
  unfold prometheus.panics, prometheus.validateLabelValues.
  rewrite Hlen, Nat.eqb_refl. simpl. apply negb_false_iff.
  apply forallb_forall. intros v Hv. specialize (Hvalid m Hm).
  unfold validLabels in Hvalid. rewrite Forall_forall in Hvalid.
  apply Hvalid. by apply list_elem_of_In.
Qed.

End valid_labels.

(** X18. [MustNewConstMetric] panics on a label value that is not valid
    UTF-8, and the label values of the metrics are the status path and
    fields of the lines of the status file.  When the configured status
    paths are valid UTF-8 and so are the contents of the files that can be
    opened, no call of [Collect] panics: every metric is built with as
    many label values as its descriptor has label names, all of them valid
    UTF-8. *)
Theorem valid_input_never_panics `{GoRuntime} (paths : list string)
    (ignoreIndividuals : bool) (Open : string → bufio.Reader + error) :
  let e := NewOpenVPNExporter paths ignoreIndividuals in
  Forall (λ statusPath, utf8.ValidString statusPath = true) paths →
  (∀ statusPath conn, statusPath ∈ paths → Open statusPath = inl conn →
                      utf8.ValidString (bufio.data conn) = true) →
  (∀ statusPath file, utf8.ValidString statusPath = true →
     utf8.ValidString (bufio.data file) = true →
     Forall (λ m, prometheus.panics m = false)
       (collectStatusFromReader e statusPath file).1)
  ∧ Forall (λ m, prometheus.panics m = false) (Collect e Open).
Proof.
  intros e Hpaths Hfiles. split.
  - intros statusPath file Hpath Hdata.
    by apply collectStatusFromReader_no_panic.
  - unfold Collect. cbn [statusPaths e NewOpenVPNExporter].
    induction Hpaths as [|statusPath rest Hpath Hrest IH]; simpl; [constructor|].
    assert (Hscan : Forall (λ m, prometheus.panics m = false)
                      (collectStatusFromFile e Open statusPath).1).
    { unfold collectStatusFromFile.
      destruct (Open statusPath) as [conn|err] eqn:Hopen; [|constructor].
      apply collectStatusFromReader_no_panic; [done|].
      eapply Hfiles; [by left | done]. }
    destruct (collectStatusFromFile e Open statusPath) as [sent err].
    apply Forall_app. split; [done|]. constructor.
    + unfold prometheus.panics, prometheus.validateLabelValues. simpl.
      by rewrite Hpath.
    + apply IH. intros p conn Hin. apply Hfiles. by right.
Qed.

(** ** Lines that do not fit the buffer of the scanner *)

(** X17. The parsers read the stream with a scanner of the default buffer
    size.  In a stream given line by line, lines of fewer than
    [MaxScanTokenSize = 65536] bytes are yielded, and a line of 65536
    bytes or more stops the scanner: when the lines before it are read
    without an error, the scan sends what these lines send, a server
    parser sends the connected-clients gauge with the count reached, and
    the scan returns [ErrTooLong]; the long line and what follows it are
    not read. *)
Theorem line_too_long `{GoRuntime} (e : OpenVPNExporter) (statusPath : string)
    (lines : list string) (long rest : string) (err : option error) :
  let file := {| bufio.data := streamOf lines (long +:+ rest); bufio.readErr := err |} in
  let gauge (n : Z) :=
    prometheus.MustNewConstMetric (openvpnConnectedClientsDesc e)
      prometheus.GaugeValue (float64_of_int n) [statusPath] in
  Forall (λ line, noNewline line = true ∧
                  (N.of_nat (String.length line) < 65536)%N) lines →
  noNewline long = true →
  (65536 ≤ N.of_nat (String.length long))%N →
  rest = "" ∨ (∃ rest', rest = String newline rest') →
  bufio.tokens (bufio.NewScanner file) = map bufio.dropCR lines
  ∧ bufio.Err (bufio.NewScanner file) = Some ErrTooLong
  ∧ (∀ sep sent st,
       runsTo (serverLine e statusPath sep) serverState_init (map bufio.dropCR lines) =
         Some (sent, st) →
       collectServerStatusFromReader e statusPath file sep =
         (sent ++ [gauge (numberConnectedClient st)], Some ErrTooLong))
  ∧ (∀ sent st,
       runsTo (serverLineV4 e statusPath) serverStateV4_init (map bufio.dropCR lines) =
         Some (sent, st) →
       collectServerStatusFromReaderV4 e statusPath file =
         (sent ++ [gauge (numberConnectedClientV4 st)], Some ErrTooLong))
  ∧ (∀ sent st,
       runsTo (clientLine e statusPath) tt (map bufio.dropCR lines) = Some (sent, st) →
       collectClientStatusFromReader e statusPath file = (sent, Some ErrTooLong)).
Proof.
  intros file gauge Hlines Hlong Hlen Hrest.
  assert (Hne : long ≠ "").
  { intros ->. simpl in Hlen. lia. }
  assert (Hscan : ∃ terminated more,
    bufio.scanLines (bufio.data file) =
      map (λ line, (line, true)) lines ++ (long, terminated) :: more).
  { unfold file. cbn [bufio.data]. rewrite scanLines_streamOf.
    - destruct Hrest as [-> | [rest' ->]].
      + exists false, []. rewrite append_empty_r.
        by rewrite (scanLines_last long).
      + exists true, (bufio.scanLines rest'). by rewrite scanLines_line.
    - eapply Forall_impl; [exact Hlines|]. by intros line [? _]. }
  destruct Hscan as (terminated & more & Hscan).
  assert (Hfit : Forall (λ l, bufio.fits l = true) (map (λ line, (line, true)) lines)).
  { apply Forall_fmap. eapply Forall_impl; [exact Hlines|].
    intros line [_ Hline]. unfold bufio.fits, bufio.MaxScanTokenSize. simpl.
    by apply N.ltb_lt. }
  assert (Hunfit : bufio.fits (long, terminated) = false).
  { unfold bufio.fits, bufio.MaxScanTokenSize. simpl. by apply N.ltb_ge. }
  destruct (fitting_app _ more _ Hfit Hunfit) as [Hfitting Hall].
  assert (Htok : bufio.tokens (bufio.NewScanner file) = map bufio.dropCR lines).
  { unfold bufio.NewScanner. cbn [bufio.tokens]. rewrite Hscan, Hfitting.
    by rewrite <- list_fmap_compose. }
  assert (Herr : bufio.Err (bufio.NewScanner file) = Some ErrTooLong).
  { unfold bufio.NewScanner. cbn [bufio.Err]. by rewrite Hscan, Hall. }
  split_and!; [done | done | | |].
  - intros sep sent st Hrun. unfold collectServerStatusFromReader.
    rewrite Htok, Herr, <- (app_nil_r (map bufio.dropCR lines)).
    by rewrite (forScan_runsTo _ _ [] _ _ _ Hrun), app_nil_r.
  - intros sent st Hrun. unfold collectServerStatusFromReaderV4.
    rewrite Htok, Herr, <- (app_nil_r (map bufio.dropCR lines)).
    rewrite (forScan_runsTo _ _ [] _ _ _ Hrun), (brokeAfter_runsTo _ _ [] _ _ _ Hrun).
    by rewrite app_nil_r.
  - intros sent st Hrun. unfold collectClientStatusFromReader.
    rewrite Htok, Herr, <- (app_nil_r (map bufio.dropCR lines)).
    by rewrite (forScan_runsTo _ _ [] _ _ _ Hrun), app_nil_r.
Qed.

(** * The further properties at concrete inputs *)

(** X1 at the sample status file, whose scan succeeds. *)
Lemma collect_up_gauges_witness :
  filter (λ m, prometheus.desc m = openvpnUpDesc Sample.exporter)
    (Collect (H := Sample.runtime) Sample.exporter Sample.Open) =
    [upMetric (H := Sample.runtime) Sample.exporter Sample.path None] ∧
  utf8.ValidString Sample.path = true.
Proof.
  assert (Hbuilt : Forall (λ m, prometheus.panics m = false)
                     (Collect (H := Sample.runtime) Sample.exporter Sample.Open)).
  { apply (bool_decide_unpack _). vm_compute. exact I. }
  destruct (collect_up_gauges (H := Sample.runtime) [Sample.path] false Sample.Open Hbuilt)
    as [Hup Hpaths].
  assert (Hscan : (collectStatusFromFile (H := Sample.runtime)
                     (NewOpenVPNExporter [Sample.path] false)
                     Sample.Open Sample.path).2 = None).
  { vm_compute. reflexivity. }
  split.
  - refine (eq_trans Hup _). cbn [map]. rewrite Hscan. reflexivity.
  - exact (Forall_inv Hpaths).
Defined.

(** X2 at the [up] gauge of the sample status file. *)
Lemma collect_label_values_witness :
  length (prometheus.labelValues (upMetric (H := Sample.runtime) Sample.exporter
                                    Sample.path None)) =
    length (prometheus.variableLabels
              (prometheus.desc (upMetric (H := Sample.runtime) Sample.exporter
                                  Sample.path None))) ∧
  ∃ statusPath, statusPath ∈ [Sample.path] ∧
    prometheus.labelValues (upMetric (H := Sample.runtime) Sample.exporter
                              Sample.path None) !! 0%nat = Some statusPath.
Proof.
  apply (collect_label_values (H := Sample.runtime) [Sample.path] false Sample.Open).
  apply (list_elem_of_lookup_2 _ 3).
  vm_compute. reflexivity.
Defined.

(** X3 at a version 2 document in which a client row stands twice. *)
Lemma repeated_row_sends_nothing_witness :
  ∃ sent st st',
    runsTo (serverLine (H := Sample.runtime) Sample.exporter Sample.path ",")
      serverState_init
      (["TITLE,OpenVPN 2.4.7"; "HEADER,CLIENT_LIST,Common Name,Bytes Received"] ++
       "CLIENT_LIST,alice,100" :: ["CLIENT_LIST,bob,300"]) = Some (sent, st) ∧
    length sent = 2%nat ∧
    runsTo (serverLine (H := Sample.runtime) Sample.exporter Sample.path ",")
      serverState_init
      (["TITLE,OpenVPN 2.4.7"; "HEADER,CLIENT_LIST,Common Name,Bytes Received"] ++
       "CLIENT_LIST,alice,100" :: ["CLIENT_LIST,bob,300"] ++ ["CLIENT_LIST,alice,100"]) =
      Some (sent, st') ∧
    recordedMetrics st' = recordedMetrics st.
Proof.
  pose (r := default ([], serverState_init)
               (runsTo (serverLine (H := Sample.runtime) Sample.exporter Sample.path ",")
                  serverState_init
                  (["TITLE,OpenVPN 2.4.7";
                    "HEADER,CLIENT_LIST,Common Name,Bytes Received"] ++
                   "CLIENT_LIST,alice,100" :: ["CLIENT_LIST,bob,300"]))).
  assert (Hrun : runsTo (serverLine (H := Sample.runtime) Sample.exporter Sample.path ",")
                   serverState_init
                   (["TITLE,OpenVPN 2.4.7";
                     "HEADER,CLIENT_LIST,Common Name,Bytes Received"] ++
                    "CLIENT_LIST,alice,100" :: ["CLIENT_LIST,bob,300"]) =
                 Some (r.1, r.2))
    by (vm_cast_no_check (@eq_refl _ (Some (r.1, r.2)))).
  assert (Hlen : length r.1 = 2%nat) by (vm_compute; reflexivity).
  destruct (proj1 (repeated_row_sends_nothing (H := Sample.runtime) [Sample.path] false
                     Sample.path)
              ","%char
              ["TITLE,OpenVPN 2.4.7"; "HEADER,CLIENT_LIST,Common Name,Bytes Received"]
              "CLIENT_LIST,alice,100" ["CLIENT_LIST,bob,300"] r.1 r.2)
    as (st' & Hagain & Hrecorded).
  - apply client_list_registered.
  - repeat constructor.
  - exact Hrun.
  - exists r.1, r.2, st'.
    split; [exact Hrun|]. split; [exact Hlen|]. split; [exact Hagain | exact Hrecorded].
Defined.

(** X4 at the received-bytes field and a version 2 document of two
    clients. *)
Lemma recorded_is_what_was_sent_witness :
  ∃ header field sent st,
    openvpnServerHeaders Sample.exporter !! "CLIENT_LIST" = Some header ∧
    field ∈ Metrics header ∧
    runsTo (serverLine (H := Sample.runtime) Sample.exporter Sample.path ",")
      serverState_init
      ["TITLE,OpenVPN 2.4.7"; "HEADER,CLIENT_LIST,Common Name,Bytes Received";
       "CLIENT_LIST,alice,100"; "CLIENT_LIST,bob,300"] = Some (sent, st) ∧
    recordedFor (recordedMetrics st) field = labelsSentFor field sent ∧
    length (recordedFor (recordedMetrics st) field) = 12%nat.
Proof.
  pose (received := prometheus.NewDesc "openvpn_server_client_received_bytes_total"
          "Amount of data received over a connection on the VPN server, in bytes."
          ["status_path"; "common_name"; "connection_time"; "real_address";
           "virtual_address"; "username"]).
  pose (sentBytes := prometheus.NewDesc "openvpn_server_client_sent_bytes_total"
          "Amount of data sent over a connection on the VPN server, in bytes."
          ["status_path"; "common_name"; "connection_time"; "real_address";
           "virtual_address"; "username"]).
  pose (field := {| Column := "Bytes Received"; Desc := received;
                    ValueType := prometheus.CounterValue |}).
  pose (header := {| LabelColumns := ["Common Name"; "Connected Since"; "Real Address";
                                      "Virtual Address"; "Common Name"];
                     Metrics := [field;
                                 {| Column := "Bytes Sent"; Desc := sentBytes;
                                    ValueType := prometheus.CounterValue |}] |}).
  pose (r := default ([], serverState_init)
               (runsTo (serverLine (H := Sample.runtime) Sample.exporter Sample.path ",")
                  serverState_init
                  ["TITLE,OpenVPN 2.4.7"; "HEADER,CLIENT_LIST,Common Name,Bytes Received";
                   "CLIENT_LIST,alice,100"; "CLIENT_LIST,bob,300"])).
  assert (Hrun : runsTo (serverLine (H := Sample.runtime) Sample.exporter Sample.path ",")
                   serverState_init
                   ["TITLE,OpenVPN 2.4.7"; "HEADER,CLIENT_LIST,Common Name,Bytes Received";
                    "CLIENT_LIST,alice,100"; "CLIENT_LIST,bob,300"] = Some (r.1, r.2))
    by (vm_cast_no_check (@eq_refl _ (Some (r.1, r.2)))).
  assert (Hreg : openvpnServerHeaders Sample.exporter !! "CLIENT_LIST" = Some header)
    by reflexivity.
  assert (Hin : field ∈ Metrics header) by apply list_elem_of_here.
  assert (Hlen : length (recordedFor (recordedMetrics r.2) field) = 12%nat)
    by (vm_compute; reflexivity).
  exists header, field, r.1, r.2.
  split; [exact Hreg|]. split; [exact Hin|]. split; [exact Hrun|]. split; [|exact Hlen].
  exact (proj1 (recorded_is_what_was_sent (H := Sample.runtime) [Sample.path] false
                  Sample.path "CLIENT_LIST" header field Hreg Hin)
           ","%char _ r.1 r.2 Hrun).
Defined.

(** X6 at the first row of a client: the common name was not recorded. *)
Lemma new_label_value_is_exported_witness :
  ∃ recorded',
    exportMetrics (H := Sample.runtime) {["Bytes Received" := "100"]} ["p"; "alice"] ∅
      [{| Column := "Bytes Received";
          Desc := prometheus.NewDesc "received" "help" ["status_path"; "common_name"];
          ValueType := prometheus.CounterValue |}] =
      (omap (metricOf (H := Sample.runtime) {["Bytes Received" := "100"]} ["p"; "alice"])
         [{| Column := "Bytes Received";
             Desc := prometheus.NewDesc "received" "help" ["status_path"; "common_name"];
             ValueType := prometheus.CounterValue |}],
       inr recorded') ∧
    Forall (λ m, prometheus.panics m = false)
      (omap (metricOf (H := Sample.runtime) {["Bytes Received" := "100"]} ["p"; "alice"])
         [{| Column := "Bytes Received";
             Desc := prometheus.NewDesc "received" "help" ["status_path"; "common_name"];
             ValueType := prometheus.CounterValue |}]) ∧
    ∀ field,
      field ∈ [{| Column := "Bytes Received";
                  Desc := prometheus.NewDesc "received" "help"
                            ["status_path"; "common_name"];
                  ValueType := prometheus.CounterValue |}] →
      is_Some (({["Bytes Received" := "100"]} : gmap string string) !! Column field) →
      recordedFor recorded' field = recordedFor ∅ field ++ ["p"; "alice"].
Proof.
  apply (new_label_value_is_exported (H := Sample.runtime) _ _ _ _ "alice").
  - apply NoDup_singleton.
  - apply list_elem_of_further, list_elem_of_here.
  - intros field Hin. apply not_elem_of_nil.
  - intros field value Hin Hcol. apply list_elem_of_singleton in Hin. subst field.
    vm_compute in Hcol. injection Hcol as <-. exists 100%Z. reflexivity.
  - intros field Hin _. apply list_elem_of_singleton in Hin. subst field. reflexivity.
Defined.

(** X7 at a row with one value more than the header has names. *)
Lemma v4_column_values_witness :
  rowValuesV4 ["Common Name"; "Bytes Received"] ["alice"; "100"; "extra"]
    !! "Bytes Received" = Some "100".
Proof.
  assert (Hnodup : NoDup ["Common Name"; "Bytes Received"]).
  { apply (bool_decide_unpack _). vm_compute. exact I. }
  exact (proj1 (v4_column_values ["Common Name"; "Bytes Received"]
                  ["alice"; "100"; "extra"] Hnodup)
           1%nat "Bytes Received" "100" eq_refl eq_refl).
Defined.

(** X8 at a row whose header lacks the label column [Real Address]. *)
Lemma v2_column_values_witness :
  rowValues {| LabelColumns := ["Common Name"; "Real Address"]; Metrics := [] |}
    ["Common Name"; "Bytes Received"] ["CLIENT_LIST"; "alice"; "100"]
    !! "Bytes Received" = Some "100" ∧
  rowValues {| LabelColumns := ["Common Name"; "Real Address"]; Metrics := [] |}
    ["Common Name"; "Bytes Received"] ["CLIENT_LIST"; "alice"; "100"]
    !! "Real Address" = Some "".
Proof.
  assert (Hnodup : NoDup ["Common Name"; "Bytes Received"]).
  { apply (bool_decide_unpack _). vm_compute. exact I. }
  destruct (v2_column_values
              {| LabelColumns := ["Common Name"; "Real Address"]; Metrics := [] |}
              ["Common Name"; "Bytes Received"] ["CLIENT_LIST"; "alice"; "100"] Hnodup)
    as (Hcolumn & Hlabel & _).
  split.
  - exact (Hcolumn 1%nat "Bytes Received" eq_refl).
  - apply Hlabel.
    + apply (bool_decide_unpack _). vm_compute. exact I.
    + apply list_elem_of_further, list_elem_of_here.
Defined.

(** X9 at two version 4 streams at the end of which the reader fails: in
    the first a line follows the [END] line, and the scan returns no
    error; the second ends with [END] and no newline, and the scan returns
    the error of the reader. *)
Lemma end_line_v4_and_others_witness :
  (collectServerStatusFromReaderV4 (H := Sample.runtime) Sample.exporter Sample.path
     (Sample.failing ["OpenVPN CLIENT LIST"; "alice,192.0.2.1:1194,100,200"; "END";
                      "Updated,not a date"] "")).2 = None ∧
  (collectServerStatusFromReaderV4 (H := Sample.runtime) Sample.exporter Sample.path
     (Sample.failing ["OpenVPN CLIENT LIST"; "alice,192.0.2.1:1194,100,200"] "END")).2 =
    Some (ReadError "read: input/output error").
Proof.
  pose (r := default ([], serverStateV4_init)
               (runsTo (serverLineV4 (H := Sample.runtime) Sample.exporter Sample.path)
                  serverStateV4_init
                  ["OpenVPN CLIENT LIST"; "alice,192.0.2.1:1194,100,200"])).
  assert (Hrun : runsTo (serverLineV4 (H := Sample.runtime) Sample.exporter Sample.path)
                   serverStateV4_init
                   ["OpenVPN CLIENT LIST"; "alice,192.0.2.1:1194,100,200"] =
                 Some (r.1, r.2))
    by (vm_cast_no_check (@eq_refl _ (Some (r.1, r.2)))).
  split.
  - refine (proj1 (proj2 (proj1 (end_line_v4_and_others (H := Sample.runtime)
                                   Sample.exporter Sample.path
                                   (Sample.failing
                                      ["OpenVPN CLIENT LIST";
                                       "alice,192.0.2.1:1194,100,200"; "END";
                                       "Updated,not a date"] "")
                                   (Sample.document [])
                                   ["OpenVPN CLIENT LIST"; "alice,192.0.2.1:1194,100,200"]
                                   ["Updated,not a date"] [] eq_refl)
                            r.1 r.2 Hrun))
              (or_introl _)).
    discriminate.
  - exact (proj2 (proj2 (proj1 (end_line_v4_and_others (H := Sample.runtime)
                                  Sample.exporter Sample.path
                                  (Sample.failing
                                     ["OpenVPN CLIENT LIST";
                                      "alice,192.0.2.1:1194,100,200"] "END")
                                  (Sample.document [])
                                  ["OpenVPN CLIENT LIST"; "alice,192.0.2.1:1194,100,200"]
                                  [] [] eq_refl)
                           r.1 r.2 Hrun))
             eq_refl eq_refl).
Defined.

(** X11 at a client row with one field too few. *)
Lemma header_in_force_and_arity_witness :
  ∃ st,
    runsTo (serverLine (H := Sample.runtime) Sample.exporter Sample.path ",")
      serverState_init
      (["TITLE,OpenVPN 2.4.7"] ++
       "HEADER,CLIENT_LIST,Common Name,Bytes Received" :: ["GLOBAL_STATS,x,0"]) =
      Some ([], st) ∧
    headersFound st !! "CLIENT_LIST" = Some ["Common Name"; "Bytes Received"] ∧
    serverLine (H := Sample.runtime) Sample.exporter Sample.path "," st
      "CLIENT_LIST,alice" = ([], Return (DifferentNumberOfColumns "CLIENT_LIST")).
Proof.
  pose (r := default ([], serverState_init)
               (runsTo (serverLine (H := Sample.runtime) Sample.exporter Sample.path ",")
                  serverState_init
                  (["TITLE,OpenVPN 2.4.7"] ++
                   "HEADER,CLIENT_LIST,Common Name,Bytes Received" ::
                   ["GLOBAL_STATS,x,0"]))).
  assert (Hrun : runsTo (serverLine (H := Sample.runtime) Sample.exporter Sample.path ",")
                   serverState_init
                   (["TITLE,OpenVPN 2.4.7"] ++
                    "HEADER,CLIENT_LIST,Common Name,Bytes Received" ::
                    ["GLOBAL_STATS,x,0"]) = Some ([], r.2))
    by (vm_cast_no_check (@eq_refl _ (Some (@nil (@prometheus.Metric Sample.runtime), r.2)))).
  destruct (header_in_force_and_arity (H := Sample.runtime) [Sample.path] false Sample.path
              "," ["TITLE,OpenVPN 2.4.7"] ["GLOBAL_STATS,x,0"]
              "HEADER,CLIENT_LIST,Common Name,Bytes Received" "CLIENT_LIST,alice"
              "CLIENT_LIST" ["Common Name"; "Bytes Received"] [] r.2)
    as [Hfound Harity].
  - apply client_list_registered.
  - reflexivity.
  - discriminate.
  - repeat constructor.
  - exact Hrun.
  - exists r.2. split; [exact Hrun|]. split; [exact Hfound|].
    apply Harity; [reflexivity | simpl; lia].
Defined.

(** X12 at a client document in which a counter stands twice. *)
Lemma client_one_metric_per_line_witness :
  length (collectClientStatusFromReader (H := Sample.runtime) Sample.exporter Sample.path
            (Sample.document
               ["OpenVPN STATISTICS"; "Updated,Sun Oct 20 09:23:08 2024";
                "TCP/UDP read bytes,1234"; "TCP/UDP read bytes,1234"; "END"])).1 =
  length (filter (λ text, length (strings.Split text ",") = 2%nat)
            ["OpenVPN STATISTICS"; "Updated,Sun Oct 20 09:23:08 2024";
             "TCP/UDP read bytes,1234"; "TCP/UDP read bytes,1234"; "END"]).
Proof.
  apply (client_one_metric_per_line (H := Sample.runtime) Sample.exporter Sample.path
           (Sample.document
              ["OpenVPN STATISTICS"; "Updated,Sun Oct 20 09:23:08 2024";
               "TCP/UDP read bytes,1234"; "TCP/UDP read bytes,1234"; "END"])).
  vm_compute. reflexivity.
Defined.

(** X13 at a version 2 document with a line of unknown key. *)
Lemma scan_errors_witness :
  UnsupportedKey "garbage" = UnexpectedFileContents
    (bufio.Peek (Sample.document ["TITLE,OpenVPN 2.4.7"; "garbage"]) 18)
  ∨ (UnsupportedKey "garbage" = ErrTooLong ∧
     ∃ line,
       line ∈ bufio.scanLines
                (bufio.data (Sample.document ["TITLE,OpenVPN 2.4.7"; "garbage"])) ∧
       (bufio.MaxScanTokenSize ≤ N.of_nat (String.length line.1))%N)
  ∨ bufio.readErr (Sample.document ["TITLE,OpenVPN 2.4.7"; "garbage"]) =
      Some (UnsupportedKey "garbage")
  ∨ ∃ line,
      line ∈ bufio.tokens
               (bufio.NewScanner (Sample.document ["TITLE,OpenVPN 2.4.7"; "garbage"])) ∧
      ((∃ value, UnsupportedKey "garbage" = NumError value ∧
                 ParseFloat (GoRuntime := Sample.runtime) value = None)
       ∨ (∃ layout value, UnsupportedKey "garbage" = TimeParseError layout value ∧
            (time_Parse (GoRuntime := Sample.runtime) layout value = None ∨
             time_ParseInLocation_Local (GoRuntime := Sample.runtime) layout value = None))
       ∨ (∃ sep, (sep = ","%char ∨ sep = tab) ∧
            (UnsupportedKey "garbage" = ShouldBePrecededByHeaders (firstField sep line) ∨
             UnsupportedKey "garbage" = DifferentNumberOfColumns (firstField sep line) ∨
             UnsupportedKey "garbage" = UnsupportedKey (firstField sep line)))).
Proof.
  apply (scan_errors (H := Sample.runtime) Sample.exporter Sample.path
           (Sample.document ["TITLE,OpenVPN 2.4.7"; "garbage"])).
  vm_compute. reflexivity.
Defined.

(** X14 at a stream of three bytes. *)
Lemma short_stream_is_unexpected_witness :
  collectStatusFromReader (H := Sample.runtime) Sample.exporter Sample.path
    {| bufio.data := "abc"; bufio.readErr := None |} =
    ([], Some (UnexpectedFileContents "abc")).
Proof.
  apply (short_stream_is_unexpected (H := Sample.runtime) Sample.exporter Sample.path
           {| bufio.data := "abc"; bufio.readErr := None |}).
  simpl. lia.
Defined.

(** X15 at the received-bytes counter of a version 2 client row whose
    header has the common name and the real address. *)
Lemma row_label_values_witness :
  ∃ pre line post sent st header columnNames,
    bufio.tokens
      (bufio.NewScanner
         (Sample.document
            ["TITLE,OpenVPN 2.4.7";
             "HEADER,CLIENT_LIST,Common Name,Real Address,Bytes Received";
             "CLIENT_LIST,alice,192.0.2.1:1194,100"; "END"])) = pre ++ line :: post ∧
    runsTo (serverLine (H := Sample.runtime) Sample.exporter Sample.path ",")
      serverState_init pre = Some (sent, st) ∧
    headersFound st !! firstField "," line = Some columnNames ∧
    firstField "," line = "CLIENT_LIST" ∧
    [Sample.path; "alice"; ""; "192.0.2.1:1194"; ""; "alice"] =
      [Sample.path;
       valueOf (rowValues header columnNames (strings.Split line ",")) "Common Name";
       valueOf (rowValues header columnNames (strings.Split line ",")) "Connected Since";
       valueOf (rowValues header columnNames (strings.Split line ",")) "Real Address";
       valueOf (rowValues header columnNames (strings.Split line ",")) "Virtual Address";
       valueOf (rowValues header columnNames (strings.Split line ",")) "Common Name"].
Proof.
  pose (m := prometheus.MustNewConstMetric (H := Sample.runtime)
               (prometheus.NewDesc "openvpn_server_client_received_bytes_total"
                  "Amount of data received over a connection on the VPN server, in bytes."
                  ["status_path"; "common_name"; "connection_time"; "real_address";
                   "virtual_address"; "username"])
               prometheus.CounterValue (@float64_of_int Sample.runtime 100)
               [Sample.path; "alice"; ""; "192.0.2.1:1194"; ""; "alice"]).
  assert (Hsent : m ∈ (collectServerStatusFromReader Sample.exporter Sample.path
            (Sample.document
               ["TITLE,OpenVPN 2.4.7";
                "HEADER,CLIENT_LIST,Common Name,Real Address,Bytes Received";
                "CLIENT_LIST,alice,192.0.2.1:1194,100"; "END"]) ",").1).
  { apply (list_elem_of_lookup_2 _ 0). vm_compute. reflexivity. }
  destruct (proj1 (row_label_values (H := Sample.runtime) [Sample.path] false Sample.path
                     _ m) ","%char Hsent (or_introl eq_refl))
    as (pre & line & post & sent & st & header & columnNames &
        Htok & Hrun & Hreg & Hfound & Hclient & _).
  destruct (Hclient eq_refl) as [Hsection Hlabels].
  exists pre, line, post, sent, st, header, columnNames.
  split; [exact Htok|]. split; [exact Hrun|]. split; [exact Hfound|].
  split; [exact Hsection|]. exact Hlabels.
Defined.

(** X16 at the [up] gauge of the sample status file. *)
Lemma describe_announces_up_only_witness :
  ∃ path, path ∈ [Sample.path] ∧
    upMetric (H := Sample.runtime) Sample.exporter Sample.path None =
    upMetric (H := Sample.runtime) Sample.exporter path
      (collectStatusFromFile (H := Sample.runtime) Sample.exporter Sample.Open path).2.
Proof.
  destruct (describe_announces_up_only (H := Sample.runtime) [Sample.path] false
              Sample.Open Sample.path
              (upMetric (H := Sample.runtime) Sample.exporter Sample.path None))
    as (_ & _ & Hup).
  apply Hup.
  - apply (list_elem_of_lookup_2 _ 3). vm_compute. reflexivity.
  - apply list_elem_of_here.
Defined.

(** X17 at a version 2 stream whose second line has 65536 bytes. *)
Lemma line_too_long_witness :
  collectServerStatusFromReader (H := Sample.runtime) Sample.exporter Sample.path
    {| bufio.data := streamOf ["TITLE,OpenVPN 2.4.7"] (Sample.long +:+ "");
       bufio.readErr := None |} "," =
    ([prometheus.MustNewConstMetric (H := Sample.runtime)
        (openvpnConnectedClientsDesc Sample.exporter) prometheus.GaugeValue
        (@float64_of_int Sample.runtime 0) [Sample.path]],
     Some ErrTooLong).
Proof.
  destruct (line_too_long (H := Sample.runtime) Sample.exporter Sample.path
              ["TITLE,OpenVPN 2.4.7"] Sample.long "" None) as (_ & _ & Hserver & _).
  - constructor; [|constructor]. split; [reflexivity | vm_compute; reflexivity].
  - vm_compute. reflexivity.
  - vm_compute. discriminate.
  - by left.
  - exact (Hserver ","%char [] serverState_init eq_refl).
Defined.

(** X18 at the sample status file. *)
Lemma valid_input_never_panics_witness :
  Forall (λ m, prometheus.panics m = false)
    (Collect (H := Sample.runtime) Sample.exporter Sample.Open).
Proof.
  refine (proj2 (valid_input_never_panics (H := Sample.runtime) [Sample.path] false
                   Sample.Open _ _)).
  - constructor; [vm_compute; reflexivity | constructor].
  - intros statusPath conn Hin Hopen.
    apply list_elem_of_singleton in Hin. subst statusPath.
    vm_compute in Hopen. injection Hopen as <-. vm_compute. reflexivity.
Defined.
